(** * REST-vs-MCP: the network simulator, the SSE client and the benchmark batch

    A shallow embedding of
      - [clients/network_sim.py]   ([NetworkSimulator]),
      - [clients/mcp_client.py]    ([_send_request_async], [connect_sse],
                                    [listen_for_events]),
      - [benchmarks/run_benchmark_advanced.py] (the seven scenarios and
                                    [run_all_benchmarks]),
    followed by the properties established about them.

    Conventions.  Python numbers that take part in the simulator's
    arithmetic are rationals ([Q]); the tests the code makes on them
    ([>], [<]) are exact on floats as well.  ``Awaiting'' is sequencing:
    every [await] is a point where an effect is appended to the log of the
    world.  Exceptions are the [Raised] outcome of a computation. *)

From Stdlib Require Import QArith Qminmax ZArith NArith List String Ascii Bool Lia.
Import ListNotations.

Set Warnings "-register-all".

Local Open Scope string_scope.
Local Open Scope list_scope.

(* ===================================================================== *)
(** * Part I.  The model                                                  *)
(* ===================================================================== *)

(** ** Python values used by the code *)

(** What [json.loads] returns: [None], [bool], [int], [float], [str],
    [list], [dict].  A [dict] keeps its items in insertion order. *)
Inductive json : Type :=
| JNull
| JBool (b : bool)
| JInt (n : Z)
| JFloat (lexeme : string)
| JStr (s : string)
| JArr (items : list json)
| JObj (items : list (string * json)).

Module Json.

(** [d.get(key)] on the items of a dict; [None] when the key is absent. *)
Fixpoint get (items : list (string * json)) (key : string) : option json :=
  match items with
  | [] => None
  | (k, v) :: rest => if String.eqb k key then Some v else get rest key
  end.

(** [d[key] = v] on the items of a dict: an existing key keeps its place. *)
Fixpoint set (items : list (string * json)) (key : string) (v : json)
  : list (string * json) :=
  match items with
  | [] => [(key, v)]
  | (k, v0) :: rest =>
      if String.eqb k key then (k, v) :: rest else (k, v0) :: set rest key v
  end.

(** *** A decoder for JSON texts *)

Definition chars : Type := list ascii.

Definition dquote : ascii := ascii_of_nat 34.
Definition backslash : ascii := ascii_of_nat 92.

Definition code (c : ascii) : N := N_of_ascii c.

Definition is_ws (c : ascii) : bool :=
  (code c =? 32)%N || (code c =? 9)%N || (code c =? 10)%N || (code c =? 13)%N.

Definition is_digit (c : ascii) : bool := (48 <=? code c)%N && (code c <=? 57)%N.

Fixpoint skip_ws (s : chars) : chars :=
  match s with
  | c :: rest => if is_ws c then skip_ws rest else s
  | [] => []
  end.

(** The longest run of digits at the head of [s]. *)
Fixpoint digits (s : chars) : chars * chars :=
  match s with
  | c :: rest =>
      if is_digit c then let (ds, r) := digits rest in (c :: ds, r) else ([], s)
  | [] => ([], [])
  end.

Definition digits_value (ds : chars) : N :=
  fold_left (fun acc c => (acc * 10 + (code c - 48))%N) ds 0%N.

(** [s] without the prefix [p], when it has it. *)
Fixpoint strip_prefix (p s : chars) : option chars :=
  match p, s with
  | [], _ => Some s
  | a :: p', b :: s' => if Ascii.eqb a b then strip_prefix p' s' else None
  | _ :: _, [] => None
  end.

Definition chars_of (s : string) : chars := list_ascii_of_string s.
Definition text_of (s : chars) : string := string_of_list_ascii s.

(** The integer part of a number: an optional minus sign, then either a
    single 0 or a digit from 1 to 9 followed by any digits. *)
Definition int_part (s : chars) : option (chars * chars) :=
  let (sign, body) := match s with
                      | c :: rest => if (code c =? 45)%N then ([c], rest) else ([], s)
                      | [] => ([], s)
                      end in
  match body with
  | c :: rest =>
      if (code c =? 48)%N then Some (sign ++ [c], rest)
      else if is_digit c then let (ds, r) := digits rest in Some (sign ++ c :: ds, r)
      else None
  | [] => None
  end.

(** The optional fraction: a dot followed by at least one digit. *)
Definition frac_part (s : chars) : chars * chars :=
  match s with
  | c :: rest =>
      if (code c =? 46)%N
      then match digits rest with
           | ([], _) => ([], s)
           | (ds, r) => (c :: ds, r)
           end
      else ([], s)
  | [] => ([], s)
  end.

(** The optional exponent: e or E, an optional sign, at least one digit. *)
Definition exp_part (s : chars) : chars * chars :=
  match s with
  | e :: rest =>
      if (code e =? 101)%N || (code e =? 69)%N
      then let (sign, body) :=
             match rest with
             | c :: rest' =>
                 if (code c =? 43)%N || (code c =? 45)%N then ([c], rest') else ([], rest)
             | [] => ([], rest)
             end in
           match digits body with
           | ([], _) => ([], s)
           | (ds, r) => (e :: sign ++ ds, r)
           end
      else ([], s)
  | [] => ([], s)
  end.

Definition int_value (lexeme : chars) : Z :=
  match lexeme with
  | c :: rest => if (code c =? 45)%N then (- Z.of_N (digits_value rest))%Z
                 else Z.of_N (digits_value lexeme)
  | [] => 0%Z
  end.

(** A number: an [int] when it has neither fraction nor exponent, a
    [float] otherwise. *)
Definition number (s : chars) : option (json * chars) :=
  match int_part s with
  | None => None
  | Some (i, r1) =>
      let (f, r2) := frac_part r1 in
      let (e, r3) := exp_part r2 in
      match f, e with
      | [], [] => Some (JInt (int_value i), r3)
      | _, _ => Some (JFloat (text_of (i ++ f ++ e)), r3)
      end
  end.

Definition hex_value (c : ascii) : option N :=
  let n := code c in
  if is_digit c then Some (n - 48)%N
  else if (97 <=? n)%N && (n <=? 102)%N then Some (n - 87)%N
  else if (65 <=? n)%N && (n <=? 70)%N then Some (n - 55)%N
  else None.

(** The UTF-8 bytes of a code unit below 0x10000. *)
Definition utf8 (u : N) : chars :=
  if (u <? 128)%N then [ascii_of_N u]
  else if (u <? 2048)%N
       then [ascii_of_N (192 + u / 64); ascii_of_N (128 + u mod 64)]
       else [ascii_of_N (224 + u / 4096); ascii_of_N (128 + (u / 64) mod 64);
             ascii_of_N (128 + u mod 64)].

Definition escape (c : ascii) : option ascii :=
  let n := code c in
  if (n =? 34)%N || (n =? 92)%N || (n =? 47)%N then Some c
  else if (n =? 98)%N then Some (ascii_of_nat 8)
  else if (n =? 102)%N then Some (ascii_of_nat 12)
  else if (n =? 110)%N then Some (ascii_of_nat 10)
  else if (n =? 114)%N then Some (ascii_of_nat 13)
  else if (n =? 116)%N then Some (ascii_of_nat 9)
  else None.

(** The characters of a string up to its closing quote, the opening quote
    having been read. *)
Fixpoint string_body (s : chars) : option (chars * chars) :=
  match s with
  | [] => None
  | c :: rest =>
      if Ascii.eqb c dquote then Some ([], rest)
      else if Ascii.eqb c backslash then
        match rest with
        | e :: rest1 =>
            if (code e =? 117)%N then
              match rest1 with
              | h1 :: h2 :: h3 :: h4 :: rest2 =>
                  match hex_value h1, hex_value h2, hex_value h3, hex_value h4 with
                  | Some a, Some b, Some c', Some d =>
                      match string_body rest2 with
                      | Some (body, r) =>
                          Some (utf8 (((a * 16 + b) * 16 + c') * 16 + d) ++ body, r)
                      | None => None
                      end
                  | _, _, _, _ => None
                  end
              | _ => None
              end
            else
              match escape e, string_body rest1 with
              | Some x, Some (body, r) => Some (x :: body, r)
              | _, _ => None
              end
        | [] => None
        end
      else if (code c <? 32)%N then None
      else match string_body rest with
           | Some (body, r) => Some (c :: body, r)
           | None => None
           end
  end.

Definition literal (s : chars) : option (json * chars) :=
  match strip_prefix (chars_of "null") s with
  | Some r => Some (JNull, r)
  | None =>
  match strip_prefix (chars_of "true") s with
  | Some r => Some (JBool true, r)
  | None =>
  match strip_prefix (chars_of "false") s with
  | Some r => Some (JBool false, r)
  | None =>
  match number s with
  | Some res => Some res
  | None =>
  match strip_prefix (chars_of "NaN") s with
  | Some r => Some (JFloat "NaN", r)
  | None =>
  match strip_prefix (chars_of "Infinity") s with
  | Some r => Some (JFloat "Infinity", r)
  | None =>
  match strip_prefix (chars_of "-Infinity") s with
  | Some r => Some (JFloat "-Infinity", r)
  | None => None
  end end end end end end end.

(** One value at the head of [s] (no leading white space), then the
    items of an array after its bracket, then the members of an object
    after its brace. *)
Fixpoint value (fuel : nat) (s : chars) {struct fuel} : option (json * chars) :=
  match fuel with
  | O => None
  | S fuel' =>
      match s with
      | [] => None
      | c :: rest =>
          if Ascii.eqb c dquote then
            match string_body rest with
            | Some (body, r) => Some (JStr (text_of body), r)
            | None => None
            end
          else if (code c =? 123)%N then
            match skip_ws rest with
            | c1 :: r1 =>
                if (code c1 =? 125)%N then Some (JObj [], r1)
                else match members fuel' (c1 :: r1) [] with
                     | Some (items, r) => Some (JObj items, r)
                     | None => None
                     end
            | [] => None
            end
          else if (code c =? 91)%N then
            match skip_ws rest with
            | c1 :: r1 =>
                if (code c1 =? 93)%N then Some (JArr [], r1)
                else match elements fuel' (c1 :: r1) with
                     | Some (items, r) => Some (JArr items, r)
                     | None => None
                     end
            | [] => None
            end
          else literal s
      end
  end

with elements (fuel : nat) (s : chars) {struct fuel} : option (list json * chars) :=
  match fuel with
  | O => None
  | S fuel' =>
      match value fuel' s with
      | Some (v, r) =>
          match skip_ws r with
          | c :: r1 =>
              if (code c =? 44)%N then
                match elements fuel' (skip_ws r1) with
                | Some (vs, r2) => Some (v :: vs, r2)
                | None => None
                end
              else if (code c =? 93)%N then Some ([v], r1)
              else None
          | [] => None
          end
      | None => None
      end
  end

with members (fuel : nat) (s : chars) (acc : list (string * json)) {struct fuel}
  : option (list (string * json) * chars) :=
  match fuel with
  | O => None
  | S fuel' =>
      match s with
      | q :: r0 =>
          if Ascii.eqb q dquote then
            match string_body r0 with
            | Some (key, r1) =>
                match skip_ws r1 with
                | colon :: r2 =>
                    if (code colon =? 58)%N then
                      match value fuel' (skip_ws r2) with
                      | Some (v, r3) =>
                          let acc' := set acc (text_of key) v in
                          match skip_ws r3 with
                          | c :: r4 =>
                              if (code c =? 44)%N then members fuel' (skip_ws r4) acc'
                              else if (code c =? 125)%N then Some (acc', r4)
                              else None
                          | [] => None
                          end
                      | None => None
                      end
                    else None
                | [] => None
                end
            | None => None
            end
          else None
      | [] => None
      end
  end.

(** [json.loads(text)]: one value, white space allowed around it and
    nothing else; [None] stands for [JSONDecodeError]. *)
Definition loads (text : string) : option json :=
  let s := chars_of text in
  match value (2 * List.length s + 2) (skip_ws s) with
  | Some (v, r) => match skip_ws r with [] => Some v | _ :: _ => None end
  | None => None
  end.

(** A text written with ['] where JSON has the double quote. *)
Definition dq (s : string) : string :=
  text_of (map (fun c => if (code c =? 39)%N then dquote else c) (chars_of s)).

(** A decimal numeral the way [str] prints a float of the size of a time
    stamp: a leading digit, more digits, a dot, the digits of the fraction. *)
Definition decimal (lead : ascii) (more fraction : chars) : string :=
  text_of (lead :: more ++ ascii_of_nat 46 :: fraction).

End Json.

(** Exceptions the modelled code raises, catches or lets through. *)
Inductive exn : Type :=
| ConnectionError (msg : string)      (* builtin, raised by the simulator *)
| ZeroDivisionError
| AttributeError                      (* [.get] on a value that is no dict *)
| JSONDecodeError
| ReadTimeout                         (* httpx.ReadTimeout *)
| ConnectError                        (* httpx.ConnectError *)
| HTTPStatusError (code : Z)          (* response.raise_for_status() *)
| KeyError (key : string).

Inductive outcome (A : Type) : Type :=
| Ok (a : A)
| Raised (e : exn).
Arguments Ok {A} a.
Arguments Raised {A} e.

(** ** Computations: state passing with exceptions *)

Module Comp.

Definition M (S A : Type) : Type := S -> outcome A * S.

Definition ret {S A} (a : A) : M S A := fun s => (Ok a, s).

Definition bind {S A B} (c : M S A) (k : A -> M S B) : M S B :=
  fun s => match c s with
           | (Ok a, s') => k a s'
           | (Raised e, s') => (Raised e, s')
           end.

Definition raise {S A} (e : exn) : M S A := fun s => (Raised e, s).

Definition get_state {S} : M S S := fun s => (Ok s, s).
Definition modify {S} (f : S -> S) : M S unit := fun s => (Ok tt, f s).

(** [try: body  except <handled>: handler(e)]; an exception that the
    clause does not name goes through. *)
Definition try_except {S A} (body : M S A) (handled : exn -> bool)
    (handler : exn -> M S A) : M S A :=
  fun s => match body s with
           | (Ok a, s') => (Ok a, s')
           | (Raised e, s') =>
               if handled e then handler e s' else (Raised e, s')
           end.

(** [try: body  finally: cleanup]; the exception of the body, if any, is
    raised again after the cleanup. *)
Definition try_finally {S A} (body : M S A) (cleanup : M S unit) : M S A :=
  fun s => match body s with
           | (Ok a, s') =>
               match cleanup s' with
               | (Ok _, s'') => (Ok a, s'')
               | (Raised e, s'') => (Raised e, s'')
               end
           | (Raised e, s') =>
               match cleanup s' with
               | (Ok _, s'') => (Raised e, s'')
               | (Raised e', s'') => (Raised e', s'')
               end
           end.

(** Run a computation on a component of a larger state. *)
Definition zoom {S T A} (proj : T -> S) (upd : S -> T -> T) (c : M S A)
  : M T A :=
  fun t => match c (proj t) with (r, s') => (r, upd s' t) end.

(** [except Exception] and the bare [except:] handle every exception of
    the model. *)
Definition any_exception (e : exn) : bool := true.

End Comp.
Export Comp.

Declare Scope comp_scope.
Delimit Scope comp_scope with comp.
Notation "x <- c ;; k" := (bind c (fun x => k))
  (at level 61, c at next level, right associativity) : comp_scope.
Notation "c ;; k" := (bind c (fun _ => k))
  (at level 61, right associativity) : comp_scope.
Local Open Scope comp_scope.

(** ** Numbers *)

(** [x < y] as the boolean the code branches on. *)
Definition Qltb (x y : Q) : bool := negb (Qle_bool y x).

(** ** The world an [async] call runs in *)

(** Effects a call leaves in the log, oldest first. *)
Inductive effect : Type :=
| Sleep (seconds : Q)                       (* await asyncio.sleep(seconds) *)
| Post (path : string) (payload : json).    (* await async_client.post(path, json=payload) *)

(** [rand] holds the successive values of [random.random()]; [drawn]
    counts how many of them have been consumed. *)
Record world : Type := mkWorld {
  rand : nat -> Q;
  drawn : nat;
  log : list effect
}.

(** [random.random()] *)
Definition random : M world Q :=
  fun w => (Ok (rand w (drawn w)), mkWorld (rand w) (S (drawn w)) (log w)).

(** [await asyncio.sleep(seconds)] *)
Definition sleep (seconds : Q) : M world unit :=
  fun w => (Ok tt, mkWorld (rand w) (drawn w) (log w ++ [Sleep seconds])).

(** [a / b] on numbers. *)
Definition truediv {S} (a b : Q) : M S Q :=
  if Qeq_bool b 0 then raise ZeroDivisionError else ret (a / b).

(** The contract of [random.random()]: every draw lies in [0, 1). *)
Definition uniform_draws (w : world) : Prop :=
  forall i, 0 <= rand w i /\ rand w i < 1.

(** Time a log accounts for.  [asyncio.sleep] with a non-positive delay
    yields once and returns at once. *)
Definition delay_of (e : effect) : Q :=
  match e with
  | Sleep d => Qmax 0 d
  | Post _ _ => 0
  end.

Fixpoint injected_delay (l : list effect) : Q :=
  match l with
  | [] => 0
  | e :: rest => delay_of e + injected_delay rest
  end.

Definition is_post (e : effect) : bool :=
  match e with Post _ _ => true | Sleep _ => false end.

(** The remote calls recorded in a log. *)
Definition remote_calls (l : list effect) : list effect := filter is_post l.

(** ** Strings *)

Module Str.

(** [s.startswith(prefix)] *)
Definition startswith (s prefix : string) : bool := String.prefix prefix s.

(** [s[n:]] *)
Fixpoint slice_from (n : nat) (s : string) : string :=
  match n, s with
  | O, _ => s
  | S n', String _ rest => slice_from n' rest
  | S _, EmptyString => EmptyString
  end.

(** [c.isspace()] on the ASCII range. *)
Definition isspace (c : ascii) : bool :=
  let n := N_of_ascii c in
  ((9 <=? n)%N && (n <=? 13)%N) || ((28 <=? n)%N && (n <=? 32)%N).

Fixpoint lstrip_chars (s : list ascii) : list ascii :=
  match s with
  | c :: rest => if isspace c then lstrip_chars rest else s
  | [] => []
  end.

(** [s.strip()] *)
Definition strip (s : string) : string :=
  string_of_list_ascii
    (rev (lstrip_chars (rev (lstrip_chars (list_ascii_of_string s))))).

Definition newline : string := String (ascii_of_nat 10) EmptyString.

(** The lines of a text, line ends removed; [pending] holds the characters
    of the line being read, last first. *)
Fixpoint lines_from (s : string) (pending : list ascii) : list string :=
  match s with
  | EmptyString =>
      match pending with
      | [] => []
      | _ :: _ => [string_of_list_ascii (rev pending)]
      end
  | String c rest =>
      if (N_of_ascii c =? 10)%N
      then string_of_list_ascii (rev pending) :: lines_from rest []
      else lines_from rest (c :: pending)
  end.

(** [s.splitlines()] for texts whose lines end in a line feed. *)
Definition splitlines (s : string) : list string := lines_from s [].

End Str.
Import Str.

(** ** clients/network_sim.py *)

Module NetworkSim.

Record NetworkSimulator : Type := mkSim {
  latency_ms : Q;
  packet_loss_rate : Q;
  bandwidth_mbps : Q
}.

(** [NetworkSimulator()] with the defaults of [__init__]. *)
Definition init : NetworkSimulator := mkSim 0 0 0.

Definition packet_loss : exn := ConnectionError "Simulated Network Packet Loss".

(** [async def simulate_network(self)].  The conjunction is Python's
    [and]: [random.random()] is evaluated only when the rate is positive. *)
Definition simulate_network (self : NetworkSimulator) : M world unit :=
  lost <- (if Qltb 0 (packet_loss_rate self)
           then r <- random ;; ret (Qltb r (packet_loss_rate self))
           else ret false) ;;
  (if lost : bool
   then d <- truediv (latency_ms self) 1000 ;;
        sleep d ;;
        raise packet_loss
   else ret tt) ;;
  if Qltb 0 (latency_ms self)
  then d <- truediv (latency_ms self) 1000 ;; sleep d
  else ret tt.

(** [async def simulate_transfer(self, bytes_count)] *)
Definition simulate_transfer (self : NetworkSimulator) (bytes_count : Z)
  : M world unit :=
  simulate_network self ;;
  if Qltb 0 (bandwidth_mbps self)
  then let bits := (bytes_count * 8)%Z in
       let bits_per_second := bandwidth_mbps self * 1000000 in
       transfer_time <- truediv (inject_Z bits) bits_per_second ;;
       sleep transfer_time
  else ret tt.

(** [def set_conditions(self, latency_ms, packet_loss_rate, bandwidth_mbps=0.0)] *)
Definition set_conditions (self : NetworkSimulator)
    (latency_ms packet_loss_rate : Q) (bandwidth_mbps : option Q)
  : NetworkSimulator :=
  mkSim latency_ms packet_loss_rate
        (match bandwidth_mbps with Some b => b | None => 0 end).

(** [n] successive calls made one after the other, each in its own
    [try/except]; the result counts the calls that raised. *)
Fixpoint drops_in (n : nat) (self : NetworkSimulator) : M world nat :=
  match n with
  | O => ret O
  | S n' =>
      d <- try_except (simulate_network self ;; ret O) any_exception
                      (fun _ => ret 1%nat) ;;
      rest <- drops_in n' self ;;
      ret (d + rest)%nat
  end.

(** The delay [simulate_transfer] adds to that of [simulate_network] in the
    same world. *)
Definition extra_delay (self : NetworkSimulator) (bytes_count : Z) (w : world) : Q :=
  injected_delay (log (snd (simulate_transfer self bytes_count w)))
  - injected_delay (log (snd (simulate_network self w))).

(** The world once a call has slept for the link latency, [drawn'] draws
    having been consumed. *)
Definition after_latency (self : NetworkSimulator) (w : world) (drawn' : nat) : world :=
  mkWorld (rand w) drawn' (log w ++ [Sleep (latency_ms self / 1000)]).

(** The world once a call has made one draw and nothing else. *)
Definition after_draw (w : world) : world := mkWorld (rand w) (S (drawn w)) (log w).

End NetworkSim.
Import NetworkSim.

(** A world whose every draw is [r], nothing drawn or logged yet. *)
Definition constant_world (r : Q) : world := mkWorld (fun _ => r) 0 [].

(** ** clients/mcp_client.py: requests *)

Module Mcp.

(** The fields of [McpClient] the modelled methods read or write. *)
Record McpClient : Type := mkClient {
  request_id : Z;
  session_id : option string;
  network_sim : NetworkSimulator
}.

(** [McpClient()] *)
Definition init : McpClient := mkClient 0 None NetworkSim.init.

(** The remote endpoint: what posting a payload to a path and checking the
    status of the response yields, either the decoded body or the exception
    httpx raises. *)
Definition endpoint : Type := string -> json -> outcome json.

(** A method of the client runs on the client object and the world. *)
Definition session : Type := (McpClient * world)%type.

Definition on_world {A} (c : M world A) : M session A :=
  zoom snd (fun w (s : session) => (fst s, w)) c.

Definition on_client {A} (c : M McpClient A) : M session A :=
  zoom fst (fun cl (s : session) => (cl, snd s)) c.

(** [def set_network_conditions(self, latency_ms, packet_loss_rate, bandwidth_mbps=0.0)] *)
Definition set_network_conditions (self : McpClient)
    (latency_ms packet_loss_rate : Q) (bandwidth_mbps : option Q) : McpClient :=
  mkClient (request_id self) (session_id self)
           (set_conditions (network_sim self) latency_ms packet_loss_rate bandwidth_mbps).

(** [def _get_next_id(self)] *)
Definition _get_next_id : M McpClient Z :=
  fun self =>
    let self' := mkClient (request_id self + 1) (session_id self) (network_sim self) in
    (Ok (request_id self'), self').

(** [response = await self.async_client.post(path, json=payload);
     response.raise_for_status(); return response.json()] *)
Definition post (remote : endpoint) (path : string) (payload : json) : M world json :=
  fun w => (remote path payload,
            mkWorld (rand w) (drawn w) (log w ++ [Post path payload])).

(** [async def _send_request_async(self, method, params=None)] *)
Definition _send_request_async (remote : endpoint) (method : string) (params : json)
  : M session json :=
  self <- get_state ;;
  on_world (simulate_network (network_sim (fst self))) ;;
  id <- on_client _get_next_id ;;
  let payload := JObj [("jsonrpc", JStr "2.0");
                       ("method", JStr method);
                       ("params", params);
                       ("id", JInt id)] in
  on_world (post remote "/message" payload).

(** [async def initialize_async(self)] *)
Definition initialize_async (remote : endpoint) : M session json :=
  _send_request_async remote "initialize" JNull.


(** *** The event stream *)

(** One line of the [/sse] response as [aiter_lines()] hands it to the loop
    body, with the value [time.time()] returns in that iteration. *)
Record sse_line : Type := mkLine {
  clock : Q;
  text : string
}.

(** What follows the last line: the response ends, or reading it raises. *)
Inductive stream_end : Type :=
| EndOfStream
| StreamRaises (e : exn).

(** [self.async_client.stream("GET", "/sse")].  A connection that cannot
    be opened is a stream with no line whose end raises. *)
Record sse_stream : Type := mkStream {
  lines : list sse_line;
  ending : stream_end
}.

(** [json.loads], as far as the client depends on it. *)
Definition decoder : Type := string -> option json.

Definition loads {S} (json_loads : decoder) (data : string) : M S json :=
  match json_loads data with
  | Some v => ret v
  | None => raise JSONDecodeError
  end.

(** [d.get(key, default)]; a value that is no dict has no [get]. *)
Definition dict_get {S} (d : json) (key : string) (default : json) : M S json :=
  match d with
  | JObj items =>
      ret (match Json.get items key with Some v => v | None => default end)
  | _ => raise AttributeError
  end.

(** [v == s] for a string [s]. *)
Definition eq_str (v : json) (s : string) : bool :=
  match v with
  | JStr s' => String.eqb s' s
  | _ => false
  end.

(** [msg.get("params", {}).get("status") == "completed"] *)
Definition completed {S} (msg : json) : M S bool :=
  params <- dict_get msg "params" (JObj []) ;;
  status <- dict_get params "status" JNull ;;
  ret (eq_str status "completed").

(** How the body of a loop hands control back. *)
Inductive flow (A : Type) : Type :=
| Next
| Break
| Return (a : A).
Arguments Next {A}.
Arguments Break {A}.
Arguments Return {A} a.

(** The iterator is exhausted. *)
Definition exhausted {S} (e : stream_end) : M S unit :=
  match e with
  | EndOfStream => ret tt
  | StreamRaises e => raise e
  end.

Definition set_session_id (sid : string) : M McpClient unit :=
  modify (fun self => mkClient (request_id self) (Some sid) (network_sim self)).

(** The body of the loop of [connect_sse]. *)
Definition connect_sse_line (json_loads : decoder) (line : string)
  : M McpClient (flow string) :=
  if startswith line "event: connection" then ret Next
  else if startswith line "data: " then
    let data := slice_from 6 line in
    try_except
      (msg <- loads json_loads data ;; ret Next)
      any_exception
      (fun _ => let sid := strip data in
                set_session_id sid ;;
                ret (Return sid))
  else ret Next.

Fixpoint connect_sse_loop (json_loads : decoder) (ls : list sse_line)
    (ending : stream_end) : M McpClient (option string) :=
  match ls with
  | [] => exhausted ending ;; ret None
  | l :: rest =>
      f <- connect_sse_line json_loads (text l) ;;
      match f with
      | Return sid => ret (Some sid)
      | Break => ret None
      | Next => connect_sse_loop json_loads rest ending
      end
  end.

(** [async def connect_sse(self)].  Falling off the loop returns [None]. *)
Definition connect_sse (json_loads : decoder) (s : sse_stream)
  : M McpClient (option string) :=
  connect_sse_loop json_loads (lines s) (ending s).

(** The locals of [listen_for_events]: the list [events], and the number of
    lines the loop has taken from the iterator. *)
Record listening : Type := mkListening {
  events : list json;
  pulled : nat
}.

(** The body of the loop of [listen_for_events]. *)
Definition listen_line (json_loads : decoder) (start duration : Q) (l : sse_line)
  : M listening (flow unit) :=
  if Qltb duration (clock l - start) then ret Break
  else if startswith (text l) "data: " then
    let data := slice_from 6 (text l) in
    try_except
      (msg <- loads json_loads data ;;
       modify (fun st => mkListening (events st ++ [msg]) (pulled st)) ;;
       done <- completed msg ;;
       if done : bool then ret Break else ret Next)
      any_exception
      (fun _ => ret Next)
  else ret Next.

Fixpoint listen_loop (json_loads : decoder) (start duration : Q)
    (ls : list sse_line) (ending : stream_end) : M listening unit :=
  match ls with
  | [] => exhausted ending
  | l :: rest =>
      modify (fun st => mkListening (events st) (S (pulled st))) ;;
      f <- listen_line json_loads start duration l ;;
      match f with
      | Next => listen_loop json_loads start duration rest ending
      | _ => ret tt
      end
  end.

Definition is_read_timeout (e : exn) : bool :=
  match e with ReadTimeout => true | _ => false end.

(** What a call of [listen_for_events] comes to: the list it returns or the
    exception it lets through, and how many lines it took from the stream. *)
Record listened : Type := mkListened {
  returned : outcome (list json);
  lines_read : nat
}.

(** [async def listen_for_events(self, duration=5.0)]; [start] is the value
    of [time.time()] on entry. *)
Definition listen_for_events (json_loads : decoder) (start duration : Q)
    (s : sse_stream) : listened :=
  match try_except (listen_loop json_loads start duration (lines s) (ending s))
                   is_read_timeout (fun _ => ret tt)
                   (mkListening [] 0)
  with
  | (Ok _, st) => mkListened (Ok (events st)) (pulled st)
  | (Raised e, st) => mkListened (Raised e) (pulled st)
  end.

(** *** Vocabulary for the stream *)

Definition is_data (l : sse_line) : bool := startswith (text l) "data: ".

Definition payload (l : sse_line) : string := slice_from 6 (text l).

(** The event a line carries, if it is a data line that decodes. *)
Definition parsed (json_loads : decoder) (l : sse_line) : option json :=
  if is_data l then json_loads (payload l) else None.

(** A data line whose payload does not decode. *)
Definition malformed (json_loads : decoder) (l : sse_line) : bool :=
  is_data l && match json_loads (payload l) with None => true | Some _ => false end.

(** The status test succeeds on the event. *)
Definition is_completed (msg : json) : bool :=
  match completed msg tt with
  | (Ok b, _) => b
  | (Raised _, _) => false
  end.

(** A line that carries a terminal event. *)
Definition terminal (json_loads : decoder) (l : sse_line) : bool :=
  match parsed json_loads l with
  | Some msg => is_completed msg
  | None => false
  end.

(** The line is handed to the loop before the budget has run out. *)
Definition in_budget (start duration : Q) (l : sse_line) : bool :=
  negb (Qltb duration (clock l - start)).

Fixpoint events_of (json_loads : decoder) (ls : list sse_line) : list json :=
  match ls with
  | [] => []
  | l :: rest =>
      match parsed json_loads l with
      | Some msg => msg :: events_of json_loads rest
      | None => events_of json_loads rest
      end
  end.

(** The lines at the head of [ls] that arrive within the budget. *)
Fixpoint within_budget (start duration : Q) (ls : list sse_line) : list sse_line :=
  match ls with
  | [] => []
  | l :: rest =>
      if in_budget start duration l
      then l :: within_budget start duration rest
      else []
  end.

(** The reading of the clock in the last iteration the call made, [start]
    when it made none: the call cannot have returned before. *)
Definition last_clock (start : Q) (s : sse_stream) (read : nat) : Q :=
  match read with
  | O => start
  | S k => match nth_error (lines s) k with Some l => clock l | None => start end
  end.

(** The same line, blank. *)
Definition blank (l : sse_line) : sse_line := mkLine (clock l) "".

(** The session id the loop of [connect_sse] takes from a line, if any. *)
Definition session_line (json_loads : decoder) (l : sse_line) : option string :=
  if startswith (text l) "event: connection" then None
  else if is_data l then
    match json_loads (payload l) with
    | None => Some (strip (payload l))
    | Some _ => None
    end
  else None.

(** The client object once [sid] has been stored in it. *)
Definition with_session (self : McpClient) (sid : string) : McpClient :=
  mkClient (request_id self) (Some sid) (network_sim self).

End Mcp.
Import Mcp.

(** ** servers/mcp_server.py: the stream the bundled server opens *)

Module Server.

(** The first chunk [event_generator] yields:
    [f"event: connection\ndata: {session_id}\n\n"]. *)
Definition connection_event (session_id : string) : string :=
  ("event: connection" ++ newline ++ "data: " ++ session_id ++ newline ++ newline)%string.

(** The lines the client reads from that chunk, all handed over at [now]. *)
Definition connection_lines (now : Q) (session_id : string) : list sse_line :=
  map (mkLine now) (splitlines (connection_event session_id)).

End Server.


(** ** benchmarks/run_benchmark_advanced.py *)

Module Bench.

Inductive protocol : Type := REST | MCP.

Inductive scenario : Type :=
| Chat | Concurrency | LongTask | StockTicker
| NetworkInstability | ToolChaining | RealWorldChat.

(** The client methods the scenarios call on the two endpoints. *)
Inductive call : Type :=
| rest_chat_turn | mcp_initialize_async | mcp_chat_turn
| rest_ping_async | mcp_call_tool_async
| rest_run_task_polling | mcp_run_task_with_notifications
| rest_get_stock | mcp_subscribe_to_resource
| rest_echo_async
| rest_chain_workflow | mcp_chain_workflow.

Definition scenario_code (s : scenario) : nat :=
  match s with
  | Chat => 0 | Concurrency => 1 | LongTask => 2 | StockTicker => 3
  | NetworkInstability => 4 | ToolChaining => 5 | RealWorldChat => 6
  end.

Definition call_code (c : call) : nat :=
  match c with
  | rest_chat_turn => 0 | mcp_initialize_async => 1 | mcp_chat_turn => 2
  | rest_ping_async => 3 | mcp_call_tool_async => 4
  | rest_run_task_polling => 5 | mcp_run_task_with_notifications => 6
  | rest_get_stock => 7 | mcp_subscribe_to_resource => 8
  | rest_echo_async => 9
  | rest_chain_workflow => 10 | mcp_chain_workflow => 11
  end.

(** What the endpoints do during a run: the [i]-th time a scenario makes a
    call, the call returns ([None]) or raises; [stock_polls] is the number
    of polls the five seconds of the stock-ticker scenario leave room for. *)
Record remote : Type := mkRemote {
  answer : scenario -> call -> nat -> option exn;
  stock_polls : nat
}.

(** The scenario-specific column of a row of results. *)
Inductive extra : Type :=
| Turn (n : nat)
| Rps
| OverheadRequests (n : nat)
| SuccessRate (percent : Q)
| Steps (n : nat).

(** A row of results; the measured latencies and byte counts are left out. *)
Record row : Type := mkRow {
  row_protocol : protocol;
  row_scenario : scenario;
  row_extra : extra
}.

(** What a run prints. *)
Inductive notice : Type :=
| Benchmarking (s : scenario)
| Skipping (s : scenario) (e : exn)
| BenchFailed (s : scenario) (e : exn)
| Completed.

(** The console, the list [results] of the scenario that is running, the
    list [all_results] of the batch, and the CSV file once written. *)
Record run : Type := mkRun {
  console : list notice;
  results : list row;
  all_results : list row;
  csv : option (list row)
}.

Definition fresh : run := mkRun [] [] [] None.

Definition print (n : notice) : M run unit :=
  modify (fun st => mkRun (console st ++ [n]) (results st) (all_results st) (csv st)).

(** [results = []] *)
Definition new_results : M run unit :=
  modify (fun st => mkRun (console st) [] (all_results st) (csv st)).

(** [results.append({...})] *)
Definition append (p : protocol) (s : scenario) (x : extra) : M run unit :=
  modify (fun st => mkRun (console st) (results st ++ [mkRow p s x])
                          (all_results st) (csv st)).

(** [return results] *)
Definition return_results : M run (list row) :=
  st <- get_state ;; ret (results st).

(** [all_results.extend(rows)] *)
Definition extend (rows : list row) : M run unit :=
  modify (fun st => mkRun (console st) (results st) (all_results st ++ rows) (csv st)).

(** The [i]-th call of [c] in scenario [s]. *)
Definition invoke (env : remote) (s : scenario) (c : call) (i : nat) : M run unit :=
  match answer env s c i with
  | None => ret tt
  | Some e => raise e
  end.

(** [for x in xs: body(x)] *)
Fixpoint for_each {A} (xs : list A) (body : A -> M run unit) : M run unit :=
  match xs with
  | [] => ret tt
  | x :: rest => body x ;; for_each rest body
  end.

Definition range (n : nat) : list nat := seq 0 n.

(** The clients are closed in the [finally] clauses; closing raises nothing. *)
Definition close_clients : M run unit := ret tt.

(** [async def bench_multi_turn_chat(iterations=10)] *)
Definition bench_multi_turn_chat (env : remote) (iterations : nat) : M run (list row) :=
  new_results ;;
  print (Benchmarking Chat) ;;
  try_finally
    (for_each (range iterations)
       (fun i => invoke env Chat rest_chat_turn i ;;
                 append REST Chat (Turn (i + 1))) ;;
     invoke env Chat mcp_initialize_async 0 ;;
     for_each (range iterations)
       (fun i => invoke env Chat mcp_chat_turn i ;;
                 append MCP Chat (Turn (i + 1))))
    close_clients ;;
  return_results.

(** [await asyncio.gather] of [n] tasks: the first exception among the
    tasks is the one the caller sees. *)
Definition gather (env : remote) (s : scenario) (c : call) (n : nat) : M run unit :=
  for_each (range n) (fun i => invoke env s c i).

(** [async def bench_concurrency(concurrency=50)] *)
Definition bench_concurrency (env : remote) (concurrency : nat) : M run (list row) :=
  new_results ;;
  print (Benchmarking Concurrency) ;;
  try_finally
    (gather env Concurrency rest_ping_async concurrency ;;
     for_each (range concurrency) (fun _ => append REST Concurrency Rps) ;;
     gather env Concurrency mcp_call_tool_async concurrency ;;
     for_each (range concurrency) (fun _ => append MCP Concurrency Rps))
    close_clients ;;
  return_results.

(** [async def bench_long_running()]; [polls] stands for [res["polls"]]. *)
Definition bench_long_running (env : remote) (polls : nat) : M run (list row) :=
  new_results ;;
  print (Benchmarking LongTask) ;;
  try_finally
    (invoke env LongTask rest_run_task_polling 0 ;;
     append REST LongTask (OverheadRequests polls) ;;
     try_except
       (invoke env LongTask mcp_run_task_with_notifications 0 ;;
        append MCP LongTask (OverheadRequests 1))
       any_exception
       (fun e => print (Skipping LongTask e)))
    close_clients ;;
  return_results.

(** [async def bench_stock_ticker(duration=5)] *)
Definition bench_stock_ticker (env : remote) : M run (list row) :=
  new_results ;;
  print (Benchmarking StockTicker) ;;
  try_finally
    (try_except
       (for_each (range (stock_polls env))
          (fun i => invoke env StockTicker rest_get_stock i) ;;
        append REST StockTicker (OverheadRequests (stock_polls env)) ;;
        invoke env StockTicker mcp_subscribe_to_resource 0 ;;
        append MCP StockTicker (OverheadRequests 1))
       any_exception
       (fun e => print (BenchFailed StockTicker e)))
    close_clients ;;
  return_results.

(** The inner loop of [bench_network_instability]: the number of attempts,
    out of the [n] that start at index [i], which raise nothing. *)
Fixpoint successes (env : remote) (c : call) (n i : nat) : M run nat :=
  match n with
  | O => ret O
  | S n' =>
      ok <- try_except (invoke env NetworkInstability c i ;; ret 1%nat)
                       any_exception (fun _ => ret O) ;;
      more <- successes env c n' (S i) ;;
      ret (ok + more)%nat
  end.

Definition attempts : nat := 20.

(** [async def bench_network_instability(latency_ms=50, packet_loss=0.05)] *)
Definition bench_network_instability (env : remote) : M run (list row) :=
  new_results ;;
  print (Benchmarking NetworkInstability) ;;
  for_each [(REST, rest_echo_async); (MCP, mcp_chat_turn)]
    (fun pc =>
       n <- successes env (snd pc) attempts 0 ;;
       let success_rate := (inject_Z (Z.of_nat n) / inject_Z (Z.of_nat attempts)) * 100 in
       append (fst pc) NetworkInstability (SuccessRate success_rate)) ;;
  return_results.

(** [def bench_tool_chaining()] *)
Definition bench_tool_chaining (env : remote) : M run (list row) :=
  new_results ;;
  print (Benchmarking ToolChaining) ;;
  try_finally
    (try_except
       (invoke env ToolChaining rest_chain_workflow 0 ;;
        append REST ToolChaining (Steps 3) ;;
        invoke env ToolChaining mcp_chain_workflow 0 ;;
        append MCP ToolChaining (Steps 3))
       any_exception
       (fun e => print (BenchFailed ToolChaining e)))
    close_clients ;;
  return_results.

(** [async def bench_real_world_chat(turns=10)] *)
Definition bench_real_world_chat (env : remote) (turns : nat) : M run (list row) :=
  new_results ;;
  print (Benchmarking RealWorldChat) ;;
  invoke env RealWorldChat mcp_initialize_async 0 ;;
  try_finally
    (try_except
       (for_each (seq 1 turns)
          (fun i => invoke env RealWorldChat rest_chat_turn i ;;
                    append REST RealWorldChat (Turn i) ;;
                    invoke env RealWorldChat mcp_chat_turn i ;;
                    append MCP RealWorldChat (Turn i)))
       any_exception
       (fun e => print (BenchFailed RealWorldChat e)))
    close_clients ;;
  return_results.

(** [df.to_csv(output_file)], the closing message and the report. *)
Definition save : M run unit :=
  modify (fun st => mkRun (console st ++ [Completed]) (results st) (all_results st)
                          (Some (all_results st))).

(** [async def run_all_benchmarks(output_file, timestamp)]; [polls] is the
    number of polls the long-running task takes. *)
Definition run_all_benchmarks (env : remote) (polls : nat) : M run unit :=
  (rows <- bench_multi_turn_chat env 20 ;; extend rows) ;;
  (rows <- bench_concurrency env 50 ;; extend rows) ;;
  (rows <- bench_long_running env polls ;; extend rows) ;;
  (rows <- bench_stock_ticker env ;; extend rows) ;;
  (rows <- bench_network_instability env ;; extend rows) ;;
  (rows <- bench_tool_chaining env ;; extend rows) ;;
  (rows <- bench_real_world_chat env 15 ;; extend rows) ;;
  save.

(** *** Endpoints for the runs below *)

(** Every call of [c] in scenario [s] raises [e]; every other call returns. *)
Definition failing (s : scenario) (c : call) (e : exn) : remote :=
  mkRemote
    (fun s' c' _ =>
       if Nat.eqb (scenario_code s) (scenario_code s')
          && Nat.eqb (call_code c) (call_code c')
       then Some e else None)
    50.

(** The scenarios a run has started, in order. *)
Fixpoint started (out : list notice) : list scenario :=
  match out with
  | [] => []
  | Benchmarking s :: rest => s :: started rest
  | _ :: rest => started rest
  end.

Definition every_scenario : list scenario :=
  [Chat; Concurrency; LongTask; StockTicker; NetworkInstability; ToolChaining;
   RealWorldChat].

End Bench.

(** ** Scripted streams *)

Module Script.

(** A data line carrying [json.dumps] of a progress notification as
    [run_mcp_task] builds it; the text is written with ['] for the double
    quote. *)
Definition progress_line (now : Q) (progress status : string) : sse_line :=
  mkLine now
    ("data: " ++
     Json.dq ("{'jsonrpc': '2.0', 'method': 'notifications/progress', " ++
              "'params': {'progress': " ++ progress ++
              ", 'status': '" ++ status ++ "'}}"))%string.

(** The event such a line decodes to. *)
Definition progress_event (progress : Z) (status : string) : json :=
  JObj [("jsonrpc", JStr "2.0");
        ("method", JStr "notifications/progress");
        ("params", JObj [("progress", JInt progress); ("status", JStr status)])].

(** progress=10, progress=50, status=completed, with two more events
    queued behind. *)
Definition three_then_more : list sse_line :=
  [progress_line 1 "10" "running";
   progress_line 2 "50" "running";
   progress_line 3 "100" "completed";
   progress_line 3 "110" "running";
   progress_line 4 "120" "completed"].

(** A truncated notification between two good ones. *)
Definition truncated : sse_line :=
  mkLine 2 ("data: " ++ Json.dq "{'jsonrpc': '2.0', 'method': 'notif")%string.

(** A stock update as [event_generator] pushes it. *)
Definition stock_update (now : Q) : sse_line :=
  mkLine now
    ("data: " ++
     Json.dq ("{'jsonrpc': '2.0', 'method': 'notifications/resources/updated', " ++
              "'params': {'uri': 'stock://ticker', " ++
              "'delta': {'price': 101.5, 'timestamp': 1762180001.2}}}"))%string.

(** A stream that stays silent for 29 seconds, then sends one update. *)
Definition silent_then_update : sse_stream :=
  mkStream [stock_update 29] EndOfStream.

(** What the bundled server sends for a session opened at
    [time.time() = 1762180000.1234567]: the connection event, then a stock
    update. *)
Definition bundled_connection : sse_stream :=
  mkStream (Server.connection_lines 0 "1762180000.1234567" ++ [stock_update 1])
           EndOfStream.

End Script.

(** ** clients/mcp_client.py: the other request methods *)

Module McpMethods.

(** [json.dumps], as far as the clients depend on it: the text of a value. *)
Definition encoder : Type := json -> string.

(** [time.perf_counter()]: a reading of the clock, taken in a world. *)
Definition timer : Type := world -> Q.

Definition perf_counter {C} (clock : timer) : M (C * world) Q :=
  fun s => (Ok (clock (snd s)), s).

(** The JSON-RPC envelope the request methods build. *)
Definition rpc (method : string) (params : json) (id : Z) : json :=
  JObj [("jsonrpc", JStr "2.0");
        ("method", JStr method);
        ("params", params);
        ("id", JInt id)].

(** [def _send_request(self, method, params=None)]: the synchronous path
    sleeps for the latency and simulates no loss. *)
Definition _send_request (remote : endpoint) (method : string) (params : json)
  : M session json :=
  self <- get_state ;;
  (if Qltb 0 (latency_ms (network_sim (fst self)))
   then d <- truediv (latency_ms (network_sim (fst self))) 1000 ;;
        on_world (sleep d)
   else ret tt) ;;
  id <- on_client _get_next_id ;;
  on_world (post remote "/message" (rpc method params id)).

(** [{"name": name, "arguments": arguments}] *)
Definition tool_call (name : string) (arguments : json) : json :=
  JObj [("name", JStr name); ("arguments", arguments)].

(** [def call_tool(self, name, arguments)] *)
Definition call_tool (remote : endpoint) (clock : timer)
    (name : string) (arguments : json) : M session Q :=
  start <- perf_counter clock ;;
  _send_request remote "tools/call" (tool_call name arguments) ;;
  stop <- perf_counter clock ;;
  ret ((stop - start) * 1000).

(** [async def call_tool_async(self, name, arguments)] *)
Definition call_tool_async (remote : endpoint) (dumps : encoder) (clock : timer)
    (name : string) (arguments : json) : M session (Q * nat) :=
  start <- perf_counter clock ;;
  self <- get_state ;;
  let payload := rpc "tools/call" (tool_call name arguments) (request_id (fst self) + 1) in
  let bytes_sent := String.length (dumps payload) in
  _send_request_async remote "tools/call" (tool_call name arguments) ;;
  stop <- perf_counter clock ;;
  ret ((stop - start) * 1000, bytes_sent).

(** A call that may stop on a [TypeError], which is none of the exceptions
    of [exn]: subscripting, or assigning to an item of, a value that is no
    dict. *)
Inductive ending_of (A : Type) : Type :=
| Returns (a : A)
| Raises_TypeError.
Arguments Returns {A} a.
Arguments Raises_TypeError {A}.

(** [{"message": message, "sessionId": session_id, "turnCount": turn_count}] *)
Definition chat_args (session_id message : string) (turn_count : Z) : json :=
  JObj [("message", JStr message);
        ("sessionId", JStr session_id);
        ("turnCount", JInt turn_count)].

(** The last lines of [chat_turn]: [result = response["result"]], the two
    item assignments, [return result].  [of_float] is the way a float sits
    among the values of a dict. *)
Definition annotate (of_float : Q -> json) (response : json) (latency_ms : Q)
    (payload_size : nat) : M session (ending_of json) :=
  match response with
  | JObj items =>
      match Json.get items "result" with
      | None => raise (KeyError "result")
      | Some (JObj result) =>
          ret (Returns
                 (JObj (Json.set (Json.set result "latency_ms" (of_float latency_ms))
                                 "bytes_sent" (JInt (Z.of_nat payload_size)))))
      | Some _ => ret Raises_TypeError
      end
  | _ => ret Raises_TypeError
  end.

(** [async def chat_turn(self, session_id, message, turn_count)] *)
Definition chat_turn (remote : endpoint) (dumps : encoder) (clock : timer)
    (of_float : Q -> json) (session_id message : string) (turn_count : Z)
  : M session (ending_of json) :=
  start <- perf_counter clock ;;
  let args := chat_args session_id message turn_count in
  let payload_size := (String.length (dumps args) + 100)%nat in
  self <- get_state ;;
  on_world (simulate_transfer (network_sim (fst self)) (Z.of_nat payload_size)) ;;
  response <- _send_request_async remote "prompts/chat" args ;;
  self' <- get_state ;;
  on_world (simulate_transfer (network_sim (fst self'))
              (Z.of_nat (String.length (dumps response)))) ;;
  stop <- perf_counter clock ;;
  annotate of_float response ((stop - start) * 1000) payload_size.

End McpMethods.

(** ** clients/rest_client.py: the calls behind the simulator *)

Module Rest.

(** What [async_client.post] hands back. *)
Record response : Type := mkResponse {
  status_code : Z;
  content : string
}.

(** The REST endpoint: a response, whatever its status, or the exception
    httpx raises when none comes. *)
Definition transport : Type := string -> json -> outcome response.

(** [await self.async_client.post(path, json=payload)] *)
Definition post (http : transport) (path : string) (payload : json)
  : M world response :=
  fun w => (http path payload,
            mkWorld (rand w) (drawn w) (log w ++ [Post path payload])).

(** [response.raise_for_status()]; [is_error] tells the status codes httpx
    raises for. *)
Definition raise_for_status (is_error : Z -> bool) (r : response) : M world unit :=
  if is_error (status_code r) then raise (HTTPStatusError (status_code r)) else ret tt.

Definition clock_now (clock : McpMethods.timer) : M world Q :=
  fun w => (Ok (clock w), w).

(** [async def echo_async(self, message)]; [sim] is [self.network_sim]. *)
Definition echo_async (http : transport) (clock : McpMethods.timer)
    (sim : NetworkSimulator) (message : string) : M world Q :=
  simulate_network sim ;;
  start <- clock_now clock ;;
  post http "/echo" (JObj [("message", JStr message)]) ;;
  stop <- clock_now clock ;;
  ret ((stop - start) * 1000).

(** The dict [chat_turn] returns. *)
Record chat_result : Type := mkChat {
  latency_ms : Q;
  reply : json;
  bytes_sent : nat
}.

(** [async def chat_turn(self, history, message)] *)
Definition chat_turn (http : transport) (is_error : Z -> bool)
    (json_loads : decoder) (dumps : McpMethods.encoder) (clock : McpMethods.timer)
    (sim : NetworkSimulator) (history : json) (message : string)
  : M world (McpMethods.ending_of chat_result) :=
  start <- clock_now clock ;;
  let payload := JObj [("message", JStr message); ("history", history)] in
  simulate_transfer sim (Z.of_nat (String.length (dumps payload))) ;;
  response <- post http "/chat" payload ;;
  raise_for_status is_error response ;;
  data <- loads json_loads (content response) ;;
  simulate_transfer sim (Z.of_nat (String.length (dumps data))) ;;
  stop <- clock_now clock ;;
  match data with
  | JObj items =>
      match Json.get items "response" with
      | Some reply =>
          ret (McpMethods.Returns
                 (mkChat ((stop - start) * 1000) reply (String.length (dumps payload))))
      | None => raise (KeyError "response")
      end
  | _ => ret McpMethods.Raises_TypeError
  end.

End Rest.

(** ** clients/mcp_client.py: the other readers of the event stream *)

Module McpStreams.

Import McpMethods.

(** [d[key]]; [None] where Python raises: [KeyError] on a dict without the
    key, [TypeError] on a value that is no dict. *)
Definition item (d : json) (key : string) : option json :=
  match d with
  | JObj items => Json.get items key
  | _ => None
  end.

(** What [subscribe_to_resource] collects for an update. *)
Record update : Type := mkUpdate {
  timestamp : Q;
  data : json
}.

(** The [try] block of [subscribe_to_resource] on the payload of a data
    line: the update it appends, if it appends one.  Whatever it raises
    (decoding, [.get] on a value that is no dict, a missing item) is
    swallowed by the bare [except], and the append is its last step, so
    [None] also stands for these.  [stamp l] is the value [time.time()]
    returns when the update of line [l] is built. *)
Definition update_of (json_loads : decoder) (stamp : sse_line -> Q) (uri : string)
    (l : sse_line) : option update :=
  match json_loads (strip (slice_from 6 (text l))) with
  | None => None
  | Some msg =>
      match msg with
      | JObj items =>
          let method := match Json.get items "method" with
                        | Some v => v
                        | None => JNull
                        end in
          if eq_str method "notifications/resources/updated" then
            match item msg "params" with
            | None => None
            | Some params =>
                match item params "uri" with
                | None => None
                | Some u =>
                    if eq_str u uri then
                      match item params "delta" with
                      | Some delta => Some (mkUpdate (stamp l) delta)
                      | None => None
                      end
                    else None
                end
            end
          else None
      | _ => None
      end
  end.

(** The loop of [subscribe_to_resource]; the state is the list [updates]. *)
Fixpoint subscribe_loop (json_loads : decoder) (stamp : sse_line -> Q)
    (start_time : Q) (uri : string) (ls : list sse_line) (ending : stream_end)
  : M (list update) unit :=
  match ls with
  | [] => exhausted ending
  | l :: rest =>
      if Qltb 5 (clock l - start_time) then ret tt
      else
        (if startswith (text l) "data: "
         then match update_of json_loads stamp uri l with
              | Some u => modify (fun updates => updates ++ [u])
              | None => ret tt
              end
         else ret tt) ;;
        subscribe_loop json_loads stamp start_time uri rest ending
  end.

(** [async def subscribe_to_resource(self, uri)]; [start_time] is the value
    of [time.time()] once the request is back, [s] the stream opened then. *)
Definition subscribe_to_resource (remote : endpoint) (json_loads : decoder)
    (stamp : sse_line -> Q) (start_time : Q) (uri : string) (s : sse_stream)
  : M session (list update) :=
  _send_request_async remote "resources/subscribe" (JObj [("uri", JStr uri)]) ;;
  fun st =>
    match subscribe_loop json_loads stamp start_time uri (lines s) (ending s) [] with
    | (Ok _, updates) => (Ok updates, st)
    | (Raised e, _) => (Raised e, st)
    end.

(** The updates carried by the data lines of [ls]. *)
Fixpoint updates_of (json_loads : decoder) (stamp : sse_line -> Q) (uri : string)
    (ls : list sse_line) : list update :=
  match ls with
  | [] => []
  | l :: rest =>
      match (if is_data l then update_of json_loads stamp uri l else None) with
      | Some u => u :: updates_of json_loads stamp uri rest
      | None => updates_of json_loads stamp uri rest
      end
  end.

(** The locals of [run_task_with_notifications]. *)
Record task_locals : Type := mkLocals {
  event_count : nat;
  task_session : option string;
  task_started : bool;
  task_bytes : nat
}.

Definition task_state : Type := (task_locals * session)%type.

Definition on_session {A} (c : M session A) : M task_state A :=
  zoom snd (fun s (t : task_state) => (fst t, s)) c.

Definition on_locals (f : task_locals -> task_locals) : M task_state unit :=
  modify (fun t : task_state => (f (fst t), snd t)).

(** [not session_id] *)
Definition no_session (sid : option string) : bool :=
  match sid with
  | None => true
  | Some s => String.eqb s ""
  end.

(** [except ValueError]: among the exceptions of [exn],
    [json.JSONDecodeError] is the one that is a [ValueError]. *)
Definition is_value_error (e : exn) : bool :=
  match e with JSONDecodeError => true | _ => false end.

(** [{"complexity": complexity, "sessionId": session_id}] *)
Definition task_args (complexity : Z) (sid : string) : json :=
  JObj [("complexity", JInt complexity); ("sessionId", JStr sid)].

(** Step 1 and 2 of the loop body: [true] when the iteration ends in
    [continue].  [float_ok data] tells whether [float(data)] returns; when
    it raises its [ValueError], the [except] clause passes. *)
Definition start_task (remote : endpoint) (dumps : encoder) (float_ok : string -> bool)
    (complexity : Z) (data : string) : M task_state bool :=
  try_except
    (if float_ok data then
       on_locals (fun t => mkLocals (event_count t) (Some data) (task_started t)
                                    (task_bytes t)) ;;
       on_session (_send_request_async remote "tools/call"
                     (tool_call "generate_task" (task_args complexity data))) ;;
       on_locals (fun t =>
                    mkLocals (event_count t) (task_session t) true
                      (String.length
                         (dumps (rpc "tools/call"
                                   (tool_call "generate_task" (task_args complexity data))
                                   0)))) ;;
       ret true
     else ret false)
    is_value_error
    (fun _ => ret false).

(** Step 3 of the loop body. *)
Definition count_progress (json_loads : decoder) (data : string)
  : M task_state (flow unit) :=
  try_except
    (msg <- loads json_loads data ;;
     method <- dict_get msg "method" JNull ;;
     if eq_str method "notifications/progress" then
       on_locals (fun t => mkLocals (S (event_count t)) (task_session t)
                                    (task_started t) (task_bytes t)) ;;
       done <- completed msg ;;
       if done : bool then ret Break else ret Next
     else ret Next)
    any_exception
    (fun _ => ret Next).

(** The body of the loop of [run_task_with_notifications]. *)
Definition task_line (remote : endpoint) (json_loads : decoder) (dumps : encoder)
    (float_ok : string -> bool) (complexity : Z) (l : sse_line)
  : M task_state (flow unit) :=
  if startswith (text l) "data: " then
    let data := strip (slice_from 6 (text l)) in
    t <- get_state ;;
    continue <- (if no_session (task_session (fst t))
                 then start_task remote dumps float_ok complexity data
                 else ret false) ;;
    if continue : bool then ret Next
    else
      t' <- get_state ;;
      if task_started (fst t') then count_progress json_loads data else ret Next
  else ret Next.

Fixpoint task_loop (remote : endpoint) (json_loads : decoder) (dumps : encoder)
    (float_ok : string -> bool) (complexity : Z) (ls : list sse_line)
    (ending : stream_end) : M task_state unit :=
  match ls with
  | [] => exhausted ending
  | l :: rest =>
      f <- task_line remote json_loads dumps float_ok complexity l ;;
      match f with
      | Next => task_loop remote json_loads dumps float_ok complexity rest ending
      | _ => ret tt
      end
  end.

(** The dict [run_task_with_notifications] returns. *)
Record task_report : Type := mkReport {
  report_latency_ms : Q;
  report_events : nat;
  report_bytes_sent : nat
}.

(** [async def run_task_with_notifications(self, complexity)] *)
Definition run_task_with_notifications (remote : endpoint) (json_loads : decoder)
    (dumps : encoder) (clock : timer) (float_ok : string -> bool)
    (complexity : Z) (s : sse_stream) : M session task_report :=
  fun st =>
    let start := clock (snd st) in
    match task_loop remote json_loads dumps float_ok complexity (lines s) (ending s)
            (mkLocals 0 None false 0, st) with
    | (Ok _, (t, st')) =>
        (Ok (mkReport ((clock (snd st') - start) * 1000) (event_count t) (task_bytes t)),
         st')
    | (Raised e, (_, st')) => (Raised e, st')
    end.

(** What a line counts for once the task has started: nothing, a progress
    notification, or the progress notification that completes the task. *)
Definition progress_of (json_loads : decoder) (l : sse_line) : option bool :=
  if is_data l then
    match json_loads (strip (payload l)) with
    | Some (JObj items) =>
        if eq_str (match Json.get items "method" with Some v => v | None => JNull end)
                  "notifications/progress"
        then Some (is_completed (JObj items))
        else None
    | _ => None
    end
  else None.

(** The progress notifications among [ls]. *)
Definition progress_count (json_loads : decoder) (ls : list sse_line) : nat :=
  List.length (filter (fun l => match progress_of json_loads l with
                                | Some _ => true
                                | None => false
                                end) ls).

(** A data line whose payload [float] accepts. *)
Definition id_line (float_ok : string -> bool) (l : sse_line) : bool :=
  is_data l && float_ok (strip (payload l)).

End McpStreams.

(** The [i]-th value [random.random()] will return from world [w] on. *)
Definition draw (w : world) (i : nat) : Q := rand w (drawn w + i).

(** A world whose first draw is [first] and every later one [later]. *)
Definition first_then (first later : Q) : world :=
  mkWorld (fun i => match i with O => first | S _ => later end) 0 [].

(** ** The three-step workflow *)

Module Workflow.

Import Mcp McpMethods.

(** How a computation ends that may raise an exception [exn] has no
    constructor for. *)
Inductive ending (A : Type) : Type :=
| Done (a : A)
| TypeError      (* an item of a value that has none, [len] of a number,
                    [json.loads] of a value that is no string *)
| IndexError     (* [v[0]] on an empty list or string *)
| KeyError_0.    (* [v[0]] on a dict *)
Arguments Done {A} a.
Arguments TypeError {A}.
Arguments IndexError {A}.
Arguments KeyError_0 {A}.

(** Sequencing: the first exception ends the computation. *)
Definition and_then {S A B} (c : M S (ending A)) (k : A -> M S (ending B))
  : M S (ending B) :=
  x <- c ;;
  match x with
  | Done a => k a
  | TypeError => ret TypeError
  | IndexError => ret IndexError
  | KeyError_0 => ret KeyError_0
  end.

(** [v[key]] for a string [key]. *)
Definition getitem (v : json) (key : string) : outcome (ending json) :=
  match v with
  | JObj items =>
      match Json.get items key with
      | Some x => Ok (Done x)
      | None => Raised (KeyError key)
      end
  | _ => Ok TypeError
  end.

(** [json.loads(r["result"]["content"][0]["text"])["output"]] *)
Definition output_of (json_loads : decoder) (r : json) : outcome (ending json) :=
  match getitem r "result" with
  | Ok (Done result) =>
      match getitem result "content" with
      | Ok (Done content) =>
          match (match content with
                 | JArr (x :: _) => getitem x "text"
                 | JArr [] => Ok IndexError
                 | JStr EmptyString => Ok IndexError
                 | JStr (String _ _) => Ok TypeError   (* a character has no items *)
                 | JObj _ => Ok KeyError_0
                 | _ => Ok TypeError
                 end) with
          | Ok (Done (JStr text)) =>
              match json_loads text with
              | Some decoded => getitem decoded "output"
              | None => Raised JSONDecodeError
              end
          | Ok (Done _) => Ok TypeError
          | other => other
          end
      | other => other
      end
  | other => other
  end.

(** [len(v)]; a number, a boolean and [None] have none. *)
Definition len (v : json) : option nat :=
  match v with
  | JStr s => Some (String.length s)
  | JArr l => Some (List.length l)
  | JObj items => Some (List.length (nodup string_dec (map fst items)))
  | _ => None
  end.

(** The dict both [chain_workflow] methods return. *)
Record report : Type := mkReport {
  latency_ms : Q;
  result : json;
  bytes_sent : nat;
  steps : Z
}.

(** *** mcp_client.py *)

(** The payload of [call_step]. *)
Definition step_call (step : Z) (data : json) (id : Z) : json :=
  rpc "tools/call"
      (tool_call "workflow_step" (JObj [("step", JInt step); ("input_data", data)]))
      id.

(** [def call_step(step, data)], the local function of
    [McpClient.chain_workflow]. *)
Definition call_step (remote : endpoint) (json_loads : decoder) (dumps : encoder)
    (step : Z) (data : json) : M session (ending (json * nat)) :=
  id <- on_client _get_next_id ;;
  let payload := step_call step data id in
  r <- on_world (post remote "/message" payload) ;;
  fun st =>
    match output_of json_loads r with
    | Ok (Done output) => (Ok (Done (output, String.length (dumps payload))), st)
    | Ok TypeError => (Ok TypeError, st)
    | Ok IndexError => (Ok IndexError, st)
    | Ok KeyError_0 => (Ok KeyError_0, st)
    | Raised e => (Raised e, st)
    end.

(** [def chain_workflow(self, input_data)] of [McpClient] *)
Definition mcp_chain_workflow (remote : endpoint) (json_loads : decoder)
    (dumps : encoder) (clock : timer) (input_data : json)
  : M session (ending report) :=
  start <- perf_counter clock ;;
  and_then (call_step remote json_loads dumps 1 input_data) (fun s1 =>
  and_then (call_step remote json_loads dumps 2 (fst s1)) (fun s2 =>
  and_then (call_step remote json_loads dumps 3 (fst s2)) (fun s3 =>
  stop <- perf_counter clock ;;
  ret (Done (mkReport ((stop - start) * 1000) (fst s3)
                      (snd s1 + snd s2 + snd s3) 3))))).

(** *** rest_client.py *)

(** One step of [RestClient.chain_workflow]: the post, [raise_for_status]
    and [resp.json()["output"]]. *)
Definition rest_step (http : Rest.transport) (is_error : Z -> bool)
    (json_loads : decoder) (path : string) (data : json) : M world (ending json) :=
  resp <- Rest.post http path (JObj [("input_data", data)]) ;;
  Rest.raise_for_status is_error resp ;;
  body <- loads json_loads (Rest.content resp) ;;
  fun w => (getitem body "output", w).

(** [bytes_sent += len(v) + 100] *)
Definition add_len {S} (bytes_sent : nat) (v : json) : M S (ending nat) :=
  match len v with
  | Some n => ret (Done (bytes_sent + (n + 100))%nat)
  | None => ret TypeError
  end.

(** [def chain_workflow(self, input_data)] of [RestClient] *)
Definition rest_chain_workflow (http : Rest.transport) (is_error : Z -> bool)
    (json_loads : decoder) (clock : timer) (input_data : string)
  : M world (ending report) :=
  start <- Rest.clock_now clock ;;
  and_then (rest_step http is_error json_loads "/workflow/step1" (JStr input_data))
    (fun out1 =>
  and_then (add_len 0 (JStr input_data)) (fun bytes1 =>
  and_then (rest_step http is_error json_loads "/workflow/step2" out1) (fun out2 =>
  and_then (add_len bytes1 out1) (fun bytes2 =>
  and_then (rest_step http is_error json_loads "/workflow/step3" out2) (fun out3 =>
  and_then (add_len bytes2 out2) (fun bytes3 =>
  stop <- Rest.clock_now clock ;;
  ret (Done (mkReport ((stop - start) * 1000) out3 bytes3 3)))))))).

(** *** rest_server.py *)

(** [async def step1(request: StepRequest)], for the string
    [request.input_data]. *)
Definition step1 (input_data : string) : M world json :=
  sleep (1 # 20) ;;
  ret (JObj [("output", JStr ("Processed(" ++ input_data ++ ")")%string);
             ("step", JInt 1)]).

(** [async def step2(request: StepRequest)] *)
Definition step2 (input_data : string) : M world json :=
  sleep (1 # 10) ;;
  ret (JObj [("output", JStr ("Analyzed(" ++ input_data ++ ")")%string);
             ("step", JInt 2)]).

(** [async def step3(request: StepRequest)] *)
Definition step3 (input_data : string) : M world json :=
  sleep (1 # 5) ;;
  ret (JObj [("output", JStr ("Summary(" ++ input_data ++ ")")%string);
             ("step", JInt 3)]).

(** *** mcp_server.py *)

(** [JsonRpcResponse(id=id, result=result)] and
    [JsonRpcResponse(id=id, error=error)], as the client receives them. *)
Definition response (id result error : json) : json :=
  JObj [("jsonrpc", JStr "2.0"); ("result", result); ("error", error); ("id", id)].

(** The branch of [process_json_rpc] for a [tools/call] of
    [workflow_step] whose [step] is an integer and whose [input_data] is a
    string. *)
Definition workflow_step (dumps : encoder) (id : json) (step : Z) (data : string)
  : M world json :=
  let answer res :=
    ret (response id
           (JObj [("content",
                   JArr [JObj [("type", JStr "text");
                               ("text", JStr (dumps (JObj [("output", JStr res);
                                                           ("step", JInt step)])))]])])
           JNull) in
  if (step =? 1)%Z then
    sleep (1 # 20) ;; answer ("Processed(" ++ data ++ ")")%string
  else if (step =? 2)%Z then
    sleep (1 # 10) ;; answer ("Analyzed(" ++ data ++ ")")%string
  else if (step =? 3)%Z then
    sleep (1 # 5) ;; answer ("Summary(" ++ data ++ ")")%string
  else
    ret (response id JNull
           (JObj [("code", JInt (-32602)); ("message", JStr "Invalid step")])).

(** *** The clients against the servers *)

(** What a step of the REST client gets out of the answer to its post. *)
Definition rest_output (http : Rest.transport) (is_error : Z -> bool)
    (json_loads : decoder) (path : string) (data : json) : outcome (ending json) :=
  match http path (JObj [("input_data", data)]) with
  | Raised e => Raised e
  | Ok resp =>
      if is_error (Rest.status_code resp) then Raised (HTTPStatusError (Rest.status_code resp))
      else match json_loads (Rest.content resp) with
           | None => Raised JSONDecodeError
           | Some body => getitem body "output"
           end
  end.

(** What a handler returns, whatever the world it runs in. *)
Definition returns (handler : M world json) (body : json) : Prop :=
  forall w, fst (handler w) = Ok body.

(** The REST endpoint answers the post of [input] to [path] with status
    200 and the encoding of what [handler] returns. *)
Definition rest_serves (http : Rest.transport) (server_dumps : encoder)
    (path : string) (handler : string -> M world json) (input : string) : Prop :=
  forall body,
    returns (handler input) body ->
    http path (JObj [("input_data", JStr input)])
    = Ok (Rest.mkResponse 200 (server_dumps body)).

(** The MCP endpoint answers the call of step [step] on [input] with what
    [process_json_rpc] returns for it. *)
Definition mcp_serves (remote : endpoint) (server_dumps : encoder)
    (step : Z) (input : string) (id : Z) : Prop :=
  forall resp,
    returns (workflow_step server_dumps (JInt id) step input) resp ->
    remote "/message" (step_call step (JStr input) id) = Ok resp.

(** The dict the three steps return, under both protocols. *)
Definition step_result (output : string) (step : Z) : json :=
  JObj [("output", JStr output); ("step", JInt step)].

End Workflow.

(** *** The bundled servers as endpoints *)

Module WorkflowScript.

Import Mcp McpMethods Workflow.

(** [json.dumps] of the dict a step returns, for an output without quotes
    or backslashes and a step from 1 to 3. *)
Definition step_text (v : json) : string :=
  match v with
  | JObj [(_, JStr output); (_, JInt step)] =>
      Json.dq ("{'output': '" ++ output ++ "', 'step': "
               ++ (if (step =? 1)%Z then "1" else if (step =? 2)%Z then "2" else "3")
               ++ "}")%string
  | _ => "null"
  end.

(** httpx raises for the status codes from 400 on. *)
Definition is_error (status : Z) : bool := (400 <=? status)%Z.

(** The REST server, seen from the client, for the posts of the chain. *)
Definition rest_app : Rest.transport :=
  fun path payload =>
    match payload with
    | JObj [(_, JStr input)] =>
        let served handler :=
          match fst (handler input (constant_world 0)) with
          | Ok body => Ok (Rest.mkResponse 200 (step_text body))
          | Raised e => Raised e
          end in
        if String.eqb path "/workflow/step1" then served step1
        else if String.eqb path "/workflow/step2" then served step2
        else if String.eqb path "/workflow/step3" then served step3
        else Ok (Rest.mkResponse 404 "")
    | _ => Ok (Rest.mkResponse 422 "")
    end.

(** The MCP server, seen from the client, for the calls of the chain. *)
Definition mcp_app : endpoint :=
  fun path payload =>
    match payload with
    | JObj [_; _;
            (_, JObj [_; (_, JObj [(_, JInt step); (_, JStr input)])]);
            (_, JInt id)] =>
        fst (workflow_step step_text (JInt id) step input (constant_world 0))
    | _ => Raised (HTTPStatusError 422)
    end.

End WorkflowScript.

(** ** What a batch leaves behind *)

Module BatchResults.

Import Bench.

(** The attempts of [c] that return. *)
Definition returning (env : remote) (c : call) (first n : nat) : nat :=
  List.length
    (filter (fun i => match answer env NetworkInstability c i with
                      | None => true
                      | Some _ => false
                      end)
            (seq first n)).


End BatchResults.

(** *** Runs of a task *)

Module TaskScript.

Import Mcp Script.

(** Stands for [float] in the runs below: the texts [json.loads] reads as a
    number, all of which [float] accepts. *)
Definition numeral (s : string) : bool :=
  match Json.loads s with
  | Some (JInt _) | Some (JFloat _) => true
  | _ => false
  end.

(** What the bundled server sends to the client that runs a task: the
    connection event, a stock update, two progress notifications, the
    completion, and one more notification queued behind it. *)
Definition task_stream : sse_stream :=
  mkStream (Server.connection_lines 0 "1762180000.1234567"
            ++ [stock_update 1;
                progress_line 1 "10" "running";
                progress_line 2 "20" "running";
                progress_line 3 "100" "completed";
                progress_line 4 "100" "completed"])
           EndOfStream.

(** The same notifications from a server whose session ids are no numbers. *)
Definition named_stream : sse_stream :=
  mkStream (Server.connection_lines 0 "session-7f3a"
            ++ [progress_line 1 "10" "running";
                progress_line 3 "100" "completed"])
           EndOfStream.

(** An endpoint that accepts every request. *)
Definition accepting : endpoint :=
  fun _ _ => Ok (JObj [("jsonrpc", JStr "2.0");
                       ("result", JObj [("content",
                                         JArr [JObj [("type", JStr "text");
                                                     ("text", JStr "Task Started")]])]);
                       ("error", JNull);
                       ("id", JInt 1)]).

(** An endpoint whose responses do not decode. *)
Definition garbled : endpoint := fun _ _ => Raised JSONDecodeError.

(** A new client on a link without loss or latency. *)
Definition quiet : session := (Mcp.init, constant_world (1 # 2)).

End TaskScript.

(** ** The tasks the servers run in the background *)

Module ServerTasks.

(** A dict with string keys. *)
Definition table (V : Type) : Type := list (string * V).

(** [d.get(key)] *)
Fixpoint lookup {V} (d : table V) (key : string) : option V :=
  match d with
  | [] => None
  | (k, v) :: rest => if String.eqb k key then Some v else lookup rest key
  end.

(** The dict with the value under [key], if there is one, changed by [f]. *)
Fixpoint change {V} (d : table V) (key : string) (f : V -> V) : table V :=
  match d with
  | [] => []
  | (k, v) :: rest =>
      if String.eqb k key then (k, f v) :: rest else (k, v) :: change rest key f
  end.

(** [for x in xs: body(x)] *)
Fixpoint for_each {S A} (xs : list A) (body : A -> M S unit) : M S unit :=
  match xs with
  | [] => ret tt
  | x :: rest => body x ;; for_each rest body
  end.

(** [await asyncio.sleep(seconds)] inside a server. *)
Definition asleep {D} (seconds : Q) : M (D * world) unit :=
  zoom snd (fun w (st : D * world) => (fst st, w)) (sleep seconds).

(** [0.1 * complexity] *)
Definition step_seconds (complexity : Z) : Q := (1 # 10) * inject_Z complexity.

(** *** mcp_server.py *)

(** [sessions: Dict[str, asyncio.Queue]]: for each session the messages
    put in its queue and not yet taken, oldest first. *)
Definition sessions : Type := table (list json).

Definition mcp_server : Type := (sessions * world)%type.

(** [await queue.put(message)] on the queue of [session_id]. *)
Definition queue_put (session_id : string) (message : json) : M mcp_server unit :=
  modify (fun st : mcp_server =>
            (change (fst st) session_id (fun q => q ++ [message]), snd st)).

(** The notification of the loop of [run_mcp_task]. *)
Definition notification (progress : Z) : json :=
  JObj [("jsonrpc", JStr "2.0");
        ("method", JStr "notifications/progress");
        ("params", JObj [("progress", JInt progress); ("status", JStr "running")])].

(** The notification that ends [run_mcp_task]. *)
Definition completion : json :=
  JObj [("jsonrpc", JStr "2.0");
        ("method", JStr "notifications/progress");
        ("params", JObj [("progress", JInt 100);
                         ("status", JStr "completed");
                         ("result", JStr "Task Completed Successfully")])].

(** [async def run_mcp_task(session_id, complexity)].  An [asyncio.Queue]
    defines neither [__bool__] nor [__len__]: [not queue] holds for [None]
    only. *)
Definition run_mcp_task (session_id : string) (complexity : Z) : M mcp_server unit :=
  st <- get_state ;;
  match lookup (fst st) session_id with
  | None => ret tt
  | Some _ =>
      for_each (seq 0 10)
        (fun i =>
           asleep (step_seconds complexity) ;;
           queue_put session_id (notification ((Z.of_nat i + 1) * 10))) ;;
      queue_put session_id completion
  end.

(** The messages [run_mcp_task] puts in the queue, in order. *)
Definition queued : list json :=
  map (fun i => notification ((Z.of_nat i + 1) * 10)) (seq 0 10) ++ [completion].

(** *** rest_server.py *)

(** [tasks: Dict[str, Dict[str, Any]]] *)
Definition tasks : Type := table (list (string * json)).

Definition rest_server : Type := (tasks * world)%type.

(** [tasks[task_id][key] = value] *)
Definition set_item (task_id key : string) (value : json) : M rest_server unit :=
  fun st =>
    match lookup (fst st) task_id with
    | None => (Raised (KeyError task_id), st)
    | Some _ =>
        (Ok tt, (change (fst st) task_id (fun d => Json.set d key value), snd st))
    end.

(** [async def run_background_task(task_id, complexity)] *)
Definition run_background_task (task_id : string) (complexity : Z) : M rest_server unit :=
  for_each (seq 0 10)
    (fun i =>
       asleep (step_seconds complexity) ;;
       set_item task_id "progress" (JInt ((Z.of_nat i + 1) * 10))) ;;
  set_item task_id "status" (JStr "completed") ;;
  set_item task_id "result" (JStr "Task Completed Successfully").

(** *** What the client makes of the notifications *)

(** The progress notifications a started task reads from [ls]. *)
Fixpoint progress_events (json_loads : decoder) (ls : list sse_line) : list json :=
  match ls with
  | [] => []
  | l :: rest =>
      match (if is_data l then json_loads (strip (payload l)) else None) with
      | Some (JObj items) =>
          if eq_str (match Json.get items "method" with Some v => v | None => JNull end)
                    "notifications/progress"
          then JObj items :: progress_events json_loads rest
          else progress_events json_loads rest
      | _ => progress_events json_loads rest
      end
  end.

(** The number of events a started task counts on the notifications [ms]:
    all of them up to and including the first completed one. *)
Fixpoint counted (ms : list json) : nat :=
  match ms with
  | [] => O
  | m :: rest => if is_completed m then 1%nat else S (counted rest)
  end.

(** A data line that carries the text [body]. *)
Definition data_line (now : Q) (body : string) : sse_line :=
  mkLine now ("data: " ++ Json.dq body)%string.

(** The lines the stream of the bundled server carries while the task of
    session 1762180000.1234567 runs; the texts are [json.dumps] of the
    notifications, written with ['] for the double quote. *)
Definition task_lines : list sse_line :=
  map (fun p : Q * string =>
         data_line (fst p)
           ("{'jsonrpc': '2.0', 'method': 'notifications/progress', " ++
            "'params': {'progress': " ++ snd p ++ ", 'status': 'running'}}"))
      [(1, "10"); (2, "20"); (3, "30"); (4, "40"); (5, "50");
       (6, "60"); (7, "70"); (8, "80"); (9, "90"); (10, "100")]
  ++ [data_line 10
        ("{'jsonrpc': '2.0', 'method': 'notifications/progress', " ++
         "'params': {'progress': 100, 'status': 'completed', " ++
         "'result': 'Task Completed Successfully'}}")].

End ServerTasks.

(* ===================================================================== *)
(** * Part II.  Properties                                                *)
(* ===================================================================== *)

(** ** Numbers *)

Lemma Qltb_lt (x y : Q) : Qltb x y = true <-> x < y.
Proof.
  unfold Qltb. rewrite negb_true_iff.
  split; intro H.
  - apply Qnot_le_lt. intro Hle. apply Qle_bool_iff in Hle. congruence.
  - destruct (Qle_bool y x) eqn:E; [|reflexivity].
    apply Qle_bool_iff in E. exfalso. exact (Qlt_not_le _ _ H E).
Qed.

Lemma Qltb_ge (x y : Q) : Qltb x y = false <-> y <= x.
Proof.
  unfold Qltb. rewrite negb_false_iff. apply Qle_bool_iff.
Qed.

Lemma truediv_pos {S} (a b : Q) (s : S) : 0 < b -> truediv a b s = (Ok (a / b), s).
Proof.
  intro H. unfold truediv.
  destruct (Qeq_bool b 0) eqn:E; [|reflexivity].
  apply Qeq_bool_iff in E. rewrite E in H. exfalso. exact (Qlt_irrefl _ H).
Qed.

Lemma injected_delay_app (l1 l2 : list effect) :
  injected_delay (l1 ++ l2) == injected_delay l1 + injected_delay l2.
Proof.
  induction l1 as [|e l1 IH]; simpl.
  - ring.
  - rewrite IH. ring.
Qed.

Lemma remote_calls_app (l1 l2 : list effect) :
  remote_calls (l1 ++ l2) = remote_calls l1 ++ remote_calls l2.
Proof. apply filter_app. Qed.

(** ** The simulator, case by case *)

Section SimulateNetwork.

Variable self : NetworkSimulator.
Variable w : world.

Lemma simulate_network_dropped :
  0 < packet_loss_rate self ->
  rand w (drawn w) < packet_loss_rate self ->
  simulate_network self w = (Raised packet_loss, after_latency self w (S (drawn w))).
Proof.
  intros Hrate Hr. unfold simulate_network, bind.
  apply Qltb_lt in Hrate. rewrite Hrate.
  unfold random at 1. cbn [rand drawn log ret].
  apply Qltb_lt in Hr. rewrite Hr.
  reflexivity.
Qed.

Lemma simulate_network_passed :
  0 < packet_loss_rate self ->
  packet_loss_rate self <= rand w (drawn w) ->
  simulate_network self w =
    if Qltb 0 (latency_ms self) then (Ok tt, after_latency self w (S (drawn w)))
    else (Ok tt, after_draw w).
Proof.
  intros Hrate Hr. unfold simulate_network, bind.
  apply Qltb_lt in Hrate. rewrite Hrate.
  unfold random at 1. cbn [rand drawn log ret].
  apply Qltb_ge in Hr. rewrite Hr.
  destruct (Qltb 0 (latency_ms self)); reflexivity.
Qed.

Lemma simulate_network_lossless :
  packet_loss_rate self <= 0 ->
  simulate_network self w =
    if Qltb 0 (latency_ms self) then (Ok tt, after_latency self w (drawn w))
    else (Ok tt, w).
Proof.
  intros Hrate. unfold simulate_network, bind.
  apply Qltb_ge in Hrate. rewrite Hrate. cbn [ret].
  destruct (Qltb 0 (latency_ms self)); [reflexivity|].
  destruct w; reflexivity.
Qed.

End SimulateNetwork.

(** The call raises nothing but the simulated loss. *)
Lemma simulate_network_outcome (self : NetworkSimulator) (w : world) :
  fst (simulate_network self w) = Ok tt \/
  fst (simulate_network self w) = Raised packet_loss.
Proof.
  destruct (Qlt_le_dec 0 (packet_loss_rate self)) as [Hpos|Hle].
  - destruct (Qlt_le_dec (rand w (drawn w)) (packet_loss_rate self)) as [Hr|Hr].
    + right. now rewrite simulate_network_dropped.
    + left. rewrite simulate_network_passed by assumption.
      now destruct (Qltb 0 (latency_ms self)).
  - left. rewrite simulate_network_lossless by assumption.
    now destruct (Qltb 0 (latency_ms self)).
Qed.

(** The call leaves the source of randomness itself untouched and never
    issues a remote call. *)
Lemma simulate_network_frame (self : NetworkSimulator) (w : world) :
  rand (snd (simulate_network self w)) = rand w /\
  remote_calls (log (snd (simulate_network self w))) = remote_calls (log w).
Proof.
  assert (Hlog : forall d, remote_calls (log (after_latency self w d)) = remote_calls (log w)).
  { intro d. unfold after_latency. cbn [log]. rewrite remote_calls_app.
    cbn. apply app_nil_r. }
  destruct (Qlt_le_dec 0 (packet_loss_rate self)) as [Hpos|Hle].
  - destruct (Qlt_le_dec (rand w (drawn w)) (packet_loss_rate self)) as [Hr|Hr].
    + rewrite simulate_network_dropped by assumption. cbn [snd]. now split.
    + rewrite simulate_network_passed by assumption.
      destruct (Qltb 0 (latency_ms self)); cbn [snd]; now split.
  - rewrite simulate_network_lossless by assumption.
    destruct (Qltb 0 (latency_ms self)); cbn [snd]; now split.
Qed.

Lemma sleep_delay (w : world) (d : Q) :
  injected_delay (log w ++ [Sleep d]) == injected_delay (log w) + Qmax 0 d.
Proof. rewrite injected_delay_app. cbn. ring. Qed.

Lemma Qmax_0_nonneg (d : Q) : 0 <= d -> Qmax 0 d == d.
Proof. intro H. now apply Q.max_r. Qed.

Lemma latency_seconds_pos (self : NetworkSimulator) :
  0 < latency_ms self -> 0 < latency_ms self / 1000.
Proof.
  intro H. apply Qlt_shift_div_l; [reflexivity|].
  now rewrite Qmult_0_l.
Qed.

(** ** Transfers *)

Lemma simulate_transfer_unlimited (self : NetworkSimulator) (n : Z) (w : world) :
  bandwidth_mbps self <= 0 ->
  simulate_transfer self n w = simulate_network self w.
Proof.
  intro H. unfold simulate_transfer, bind at 1.
  apply Qltb_ge in H. rewrite H.
  destruct (simulate_network self w) as [[[]|e] w1]; reflexivity.
Qed.

Lemma bits_per_second_pos (self : NetworkSimulator) :
  0 < bandwidth_mbps self -> 0 < bandwidth_mbps self * 1000000.
Proof.
  intro H. rewrite <- (Qmult_0_l 1000000).
  apply Qmult_lt_compat_r; [reflexivity | assumption].
Qed.

Lemma simulate_transfer_limited (self : NetworkSimulator) (n : Z) (w : world) :
  0 < bandwidth_mbps self ->
  simulate_transfer self n w =
    match simulate_network self w with
    | (Ok _, w1) =>
        (Ok tt, mkWorld (rand w1) (drawn w1)
                  (log w1 ++ [Sleep (inject_Z (n * 8) / (bandwidth_mbps self * 1000000))]))
    | (Raised e, w1) => (Raised e, w1)
    end.
Proof.
  intro H. unfold simulate_transfer, bind at 1.
  pose proof (bits_per_second_pos self H) as Hbps.
  apply Qltb_lt in H. rewrite H.
  destruct (simulate_network self w) as [[[]|e] w1]; [|reflexivity].
  unfold bind. rewrite truediv_pos by assumption. reflexivity.
Qed.

Lemma simulate_transfer_no_zero_division (self : NetworkSimulator) (n : Z) (w : world) :
  fst (simulate_transfer self n w) <> Raised ZeroDivisionError.
Proof.
  pose proof (simulate_network_outcome self w) as Hnet.
  destruct (Qlt_le_dec 0 (bandwidth_mbps self)) as [Hpos|Hle].
  - rewrite simulate_transfer_limited by assumption.
    destruct (simulate_network self w) as [[[]|e] w1]; cbn [fst] in *.
    + discriminate.
    + destruct Hnet as [Hnet|Hnet]; rewrite Hnet; discriminate.
  - rewrite simulate_transfer_unlimited by assumption.
    destruct Hnet as [Hnet|Hnet]; rewrite Hnet; discriminate.
Qed.

Lemma transfer_seconds_nonneg (self : NetworkSimulator) (n : Z) :
  0 < bandwidth_mbps self -> (0 <= n)%Z ->
  0 <= inject_Z (n * 8) / (bandwidth_mbps self * 1000000).
Proof.
  intros Hbw Hn. apply Qle_shift_div_l.
  - now apply bits_per_second_pos.
  - rewrite Qmult_0_l. change 0 with (inject_Z 0). rewrite <- Zle_Qle. lia.
Qed.

(** ** Repeated trials *)

Lemma drops_in_lossless (self : NetworkSimulator) (n : nat) :
  packet_loss_rate self <= 0 ->
  forall w, exists w',
    drops_in n self w = (Ok O, w') /\ drawn w' = drawn w /\ rand w' = rand w.
Proof.
  intro Hrate. induction n as [|n IH]; intro w.
  - exists w. now cbn.
  - cbn [drops_in]. unfold bind at 1, try_except, bind at 1.
    rewrite simulate_network_lossless by assumption.
    destruct (Qltb 0 (latency_ms self)).
    + destruct (IH (after_latency self w (drawn w))) as (w' & Hrun & Hd & Hr).
      exists w'. unfold bind, ret. rewrite Hrun. now cbn.
    + destruct (IH w) as (w' & Hrun & Hd & Hr).
      exists w'. unfold bind, ret. rewrite Hrun. now cbn.
Qed.

Lemma drops_in_total_loss (self : NetworkSimulator) (n : nat) :
  packet_loss_rate self == 1 ->
  forall w, (forall i, rand w i < 1) ->
  exists w', drops_in n self w = (Ok n, w') /\ drawn w' = (drawn w + n)%nat.
Proof.
  intro Hrate. induction n as [|n IH]; intros w Hw.
  - exists w. cbn. split; [reflexivity | lia].
  - cbn [drops_in]. unfold bind at 1, try_except, bind at 1.
    rewrite simulate_network_dropped;
      [ | rewrite Hrate; reflexivity | rewrite Hrate; apply Hw ].
    cbn [any_exception ret].
    destruct (IH (after_latency self w (S (drawn w)))) as (w' & Hrun & Hd);
      [exact Hw|].
    exists w'. unfold bind, ret. rewrite Hrun. cbn [drawn after_latency] in Hd.
    split; [reflexivity | lia].
Qed.

(** ** Requests behind the simulator *)

Lemma send_request_dropped (remote : endpoint) (method : string) (params : json)
    (self : McpClient) (w : world) :
  0 < packet_loss_rate (network_sim self) ->
  rand w (drawn w) < packet_loss_rate (network_sim self) ->
  _send_request_async remote method params (self, w) =
    (Raised packet_loss, (self, after_latency (network_sim self) w (S (drawn w)))).
Proof.
  intros Hrate Hr.
  unfold _send_request_async, bind at 1, get_state. cbn [fst].
  unfold bind at 1, on_world at 1, zoom. cbn [fst snd].
  now rewrite simulate_network_dropped.
Qed.

(** ** The event stream, line by line *)

Section Listening.

Variable json_loads : decoder.
Variables start duration : Q.

Lemma completed_pure {S} (msg : json) (st : S) :
  completed msg st =
    (match completed msg tt with (r, _) => r end, st).
Proof.
  unfold completed, bind, dict_get.
  destruct msg; try reflexivity. cbn [ret].
  destruct (Json.get items "params") as [[]|]; reflexivity.
Qed.

Lemma blank_not_data (l : sse_line) : parsed json_loads (blank l) = None.
Proof. reflexivity. Qed.

Lemma malformed_not_parsed (l : sse_line) :
  malformed json_loads l = true -> parsed json_loads l = None.
Proof.
  unfold malformed, parsed. destruct (is_data l); [|reflexivity].
  cbn [andb]. now destruct (json_loads (payload l)).
Qed.

(** One iteration of the loop, on the line at the head of the stream. *)
Lemma listen_loop_cons (l : sse_line) (rest : list sse_line) (ending : stream_end)
    (st : listening) :
  listen_loop json_loads start duration (l :: rest) ending st =
    if in_budget start duration l then
      match parsed json_loads l with
      | None =>
          listen_loop json_loads start duration rest ending
            (mkListening (events st) (S (pulled st)))
      | Some msg =>
          if is_completed msg
          then (Ok tt, mkListening (events st ++ [msg]) (S (pulled st)))
          else listen_loop json_loads start duration rest ending
                 (mkListening (events st ++ [msg]) (S (pulled st)))
      end
    else (Ok tt, mkListening (events st) (S (pulled st))).
Proof.
  cbn [listen_loop]. unfold bind at 1, modify at 1.
  unfold bind at 1, listen_line, in_budget, parsed, is_data, payload.
  destruct (Qltb duration (clock l - start)); cbn [negb ret]; [reflexivity|].
  destruct (startswith (text l) "data: "); cbn [ret]; [|reflexivity].
  unfold try_except, bind at 1, loads.
  destruct (json_loads (slice_from 6 (text l))) as [msg|]; cbn [ret raise any_exception];
    [|reflexivity].
  unfold bind at 1, modify at 1. cbn [events pulled].
  unfold bind at 1. rewrite completed_pure. unfold is_completed.
  destruct (completed msg tt) as [[[]|e] u]; reflexivity.
Qed.

Local Abbreviation loop := (listen_loop json_loads start duration).

Lemma listening_eta (st : listening) :
  mkListening (events st ++ []) (pulled st + 0) = st.
Proof. destruct st. cbn. now rewrite app_nil_r, Nat.add_0_r. Qed.

Lemma terminal_parsed (l : sse_line) :
  terminal json_loads l = true ->
  exists msg, parsed json_loads l = Some msg /\ is_completed msg = true.
Proof.
  unfold terminal. destruct (parsed json_loads l) as [msg|]; [|discriminate].
  intro H. now exists msg.
Qed.

Lemma listen_loop_terminal (t : sse_line) rest ending st :
  in_budget start duration t = true ->
  terminal json_loads t = true ->
  loop (t :: rest) ending st =
    (Ok tt, mkListening (events st ++ events_of json_loads [t]) (S (pulled st))).
Proof.
  intros Hb Ht. destruct (terminal_parsed t Ht) as (msg & Hp & Hc).
  rewrite listen_loop_cons, Hb, Hp, Hc. cbn [events_of]. now rewrite Hp.
Qed.

(** Lines that come in time and carry no terminal event are consumed one by
    one, their events appended in order. *)
Lemma listen_loop_prefix (pre rest : list sse_line) ending :
  Forall (fun l => in_budget start duration l = true /\ terminal json_loads l = false) pre ->
  forall st,
    loop (pre ++ rest) ending st =
    loop rest ending
      (mkListening (events st ++ events_of json_loads pre) (pulled st + List.length pre)).
Proof.
  induction 1 as [|l pre [Hb Ht] _ IH]; intro st.
  - cbn [app events_of List.length]. now rewrite listening_eta.
  - cbn [app]. rewrite listen_loop_cons, Hb.
    unfold terminal in Ht. cbn [events_of List.length].
    destruct (parsed json_loads l) as [msg|].
    + rewrite Ht, IH. cbn [events pulled].
      rewrite <- app_assoc, Nat.add_succ_r. reflexivity.
    + rewrite IH. cbn [events pulled]. now rewrite Nat.add_succ_r.
Qed.

(** Nothing behind a terminal event is looked at, not even the way the
    stream ends. *)
Lemma listen_loop_stops_at_terminal (t : sse_line) :
  terminal json_loads t = true ->
  forall pre rest ending rest' ending' st,
    loop (pre ++ t :: rest) ending st = loop (pre ++ t :: rest') ending' st.
Proof.
  intros Ht pre rest ending rest' ending'.
  destruct (terminal_parsed t Ht) as (msg & Hp & Hc).
  induction pre as [|l pre IH]; intro st; cbn [app]; rewrite !listen_loop_cons.
  - now rewrite Hp, Hc.
  - destruct (in_budget start duration l); [|reflexivity].
    destruct (parsed json_loads l) as [m|]; [|apply IH].
    destruct (is_completed m); [reflexivity | apply IH].
Qed.

(** A data line that does not decode is treated as a blank line is. *)
Lemma listen_loop_malformed_as_blank (bad : sse_line) :
  malformed json_loads bad = true ->
  forall pre post ending st,
    loop (pre ++ bad :: post) ending st = loop (pre ++ blank bad :: post) ending st.
Proof.
  intros Hbad pre post ending.
  induction pre as [|l pre IH]; intro st; cbn [app]; rewrite !listen_loop_cons.
  - rewrite (malformed_not_parsed bad Hbad), blank_not_data. reflexivity.
  - destruct (in_budget start duration l); [|reflexivity].
    destruct (parsed json_loads l) as [m|]; [|apply IH].
    destruct (is_completed m); [reflexivity | apply IH].
Qed.

(** The outcome of the loop and the events it gathers do not depend on the
    count of lines taken so far. *)
Lemma listen_loop_count_irrelevant (ls : list sse_line) ending :
  forall st k,
    fst (loop ls ending st) = fst (loop ls ending (mkListening (events st) k))
    /\ events (snd (loop ls ending st))
       = events (snd (loop ls ending (mkListening (events st) k))).
Proof.
  induction ls as [|l ls IH]; intros st k.
  - cbn [listen_loop]. destruct ending; cbn; now split.
  - rewrite !listen_loop_cons. cbn [events pulled].
    destruct (in_budget start duration l); [|now split].
    destruct (parsed json_loads l) as [m|].
    + destruct (is_completed m); [now split|].
      apply (IH (mkListening (events st ++ [m]) (S (pulled st))) (S k)).
    + apply (IH (mkListening (events st) (S (pulled st))) (S k)).
Qed.

(** Taking a malformed line that came in time out of the stream changes
    neither the outcome nor the events gathered. *)
Lemma listen_loop_malformed_removed (bad : sse_line) :
  malformed json_loads bad = true ->
  in_budget start duration bad = true ->
  forall pre post ending st,
    fst (loop (pre ++ bad :: post) ending st) = fst (loop (pre ++ post) ending st)
    /\ events (snd (loop (pre ++ bad :: post) ending st))
       = events (snd (loop (pre ++ post) ending st)).
Proof.
  intros Hbad Hb pre post ending.
  induction pre as [|l pre IH]; intro st; cbn [app].
  - rewrite listen_loop_cons, Hb, (malformed_not_parsed bad Hbad).
    destruct (listen_loop_count_irrelevant post ending st (S (pulled st))) as [H1 H2].
    now split.
  - rewrite !listen_loop_cons.
    destruct (in_budget start duration l); [|now split].
    destruct (parsed json_loads l) as [m|]; [|apply IH].
    destruct (is_completed m); [now split | apply IH].
Qed.

(** The loop raises only what the stream itself raises at its end. *)
Lemma listen_loop_raises (ls : list sse_line) ending :
  forall st e st',
    loop ls ending st = (Raised e, st') -> ending = StreamRaises e.
Proof.
  induction ls as [|l ls IH]; intros st e st'.
  - cbn [listen_loop]. destruct ending; cbn; intro H; inversion H. reflexivity.
  - rewrite listen_loop_cons.
    destruct (in_budget start duration l); [|discriminate].
    destruct (parsed json_loads l) as [m|]; [|apply IH].
    destruct (is_completed m); [discriminate | apply IH].
Qed.

(** A stream without terminal event is read up to its first late line, or
    to its end when no line is late. *)
Lemma listen_loop_no_terminal (ls : list sse_line) ending :
  Forall (fun l => terminal json_loads l = false) ls ->
  forall st,
    loop ls ending st =
    let kept := within_budget start duration ls in
    if (List.length kept <? List.length ls)%nat
    then (Ok tt, mkListening (events st ++ events_of json_loads kept)
                             (pulled st + S (List.length kept)))
    else exhausted ending
           (mkListening (events st ++ events_of json_loads ls)
                        (pulled st + List.length ls)).
Proof.
  induction 1 as [|l ls Ht _ IH]; intro st; cbv zeta.
  - cbn [listen_loop within_budget List.length Nat.ltb Nat.leb events_of].
    now rewrite listening_eta.
  - rewrite listen_loop_cons. cbn [within_budget].
    destruct (in_budget start duration l).
    + cbn [List.length events_of]. unfold terminal in Ht.
      change (S (List.length (within_budget start duration ls)) <? S (List.length ls))%nat
        with (List.length (within_budget start duration ls) <? List.length ls)%nat.
      destruct (parsed json_loads l) as [m|].
      * rewrite Ht, IH. cbv zeta. cbn [events pulled].
        rewrite <- !app_assoc, !Nat.add_succ_r. reflexivity.
      * rewrite IH. cbv zeta. cbn [events pulled].
        rewrite !Nat.add_succ_r. reflexivity.
    + cbn [List.length Nat.ltb Nat.leb events_of].
      now rewrite app_nil_r, Nat.add_1_r.
Qed.

(** From the loop to the call. *)
Lemma listen_for_events_unfold (s : sse_stream) :
  listen_for_events json_loads start duration s =
    match loop (lines s) (ending s) (mkListening [] 0) with
    | (Ok _, st) => mkListened (Ok (events st)) (pulled st)
    | (Raised e, st) =>
        if is_read_timeout e then mkListened (Ok (events st)) (pulled st)
        else mkListened (Raised e) (pulled st)
    end.
Proof.
  unfold listen_for_events, try_except.
  destruct (loop (lines s) (ending s) (mkListening [] 0)) as [[u|e] st];
    [reflexivity|].
  now destruct (is_read_timeout e).
Qed.

Lemma listen_for_events_raises (s : sse_stream) (e : exn) :
  returned (listen_for_events json_loads start duration s) = Raised e ->
  ending s = StreamRaises e /\ is_read_timeout e = false.
Proof.
  rewrite listen_for_events_unfold.
  destruct (loop (lines s) (ending s) (mkListening [] 0)) as [[u|e'] st] eqn:E;
    [discriminate|].
  destruct (is_read_timeout e') eqn:T; [discriminate|].
  cbn [returned]. intro H. inversion H; subst e'.
  split; [now apply (listen_loop_raises _ _ _ _ _ E) | assumption].
Qed.

Lemma within_budget_length (ls : list sse_line) :
  (List.length (within_budget start duration ls) <= List.length ls)%nat.
Proof.
  induction ls as [|l ls IH]; cbn; [lia|].
  destruct (in_budget start duration l); cbn; lia.
Qed.

Lemma within_budget_all (ls : list sse_line) :
  List.length (within_budget start duration ls) = List.length ls ->
  within_budget start duration ls = ls.
Proof.
  induction ls as [|l ls IH]; cbn; [reflexivity|].
  destruct (in_budget start duration l); cbn; [|discriminate].
  intro H. f_equal. apply IH. lia.
Qed.

Lemma returned_of_loop (s : sse_stream) :
  returned (listen_for_events json_loads start duration s) =
    match fst (loop (lines s) (ending s) (mkListening [] 0)) with
    | Ok _ => Ok (events (snd (loop (lines s) (ending s) (mkListening [] 0))))
    | Raised e =>
        if is_read_timeout e
        then Ok (events (snd (loop (lines s) (ending s) (mkListening [] 0))))
        else Raised e
    end.
Proof.
  rewrite listen_for_events_unfold.
  destruct (loop (lines s) (ending s) (mkListening [] 0)) as [[u|e] st];
    [reflexivity|].
  cbn [fst snd]. destruct (is_read_timeout e); reflexivity.
Qed.

End Listening.

(** ** Establishing the session *)

Section Connecting.

Variable json_loads : decoder.

Lemma connect_sse_line_spec (l : sse_line) (self : McpClient) :
  connect_sse_line json_loads (text l) self =
    match session_line json_loads l with
    | Some sid => (Ok (Return sid), with_session self sid)
    | None => (Ok Next, self)
    end.
Proof.
  unfold connect_sse_line, session_line, is_data, payload.
  destruct (startswith (text l) "event: connection"); [reflexivity|].
  destruct (startswith (text l) "data: "); [|reflexivity].
  unfold try_except, bind at 1, loads.
  now destruct (json_loads (slice_from 6 (text l))).
Qed.

Lemma connect_sse_loop_cons (l : sse_line) rest ending (self : McpClient) :
  connect_sse_loop json_loads (l :: rest) ending self =
    match session_line json_loads l with
    | Some sid => (Ok (Some sid), with_session self sid)
    | None => connect_sse_loop json_loads rest ending self
    end.
Proof.
  cbn [connect_sse_loop]. unfold bind at 1. rewrite connect_sse_line_spec.
  now destruct (session_line json_loads l).
Qed.

Lemma session_line_some (l : sse_line) (sid : string) :
  session_line json_loads l = Some sid ->
  is_data l = true /\ json_loads (payload l) = None /\ sid = strip (payload l).
Proof.
  unfold session_line.
  destruct (startswith (text l) "event: connection"); [discriminate|].
  destruct (is_data l); [|discriminate].
  destruct (json_loads (payload l)); [discriminate|].
  intro H. inversion H. now repeat split.
Qed.

Lemma session_line_decodable (l : sse_line) :
  (is_data l = true -> json_loads (payload l) <> None) ->
  session_line json_loads l = None.
Proof.
  intro H. destruct (session_line json_loads l) as [sid|] eqn:E; [|reflexivity].
  destruct (session_line_some l sid E) as (Hd & Hn & _).
  now destruct (H Hd).
Qed.

(** A returned session id comes from the first line that yields one. *)
Lemma connect_sse_loop_returns (ls : list sse_line) ending :
  forall self sid self',
    connect_sse_loop json_loads ls ending self = (Ok (Some sid), self') ->
    exists pre l post,
      ls = pre ++ l :: post
      /\ Forall (fun l' => session_line json_loads l' = None) pre
      /\ session_line json_loads l = Some sid
      /\ self' = with_session self sid.
Proof.
  induction ls as [|l ls IH]; intros self sid self'.
  - cbn [connect_sse_loop]. unfold bind, exhausted.
    destruct ending; cbn; discriminate.
  - rewrite connect_sse_loop_cons.
    destruct (session_line json_loads l) as [sid0|] eqn:E.
    + intro H. inversion H; subst.
      exists [], l, ls. repeat split; [constructor | assumption].
    + intro H. destruct (IH _ _ _ H) as (pre & l0 & post & -> & Hpre & Hl & ->).
      exists (l :: pre), l0, post. repeat split; [now constructor | assumption].
Qed.

(** When no line yields a session id the loop runs to the end of the
    stream and leaves the client as it was. *)
Lemma connect_sse_loop_none (ls : list sse_line) ending (self : McpClient) :
  Forall (fun l => session_line json_loads l = None) ls ->
  connect_sse_loop json_loads ls ending self =
    match ending with
    | EndOfStream => (Ok None, self)
    | StreamRaises e => (Raised e, self)
    end.
Proof.
  induction 1 as [|l ls Hl _ IH].
  - cbn [connect_sse_loop]. unfold bind, exhausted. now destruct ending.
  - rewrite connect_sse_loop_cons, Hl. exact IH.
Qed.

End Connecting.

(** ** Numerals *)

Section Numerals.

Import Json.

Lemma digit_code (c : ascii) :
  is_digit c = true -> (48 <= code c <= 57)%N.
Proof.
  unfold is_digit. intro H. apply andb_true_iff in H. destruct H as [H1 H2].
  apply N.leb_le in H1, H2. lia.
Qed.

Lemma digit_differs (c x : ascii) :
  is_digit c = true -> (code x < 48 \/ 57 < code x)%N -> Ascii.eqb x c = false.
Proof.
  intros Hc Hx. apply digit_code in Hc.
  destruct (Ascii.eqb_spec x c) as [->|]; [lia | reflexivity].
Qed.

Lemma digit_differs' (c x : ascii) :
  is_digit c = true -> (code x < 48 \/ 57 < code x)%N -> Ascii.eqb c x = false.
Proof. intros Hc Hx. rewrite Ascii.eqb_sym. now apply digit_differs. Qed.

Lemma digit_code_differs (c : ascii) (k : N) :
  is_digit c = true -> (k < 48 \/ 57 < k)%N -> (code c =? k)%N = false.
Proof. intros Hc Hk. apply digit_code in Hc. apply N.eqb_neq. lia. Qed.

Lemma digits_run (run rest : chars) :
  forallb is_digit run = true ->
  match rest with [] => True | c :: _ => is_digit c = false end ->
  digits (run ++ rest) = (run, rest).
Proof.
  intros Hrun Hrest. induction run as [|d run IH]; cbn [app].
  - destruct rest as [|c rest]; [reflexivity|]. cbn [digits]. now rewrite Hrest.
  - cbn [forallb] in Hrun. apply andb_true_iff in Hrun. destruct Hrun as [Hd Hrun].
    cbn [digits]. rewrite Hd, (IH Hrun). reflexivity.
Qed.

Lemma decimal_decodes (lead : ascii) (more fraction : chars) :
  is_digit lead = true ->
  (code lead =? 48)%N = false ->
  forallb is_digit more = true ->
  forallb is_digit fraction = true ->
  fraction <> [] ->
  loads (decimal lead more fraction) = Some (JFloat (decimal lead more fraction)).
Proof.
  intros Hlead Hnz Hmore Hfrac Hne.
  unfold loads, decimal, chars_of, text_of.
  rewrite list_ascii_of_string_of_list_ascii.
  set (dot := ascii_of_nat 46).
  set (s := lead :: more ++ dot :: fraction).
  replace (2 * List.length s + 2)%nat with (S (2 * List.length s + 1)) by lia.
  assert (Hws : skip_ws s = s).
  { unfold s. cbn [skip_ws]. unfold is_ws.
    rewrite !(digit_code_differs lead) by (assumption || lia). reflexivity. }
  rewrite Hws. unfold s at 2. cbn [value]. fold s.
  rewrite (digit_differs' lead dquote) by (assumption || (cbn; lia)).
  rewrite !(digit_code_differs lead) by (assumption || lia).
  unfold literal.
  assert (Hn : forall x p, (code x < 48 \/ 57 < code x)%N -> strip_prefix (x :: p) s = None).
  { intros x p Hx. unfold s. cbn [strip_prefix]. now rewrite (digit_differs lead x). }
  change (chars_of "null") with ("n"%char :: chars_of "ull").
  change (chars_of "true") with ("t"%char :: chars_of "rue").
  change (chars_of "false") with ("f"%char :: chars_of "alse").
  rewrite !Hn by (cbn; lia).
  unfold number, int_part. clear Hws Hn. subst s. cbv beta iota.
  rewrite !(digit_code_differs lead 45) by (assumption || lia).
  cbv beta iota. rewrite Hnz, Hlead.
  rewrite (digits_run more (dot :: fraction)) by (assumption || reflexivity).
  cbn [app]. unfold frac_part.
  change (code dot =? 46)%N with true. cbv iota.
  rewrite <- (app_nil_r fraction) at 1.
  rewrite (digits_run fraction []) by (assumption || exact I).
  destruct fraction as [|f0 fraction]; [congruence|].
  cbn [exp_part app skip_ws]. rewrite !app_nil_r. reflexivity.
Qed.

Lemma digit_not_line_feed (l : chars) :
  forallb is_digit l = true ->
  Forall (fun c => (N_of_ascii c =? 10)%N = false) l.
Proof.
  intro H. apply Forall_forall. intros c Hc.
  rewrite forallb_forall in H. apply (digit_code_differs c 10); [now apply H | lia].
Qed.

Lemma lines_from_line (l : chars) (rest : string) :
  Forall (fun c => (N_of_ascii c =? 10)%N = false) l ->
  forall pending,
    lines_from (string_of_list_ascii l ++ String (ascii_of_nat 10) rest)%string pending
    = string_of_list_ascii (rev pending ++ l) :: lines_from rest [].
Proof.
  induction 1 as [|c l Hc _ IH]; intro pending.
  - cbn [string_of_list_ascii append lines_from].
    change (N_of_ascii (ascii_of_nat 10) =? 10)%N with true. cbv iota.
    now rewrite app_nil_r.
  - cbn [string_of_list_ascii append lines_from]. rewrite Hc, IH.
    cbn [rev]. now rewrite <- app_assoc.
Qed.

(** The lines of the connection event for a numeric session id. *)
Lemma connection_lines_decimal (now : Q) (lead : ascii) (more fraction : chars) :
  is_digit lead = true ->
  forallb is_digit more = true ->
  forallb is_digit fraction = true ->
  Server.connection_lines now (decimal lead more fraction)
  = [mkLine now "event: connection";
     mkLine now ("data: " ++ decimal lead more fraction)%string;
     mkLine now ""].
Proof.
  intros Hlead Hmore Hfrac.
  unfold Server.connection_lines, Server.connection_event, splitlines, newline, decimal, text_of.
  set (sid := lead :: more ++ ascii_of_nat 46 :: fraction).
  assert (Hsid : Forall (fun c => (N_of_ascii c =? 10)%N = false) sid).
  { unfold sid.
    change (lead :: more ++ ascii_of_nat 46 :: fraction)
      with ((lead :: more) ++ ascii_of_nat 46 :: fraction).
    apply Forall_app. split.
    - apply digit_not_line_feed. cbn [forallb]. now rewrite Hlead, Hmore.
    - constructor; [reflexivity | now apply digit_not_line_feed]. }
  clearbody sid.
  change ("event: connection" ++ String (ascii_of_nat 10) "" ++ "data: "
          ++ string_of_list_ascii sid
          ++ String (ascii_of_nat 10) "" ++ String (ascii_of_nat 10) "")%string
    with (string_of_list_ascii (list_ascii_of_string "event: connection")
          ++ String (ascii_of_nat 10)
               (string_of_list_ascii (list_ascii_of_string "data: " ++ sid)
                ++ String (ascii_of_nat 10) (String (ascii_of_nat 10) "")))%string.
  rewrite lines_from_line by (repeat constructor).
  rewrite lines_from_line
    by (apply Forall_app; split; [repeat constructor | assumption]).
  reflexivity.
Qed.

(** On the connection event of the bundled server, whose session id is such
    a numeral, [connect_sse] finds no session id. *)
Lemma numeric_connection_event_yields_no_session (now : Q) (lead : ascii)
    (more fraction : chars) (self : McpClient) :
  is_digit lead = true ->
  (code lead =? 48)%N = false ->
  forallb is_digit more = true ->
  forallb is_digit fraction = true ->
  fraction <> [] ->
  connect_sse loads
    (mkStream (Server.connection_lines now (decimal lead more fraction)) EndOfStream) self
  = (Ok None, self).
Proof.
  intros Hlead Hnz Hmore Hfrac Hne.
  unfold connect_sse. cbn [Mcp.lines Mcp.ending].
  rewrite connection_lines_decimal by assumption.
  rewrite connect_sse_loop_none; [reflexivity|].
  apply Forall_cons; [reflexivity|].
  apply Forall_cons; [|apply Forall_cons; [reflexivity | apply Forall_nil]].
  unfold session_line, is_data, payload. cbn [text].
  change (startswith ("data: " ++ decimal lead more fraction) "event: connection") with false.
  change (startswith ("data: " ++ decimal lead more fraction) "data: ") with true.
  change (slice_from 6 ("data: " ++ decimal lead more fraction)) with (decimal lead more fraction).
  cbv iota. now rewrite decimal_decodes.
Qed.

End Numerals.

(** ** The batch of scenarios *)

Section Batch.

Import Bench.

Variable env : remote.

Lemma try_except_contained {A} (body : M run A) (handler : exn -> M run A) :
  (forall e st, exists a st', handler e st = (Ok a, st')) ->
  forall st, exists a st', try_except body any_exception handler st = (Ok a, st').
Proof.
  intros Hh st. unfold try_except.
  destruct (body st) as [[a|e] st']; [now exists a, st'|].
  cbn [any_exception]. apply Hh.
Qed.

Lemma print_ok (n : notice) (e : exn) (st : run) :
  exists a st', (fun _ : exn => print n) e st = (Ok a, st').
Proof. now eexists _, _. Qed.

(** The stock-ticker scenario contains every failure of its calls. *)
Lemma bench_stock_ticker_contained (st : run) :
  exists rows st', bench_stock_ticker env st = (Ok rows, st').
Proof.
  unfold bench_stock_ticker, bind at 1, new_results, modify.
  unfold bind at 1, print, modify.
  unfold bind at 1, try_finally.
  match goal with
  | |- context [try_except ?b any_exception ?h ?s] =>
      destruct (try_except_contained b h (fun e s' => print_ok (BenchFailed StockTicker e) e s') s)
        as (a & st' & ->)
  end.
  cbn [close_clients ret]. unfold return_results, bind, get_state, ret.
  now eexists _, _.
Qed.

(** So does the tool-chaining scenario. *)
Lemma bench_tool_chaining_contained (st : run) :
  exists rows st', bench_tool_chaining env st = (Ok rows, st').
Proof.
  unfold bench_tool_chaining, bind at 1, new_results, modify.
  unfold bind at 1, print, modify.
  unfold bind at 1, try_finally.
  match goal with
  | |- context [try_except ?b any_exception ?h ?s] =>
      destruct (try_except_contained b h (fun e s' => print_ok (BenchFailed ToolChaining e) e s') s)
        as (a & st' & ->)
  end.
  cbn [close_clients ret]. unfold return_results, bind, get_state, ret.
  now eexists _, _.
Qed.

(** The attempts of the instability scenario are counted, never raised. *)
Lemma successes_contained (c : call) (n : nat) :
  forall i st, exists k, successes env c n i st = (Ok k, st) /\ (k <= n)%nat.
Proof.
  induction n as [|n IH]; intros i st.
  - exists O. now split.
  - cbn [successes]. unfold bind at 1, try_except, bind at 1, invoke.
    destruct (answer env NetworkInstability c i) as [e|]; cbn [raise ret any_exception];
      destruct (IH (S i) st) as (k & Hk & Hle); unfold bind; rewrite Hk; cbn [ret].
    + exists k. split; [reflexivity | lia].
    + exists (S k). split; [reflexivity | lia].
Qed.

Lemma bench_network_instability_contained (st : run) :
  exists rows st', bench_network_instability env st = (Ok rows, st').
Proof.
  unfold bench_network_instability, bind at 1, new_results, modify.
  unfold bind at 1, print, modify.
  cbn [for_each fst snd]. unfold bind at 1, bind at 1, bind at 1.
  match goal with
  | |- context [successes env ?c ?n ?i ?s] =>
      destruct (successes_contained c n i s) as (k1 & -> & _)
  end.
  unfold append at 1, modify. unfold bind at 1, bind at 1.
  match goal with
  | |- context [successes env ?c ?n ?i ?s] =>
      destruct (successes_contained c n i s) as (k2 & -> & _)
  end.
  unfold append at 1, modify. cbn [ret]. unfold return_results, bind, get_state, ret.
  now eexists _, _.
Qed.

(** The chat scenario does not: the exception of its first call leaves the
    function, after the [finally] clause has run. *)
Lemma bench_multi_turn_chat_raises (e : exn) (n : nat) (st : run) :
  answer env Chat rest_chat_turn 0 = Some e ->
  bench_multi_turn_chat env (S n) st =
    (Raised e, mkRun (console st ++ [Benchmarking Chat]) [] (all_results st) (csv st)).
Proof.
  intro H. unfold bench_multi_turn_chat, bind at 1, new_results, modify.
  unfold bind at 1, print, modify. cbn [console results all_results csv].
  unfold bind at 1, try_finally, range. cbn [seq for_each].
  unfold bind at 1, bind at 1, bind at 1, invoke. rewrite H. reflexivity.
Qed.

End Batch.

(** Two runs of the whole batch.  A refused connection in the stock-ticker
    scenario is reported and the batch goes on to write its file ... *)
Example stock_ticker_failure_is_reported :
  let '(r, st) := Bench.run_all_benchmarks
                    (Bench.failing Bench.StockTicker Bench.rest_get_stock ConnectError)
                    5 Bench.fresh in
  r = Ok tt
  /\ Bench.started (Bench.console st) = Bench.every_scenario
  /\ In (Bench.BenchFailed Bench.StockTicker ConnectError) (Bench.console st)
  /\ option_map (@List.length Bench.row) (Bench.csv st) = Some 176%nat.
Proof. vm_compute. repeat split. right. right. right. right. now left. Qed.

(** ... whereas a refused [initialize] at the head of the last scenario,
    which stands outside its [try], ends the batch with nothing written. *)
Example real_world_initialize_failure_escapes :
  let '(r, st) := Bench.run_all_benchmarks
                    (Bench.failing Bench.RealWorldChat Bench.mcp_initialize_async ConnectError)
                    5 Bench.fresh in
  r = Raised ConnectError
  /\ Bench.started (Bench.console st) = Bench.every_scenario
  /\ Bench.csv st = None.
Proof. vm_compute. repeat split. Qed.

(* ===================================================================== *)
(** * Part III.  The claims                                               *)
(* ===================================================================== *)

(** ** The network simulator *)

(** C1 (as amended).  When the loss draw triggers ([packet_loss_rate > 0]
    and the drawn [r < packet_loss_rate]), [simulate_network] sleeps for
    [latency_ms / 1000] seconds and only then raises the packet-loss
    [ConnectionError]; the same holds for a transfer and for a request of the
    client, which therefore posts nothing and does not even take a request
    id.  The injected delay is the link latency: it is strictly positive
    whenever [latency_ms > 0]. *)
Theorem dropped_exchange_pays_latency (self : McpClient) (w : world) :
  let sim := network_sim self in
  let w' := after_latency sim w (S (drawn w)) in
  0 < packet_loss_rate sim ->
  rand w (drawn w) < packet_loss_rate sim ->
  simulate_network sim w = (Raised packet_loss, w')
  /\ (forall n, simulate_transfer sim n w = (Raised packet_loss, w'))
  /\ (forall remote method params,
        _send_request_async remote method params (self, w)
        = (Raised packet_loss, (self, w')))
  /\ log w' = log w ++ [Sleep (latency_ms sim / 1000)]
  /\ remote_calls (log w') = remote_calls (log w)
  /\ injected_delay (log w') == injected_delay (log w) + Qmax 0 (latency_ms sim / 1000)
  /\ (0 < latency_ms sim -> injected_delay (log w) < injected_delay (log w')).
Proof.
  intros sim w' Hrate Hr.
  assert (Hnet : simulate_network sim w = (Raised packet_loss, w'))
    by now apply simulate_network_dropped.
  repeat split.
  - exact Hnet.
  - intro n. unfold simulate_transfer, bind. now rewrite Hnet.
  - intros. now apply send_request_dropped.
  - unfold w', after_latency. cbn [log]. rewrite remote_calls_app. cbn. apply app_nil_r.
  - apply sleep_delay.
  - intro Hlat. unfold w', after_latency. cbn [log]. rewrite sleep_delay.
    rewrite Qmax_0_nonneg by (apply Qlt_le_weak; now apply latency_seconds_pos).
    rewrite <- (Qplus_0_r (injected_delay (log w))) at 1.
    apply Qplus_lt_r. now apply latency_seconds_pos.
Qed.

(** C1, an instance: 50 ms of latency, half of the exchanges lost, and a
    draw of 1/4. *)
Lemma dropped_exchange_pays_latency_witness :
  let self := mkClient 0 None (mkSim 50 (1 # 2) 0) in
  let w := constant_world (1 # 4) in
  let w' := after_latency (mkSim 50 (1 # 2) 0) w 1 in
  simulate_network (mkSim 50 (1 # 2) 0) w = (Raised packet_loss, w')
  /\ (forall n, simulate_transfer (mkSim 50 (1 # 2) 0) n w = (Raised packet_loss, w'))
  /\ (forall remote method params,
        _send_request_async remote method params (self, w)
        = (Raised packet_loss, (self, w')))
  /\ log w' = log w ++ [Sleep (50 / 1000)]
  /\ remote_calls (log w') = remote_calls (log w)
  /\ injected_delay (log w') == injected_delay (log w) + Qmax 0 (50 / 1000)
  /\ (0 < 50 -> injected_delay (log w) < injected_delay (log w')).
Proof.
  exact (dropped_exchange_pays_latency
           (mkClient 0 None (mkSim 50 (1 # 2) 0)) (constant_world (1 # 4))
           (eq_refl : (0 ?= 1 * 1)%Z = Lt) (eq_refl : (1 * 2 ?= 1 * 4)%Z = Lt)).
Defined.

(** C1, where the claim as stated fails: with the default latency of 0 ms a
    lost exchange raises after a sleep of zero seconds, so the failure
    carries no delay at all. *)
Lemma zero_latency_drop_is_instant :
  let sim := mkSim 0 1 0 in
  let w := constant_world 0 in
  fst (simulate_network sim w) = Raised packet_loss
  /\ log (snd (simulate_network sim w)) = [Sleep (0 / 1000)]
  /\ injected_delay (log (snd (simulate_network sim w))) == 0.
Proof. cbv zeta. repeat split. Qed.

(** C2.  With [packet_loss_rate == 0] a call to [simulate_network] never
    raises, whatever values the random source holds: the rate test comes
    first, so no draw is made at all ([drawn] stays put), and any number of
    successive trials counts zero drops. *)
Theorem zero_loss_rate_never_drops (self : NetworkSimulator) (w : world) :
  packet_loss_rate self == 0 ->
  fst (simulate_network self w) = Ok tt
  /\ drawn (snd (simulate_network self w)) = drawn w
  /\ forall n, fst (drops_in n self w) = Ok O
               /\ drawn (snd (drops_in n self w)) = drawn w.
Proof.
  intro Hrate.
  assert (Hle : packet_loss_rate self <= 0) by (rewrite Hrate; apply Qle_refl).
  rewrite simulate_network_lossless by assumption.
  repeat split.
  - now destruct (Qltb 0 (latency_ms self)).
  - now destruct (Qltb 0 (latency_ms self)).
  - destruct (drops_in_lossless self n Hle w) as (w' & Hrun & _). now rewrite Hrun.
  - destruct (drops_in_lossless self n Hle w) as (w' & Hrun & Hd & _). now rewrite Hrun.
Qed.

(** C2, an instance: a loss-free link of 50 ms whose random source would
    return 0 on every draw. *)
Lemma zero_loss_rate_never_drops_witness :
  fst (simulate_network (mkSim 50 0 0) (constant_world 0)) = Ok tt
  /\ drawn (snd (simulate_network (mkSim 50 0 0) (constant_world 0))) = O
  /\ forall n, fst (drops_in n (mkSim 50 0 0) (constant_world 0)) = Ok O
               /\ drawn (snd (drops_in n (mkSim 50 0 0) (constant_world 0))) = O.
Proof.
  exact (zero_loss_rate_never_drops (mkSim 50 0 0) (constant_world 0)
           (eq_refl : (0 * 1)%Z = (0 * 1)%Z)).
Defined.

(** C9.  With [packet_loss_rate == 1] every call to [simulate_network]
    raises the packet-loss error, for every draw in [0, 1): one call does,
    and so does each of any number of successive trials. *)
Theorem full_loss_rate_always_drops (self : NetworkSimulator) (w : world) :
  packet_loss_rate self == 1 ->
  uniform_draws w ->
  simulate_network self w = (Raised packet_loss, after_latency self w (S (drawn w)))
  /\ forall n, fst (drops_in n self w) = Ok n.
Proof.
  intros Hrate Hw. split.
  - apply simulate_network_dropped.
    + rewrite Hrate. reflexivity.
    + rewrite Hrate. apply Hw.
  - intro n.
    destruct (drops_in_total_loss self n Hrate w) as (w' & Hrun & _).
    + intro i. apply Hw.
    + now rewrite Hrun.
Qed.

Lemma constant_world_uniform (r : Q) :
  0 <= r -> r < 1 -> uniform_draws (constant_world r).
Proof. intros H0 H1 i. now split. Qed.

(** C9, an instance: every draw is 0.999. *)
Lemma full_loss_rate_always_drops_witness :
  simulate_network (mkSim 50 1 0) (constant_world (999 # 1000))
  = (Raised packet_loss,
     after_latency (mkSim 50 1 0) (constant_world (999 # 1000)) 1)
  /\ forall n, fst (drops_in n (mkSim 50 1 0) (constant_world (999 # 1000))) = Ok n.
Proof.
  apply (full_loss_rate_always_drops (mkSim 50 1 0) (constant_world (999 # 1000))).
  - reflexivity.
  - apply constant_world_uniform.
    + unfold Qle. simpl. lia.
    + reflexivity.
Defined.

(** C3.  With [bandwidth_mbps == 0], [simulate_transfer n] is
    [simulate_network]: same outcome, same world, hence no delay beyond the
    link's own, for every byte count.  No division is attempted; indeed no
    transfer, whatever the bandwidth, raises [ZeroDivisionError]. *)
Theorem unlimited_bandwidth_adds_no_delay (self : NetworkSimulator) (n : Z) (w : world) :
  bandwidth_mbps self == 0 ->
  simulate_transfer self n w = simulate_network self w
  /\ extra_delay self n w == 0
  /\ fst (simulate_transfer self n w) <> Raised ZeroDivisionError.
Proof.
  intro Hbw.
  assert (Hle : bandwidth_mbps self <= 0) by (rewrite Hbw; apply Qle_refl).
  repeat split.
  - now apply simulate_transfer_unlimited.
  - unfold extra_delay. rewrite simulate_transfer_unlimited by assumption. ring.
  - apply simulate_transfer_no_zero_division.
Qed.

(** C3, an instance: a megabyte over a 50 ms link with no bandwidth cap. *)
Lemma unlimited_bandwidth_adds_no_delay_witness :
  simulate_transfer (mkSim 50 0 0) 1000000 (constant_world 0)
  = simulate_network (mkSim 50 0 0) (constant_world 0)
  /\ extra_delay (mkSim 50 0 0) 1000000 (constant_world 0) == 0
  /\ fst (simulate_transfer (mkSim 50 0 0) 1000000 (constant_world 0))
     <> Raised ZeroDivisionError.
Proof.
  exact (unlimited_bandwidth_adds_no_delay (mkSim 50 0 0) 1000000 (constant_world 0)
           (eq_refl : (0 * 1)%Z = (0 * 1)%Z)).
Defined.

(** C4 (as amended).  With [bandwidth_mbps > 0] and [n >= 0],
    [simulate_transfer n] first runs [simulate_network]; an exception of
    that call ends the transfer, and otherwise the transfer sleeps for
    exactly [(n * 8) / (bandwidth_mbps * 1_000_000)] further seconds.  At
    8 Mbps and 100 bytes that is 1/10000 of a second. *)
Theorem limited_bandwidth_transfer_delay (self : NetworkSimulator) (n : Z) (w : world) :
  let seconds := inject_Z (n * 8) / (bandwidth_mbps self * 1000000) in
  0 < bandwidth_mbps self ->
  (0 <= n)%Z ->
  simulate_transfer self n w =
    match simulate_network self w with
    | (Ok _, w1) => (Ok tt, mkWorld (rand w1) (drawn w1) (log w1 ++ [Sleep seconds]))
    | (Raised e, w1) => (Raised e, w1)
    end
  /\ (fst (simulate_network self w) = Ok tt -> extra_delay self n w == seconds)
  /\ (bandwidth_mbps self == 8 -> n = 100%Z -> seconds == 1 # 10000).
Proof.
  intros seconds Hbw Hn. repeat split.
  - now apply simulate_transfer_limited.
  - intro Hok. unfold extra_delay.
    rewrite simulate_transfer_limited by assumption.
    destruct (simulate_network self w) as [[[]|e] w1]; [|discriminate].
    cbn [snd log]. rewrite sleep_delay.
    rewrite Qmax_0_nonneg by now apply transfer_seconds_nonneg.
    fold seconds. ring.
  - intros H8 ->. unfold seconds. rewrite H8. reflexivity.
Qed.

(** C4, an instance: 100 bytes at 8 Mbps over a loss-free 50 ms link. *)
Lemma limited_bandwidth_transfer_delay_witness :
  let self := mkSim 50 0 8 in
  let w := constant_world 0 in
  let seconds := inject_Z (100 * 8) / (8 * 1000000) in
  simulate_transfer self 100 w =
    match simulate_network self w with
    | (Ok _, w1) => (Ok tt, mkWorld (rand w1) (drawn w1) (log w1 ++ [Sleep seconds]))
    | (Raised e, w1) => (Raised e, w1)
    end
  /\ (fst (simulate_network self w) = Ok tt -> extra_delay self 100 w == seconds)
  /\ (8 == 8 -> 100%Z = 100%Z -> seconds == 1 # 10000).
Proof.
  exact (limited_bandwidth_transfer_delay (mkSim 50 0 8) 100 (constant_world 0)
           (eq_refl : (0 ?= 8 * 1)%Z = Lt)
           (fun H : (0 ?= 100)%Z = Gt => eq_ind Lt (fun c => match c with Gt => False | _ => True end) I Gt H)).
Defined.

(** C4, where the claim as stated fails: at 8 Mbps a transfer of 100 bytes
    succeeds and adds 1/10000 of a second, which is not 100 seconds. *)
Lemma transfer_of_100_bytes_is_not_100_seconds :
  let self := mkSim 0 0 8 in
  let w := constant_world 0 in
  simulate_transfer self 100 w
  = (Ok tt, mkWorld (rand w) 0 [Sleep (inject_Z (100 * 8) / (8 * 1000000))])
  /\ extra_delay self 100 w == 1 # 10000
  /\ extra_delay self 100 w < 100.
Proof. cbv zeta. repeat split. Qed.

(** ** The event stream *)

(** C5 (as amended).  When the first terminal event of a stream (a decoded
    event whose [params.status] is ["completed"]) and every line before it
    are handed over within the duration budget, [listen_for_events] returns
    the events of the lines up to and including that terminal event, in
    order, and has taken exactly these lines from the stream.  Whatever is
    queued behind a terminal event, and however the stream ends, is never
    looked at, budget or no budget. *)
Theorem terminal_event_bounds_consumption (json_loads : decoder) (start duration : Q)
    (pre : list sse_line) (t : sse_line) (rest : list sse_line) (ending : stream_end) :
  Forall (fun l => terminal json_loads l = false) pre ->
  terminal json_loads t = true ->
  Forall (fun l => in_budget start duration l = true) (pre ++ [t]) ->
  listen_for_events json_loads start duration (mkStream (pre ++ t :: rest) ending)
  = mkListened (Ok (events_of json_loads (pre ++ [t]))) (List.length pre + 1)
  /\ (exists msg, parsed json_loads t = Some msg
                  /\ events_of json_loads (pre ++ [t]) = events_of json_loads pre ++ [msg])
  /\ forall rest' ending',
       listen_for_events json_loads start duration (mkStream (pre ++ t :: rest') ending')
       = listen_for_events json_loads start duration (mkStream (pre ++ t :: rest) ending).
Proof.
  intros Hpre Ht Hb.
  apply Forall_app in Hb. destruct Hb as [Hbpre Hbt].
  apply Forall_inv in Hbt.
  assert (Hboth : Forall (fun l => in_budget start duration l = true
                                   /\ terminal json_loads l = false) pre).
  { apply Forall_forall. intros l Hl. rewrite Forall_forall in Hpre, Hbpre. auto. }
  destruct (terminal_parsed json_loads t Ht) as (msg & Hp & Hc).
  assert (Hev : forall ls, events_of json_loads (ls ++ [t]) = events_of json_loads ls ++ [msg]).
  { induction ls as [|l ls IH]; cbn [app events_of].
    - now rewrite Hp.
    - rewrite IH. now destruct (parsed json_loads l). }
  split; [|split].
  - rewrite listen_for_events_unfold. cbn [Mcp.lines Mcp.ending].
    rewrite (listen_loop_prefix json_loads start duration pre (t :: rest) ending Hboth).
    rewrite listen_loop_terminal by assumption.
    cbn [events pulled app events_of]. rewrite Hp, Hev.
    f_equal. lia.
  - exists msg. split; [assumption | apply Hev].
  - intros rest' ending'. rewrite !listen_for_events_unfold. cbn [Mcp.lines Mcp.ending].
    now rewrite (listen_loop_stops_at_terminal json_loads start duration t Ht
                   pre rest' ending' rest ending).
Qed.

(** C5, the scripted stream: progress=10, progress=50, status=completed, two
    more events queued behind; exactly the first three events are returned
    and three lines are read. *)
Lemma terminal_event_bounds_consumption_witness :
  listen_for_events Json.loads 0 5 (mkStream Script.three_then_more EndOfStream)
  = mkListened (Ok [Script.progress_event 10 "running";
                    Script.progress_event 50 "running";
                    Script.progress_event 100 "completed"]) 3.
Proof.
  refine (proj1 (terminal_event_bounds_consumption Json.loads 0 5
           [Script.progress_line 1 "10" "running"; Script.progress_line 2 "50" "running"]
           (Script.progress_line 3 "100" "completed")
           [Script.progress_line 3 "110" "running"; Script.progress_line 4 "120" "completed"]
           EndOfStream _ _ _)).
  - repeat constructor.
  - vm_compute. reflexivity.
  - repeat constructor.
Defined.

(** C5, where the claim as stated fails.  With the default budget of 5
    seconds, a stream that emits progress=10 at 2 s, progress=50 at 4 s and
    the completion at 6 s yields the first two events only: the budget test
    at the third line ends the loop before the terminal event is decoded. *)
Lemma late_terminal_event_is_not_returned :
  let s := mkStream [Script.progress_line 2 "10" "running";
                     Script.progress_line 4 "50" "running";
                     Script.progress_line 6 "100" "completed"] EndOfStream in
  terminal Json.loads (Script.progress_line 6 "100" "completed") = true
  /\ listen_for_events Json.loads 0 5 s
     = mkListened (Ok [Script.progress_event 10 "running";
                       Script.progress_event 50 "running"]) 3.
Proof. cbv zeta. split; vm_compute; reflexivity. Qed.

(** C6.  A data line whose payload does not decode is skipped in silence:
    the call behaves exactly as if the line were blank (same result, same
    number of lines read); when the line comes within the budget, the result
    is the one of the stream without that line, so nothing is appended for
    it and the lines behind it are still consumed; and the only exception
    the call can let through is the one the stream itself raises at its
    end, never a decoding error. *)
Theorem malformed_event_is_skipped (json_loads : decoder) (start duration : Q)
    (pre : list sse_line) (bad : sse_line) (post : list sse_line) (ending : stream_end) :
  let listen := listen_for_events json_loads start duration in
  malformed json_loads bad = true ->
  listen (mkStream (pre ++ bad :: post) ending)
  = listen (mkStream (pre ++ blank bad :: post) ending)
  /\ (in_budget start duration bad = true ->
      returned (listen (mkStream (pre ++ bad :: post) ending))
      = returned (listen (mkStream (pre ++ post) ending)))
  /\ (forall e, returned (listen (mkStream (pre ++ bad :: post) ending)) = Raised e ->
                ending = StreamRaises e /\ is_read_timeout e = false).
Proof.
  intros listen Hbad. unfold listen. split; [|split].
  - rewrite !listen_for_events_unfold. cbn [Mcp.lines Mcp.ending].
    now rewrite (listen_loop_malformed_as_blank json_loads start duration bad Hbad).
  - intro Hb. rewrite !returned_of_loop. cbn [Mcp.lines Mcp.ending].
    destruct (listen_loop_malformed_removed json_loads start duration bad Hbad Hb
                pre post ending (mkListening [] 0)) as [H1 H2].
    now rewrite H1, H2.
  - intros e He.
    exact (listen_for_events_raises json_loads start duration _ e He).
Qed.

(** C6, an instance: a truncated notification between progress=10 and the
    completion; the two good events are returned. *)
Lemma malformed_event_is_skipped_witness :
  let good := [Script.progress_line 1 "10" "running"] in
  let tail := [Script.progress_line 3 "100" "completed"] in
  (returned (listen_for_events Json.loads 0 5
               (mkStream (good ++ Script.truncated :: tail) EndOfStream))
   = returned (listen_for_events Json.loads 0 5 (mkStream (good ++ tail) EndOfStream)))
  /\ listen_for_events Json.loads 0 5
       (mkStream (good ++ Script.truncated :: tail) EndOfStream)
     = mkListened (Ok [Script.progress_event 10 "running";
                       Script.progress_event 100 "completed"]) 3.
Proof.
  split.
  - refine (proj1 (proj2 (malformed_event_is_skipped Json.loads 0 5
              [Script.progress_line 1 "10" "running"] Script.truncated
              [Script.progress_line 3 "100" "completed"] EndOfStream _)) _).
    + vm_compute. reflexivity.
    + vm_compute. reflexivity.
  - vm_compute. reflexivity.
Defined.

(** C7 (as amended).  On a stream that never emits a terminal event and
    that ends, if it does, by closing or by a read timeout,
    [listen_for_events] never raises: it returns the events of the lines
    that came within the budget, possibly none.  The budget is tested only
    when a line is handed to the loop: the call ends in the iteration that
    sees the first late line, or at the end of the stream when no line is
    late. *)
Theorem duration_bounds_consumption (json_loads : decoder) (start duration : Q)
    (s : sse_stream) :
  let kept := within_budget start duration (lines s) in
  let r := listen_for_events json_loads start duration s in
  Forall (fun l => terminal json_loads l = false) (lines s) ->
  ending s = EndOfStream \/ ending s = StreamRaises ReadTimeout ->
  returned r = Ok (events_of json_loads kept)
  /\ lines_read r = Nat.min (List.length (lines s)) (S (List.length kept))
  /\ (lines_read r = S (List.length kept) ->
      exists late, nth_error (lines s) (List.length kept) = Some late
                   /\ in_budget start duration late = false
                   /\ last_clock start s (lines_read r) = clock late).
Proof.
  intros kept r Hnt Hend. unfold r.
  rewrite listen_for_events_unfold.
  rewrite (listen_loop_no_terminal json_loads start duration _ _ Hnt). cbv zeta.
  fold kept. cbn [events pulled app].
  pose proof (within_budget_length start duration (lines s)) as Hlen. fold kept in Hlen.
  assert (Hlate : forall ls, (List.length (within_budget start duration ls) < List.length ls)%nat ->
            exists late, nth_error ls (List.length (within_budget start duration ls)) = Some late
                         /\ in_budget start duration late = false).
  { induction ls as [|l ls IH]; cbn [within_budget List.length]; [lia|].
    destruct (in_budget start duration l) eqn:E; cbn [List.length nth_error].
    - intro H. apply IH. lia.
    - intros _. now exists l. }
  destruct (Nat.ltb_spec (List.length kept) (List.length (lines s))) as [Hlt|Hge].
  - cbn [returned lines_read events pulled Nat.add]. repeat split.
    + lia.
    + intros _. destruct (Hlate _ Hlt) as (late & Hnth & Hb). fold kept in Hnth.
      exists late. repeat split; try assumption.
      unfold last_clock. now rewrite Hnth.
  - assert (Hall : kept = lines s) by (apply within_budget_all; fold kept; lia).
    rewrite <- Hall.
    destruct Hend as [-> | ->]; cbn [exhausted ret raise is_read_timeout returned lines_read events pulled];
      (split; [reflexivity | split; [lia | intro H; lia]]).
Qed.

(** C7, an instance: a budget of 5 seconds, progress events at 1 and 2
    seconds, a third at 7 seconds; the first two are returned and the call
    ends on the third line. *)
Lemma duration_bounds_consumption_witness :
  let s := mkStream [Script.progress_line 1 "10" "running";
                     Script.progress_line 2 "50" "running";
                     Script.progress_line 7 "60" "running";
                     Script.progress_line 8 "70" "running"] (StreamRaises ReadTimeout) in
  let r := listen_for_events Json.loads 0 5 s in
  returned r = Ok [Script.progress_event 10 "running"; Script.progress_event 50 "running"]
  /\ lines_read r = 3%nat.
Proof.
  cbv zeta.
  refine (let H := duration_bounds_consumption Json.loads 0 5
            (mkStream [Script.progress_line 1 "10" "running";
                       Script.progress_line 2 "50" "running";
                       Script.progress_line 7 "60" "running";
                       Script.progress_line 8 "70" "running"] (StreamRaises ReadTimeout))
            _ _ in conj (proj1 H) (proj1 (proj2 H))).
  - repeat constructor.
  - right. reflexivity.
Defined.

(** C7, where the claim as stated fails.  With a budget of 5 seconds, a
    stream that stays silent for 29 seconds and then sends an update (never
    a terminal event) keeps the call waiting until that update arrives: the
    only reading of the clock the loop makes is 29, well past the budget.
    And a stream whose reading fails with an error other than a read
    timeout makes the call raise. *)
Lemma silent_stream_outlasts_budget :
  let r := listen_for_events Json.loads 0 5 Script.silent_then_update in
  Forall (fun l => terminal Json.loads l = false) (lines Script.silent_then_update)
  /\ returned r = Ok []
  /\ lines_read r = 1%nat
  /\ last_clock 0 Script.silent_then_update (lines_read r) == 29
  /\ 5 + 20 < last_clock 0 Script.silent_then_update (lines_read r) - 0
  /\ returned (listen_for_events Json.loads 0 5 (mkStream [] (StreamRaises ConnectError)))
     = Raised ConnectError.
Proof.
  cbv zeta. repeat split.
  repeat constructor.
Qed.

(** C10.  [connect_sse] assigns and returns a session id only at a
    ["data: "] line whose payload fails to decode as JSON (the id is that
    payload, stripped); every data line whose payload decodes is passed
    over.  Hence on a stream all of whose data lines decode, the call never
    returns a session id and leaves [self.session_id] as it was.  The
    connection event of the bundled server is such a stream: its payload,
    [str(time.time())], is a decimal numeral (digits, a dot, digits), which
    decodes as a JSON number, so the call comes back without a session id;
    so it does on the scripted session of the bundled server. *)
Theorem session_id_only_from_undecodable_data (json_loads : decoder)
    (s : sse_stream) (self : McpClient) :
  (forall sid self',
      connect_sse json_loads s self = (Ok (Some sid), self') ->
      exists pre l post,
        lines s = pre ++ l :: post
        /\ is_data l = true
        /\ json_loads (payload l) = None
        /\ sid = strip (payload l)
        /\ self' = with_session self sid)
  /\ (Forall (fun l => is_data l = true -> json_loads (payload l) <> None) (lines s) ->
      snd (connect_sse json_loads s self) = self
      /\ (fst (connect_sse json_loads s self) = Ok None
          \/ exists e, fst (connect_sse json_loads s self) = Raised e))
  /\ (forall now lead more fraction,
        Json.is_digit lead = true ->
        (Json.code lead =? 48)%N = false ->
        forallb Json.is_digit more = true ->
        forallb Json.is_digit fraction = true ->
        fraction <> [] ->
        let sid := Json.decimal lead more fraction in
        Json.loads sid = Some (JFloat sid)
        /\ connect_sse Json.loads
             (mkStream (Server.connection_lines now sid) EndOfStream) self
           = (Ok None, self))
  /\ connect_sse Json.loads Script.bundled_connection self = (Ok None, self).
Proof.
  split; [|split; [|split]].
  - intros sid self' H. unfold connect_sse in H.
    destruct (connect_sse_loop_returns json_loads _ _ _ _ _ H)
      as (pre & l & post & Hls & _ & Hl & Hself).
    destruct (session_line_some json_loads l sid Hl) as (Hd & Hn & Hsid).
    exists pre, l, post. now repeat split.
  - intro Hall. unfold connect_sse.
    rewrite connect_sse_loop_none.
    + destruct (ending s) as [|e]; cbn [fst snd]; split; try reflexivity.
      * now left.
      * right. now exists e.
    + apply Forall_forall. intros l Hl. apply session_line_decodable.
      rewrite Forall_forall in Hall. now apply Hall.
  - intros now lead more fraction Hlead Hnz Hmore Hfrac Hne sid. split.
    + now apply decimal_decodes.
    + now apply numeric_connection_event_yields_no_session.
  - unfold connect_sse. rewrite connect_sse_loop_none; [reflexivity|].
    repeat constructor.
Qed.

(** C10, an instance: the connection event of the bundled server followed
    by a stock update; every data line decodes, and no session id comes
    back. *)
Lemma session_id_only_from_undecodable_data_witness :
  snd (connect_sse Json.loads Script.bundled_connection Mcp.init) = Mcp.init
  /\ (fst (connect_sse Json.loads Script.bundled_connection Mcp.init) = Ok None
      \/ exists e, fst (connect_sse Json.loads Script.bundled_connection Mcp.init) = Raised e).
Proof.
  apply (proj1 (proj2 (session_id_only_from_undecodable_data
                         Json.loads Script.bundled_connection Mcp.init))).
  let ls := eval vm_compute in (lines Script.bundled_connection) in
  change (lines Script.bundled_connection) with ls.
  repeat (apply Forall_cons;
          [ intro H; first [ discriminate H | vm_compute; discriminate ] | ]).
  apply Forall_nil.
Defined.

(** ** The batch of scenarios *)

(** C8, what the code does instead.  [bench_multi_turn_chat] has a
    [finally] clause but no [except] clause, and [run_all_benchmarks] calls
    the scenarios without any handler: when the first REST chat call raises
    (the endpoint is unreachable), the exception leaves
    [run_all_benchmarks]; only the chat scenario has started, no row is kept
    and no file is written.  The sibling scenarios that do have an [except]
    clause (stock ticker, tool chaining, the attempts of the instability
    scenario) never let a failure of their calls out. *)
Theorem unreachable_endpoint_aborts_batch (env : Bench.remote) (polls : nat) (e : exn) :
  Bench.answer env Bench.Chat Bench.rest_chat_turn 0 = Some e ->
  Bench.run_all_benchmarks env polls Bench.fresh
  = (Raised e, Bench.mkRun [Bench.Benchmarking Bench.Chat] [] [] None)
  /\ (forall st, exists rows st', Bench.bench_stock_ticker env st = (Ok rows, st'))
  /\ (forall st, exists rows st', Bench.bench_tool_chaining env st = (Ok rows, st'))
  /\ (forall st, exists rows st', Bench.bench_network_instability env st = (Ok rows, st')).
Proof.
  intro H. repeat split.
  - unfold Bench.run_all_benchmarks, bind at 1, bind at 1.
    now rewrite (bench_multi_turn_chat_raises env e 19 Bench.fresh H).
  - apply bench_stock_ticker_contained.
  - apply bench_tool_chaining_contained.
  - apply bench_network_instability_contained.
Qed.

(** C8, the failing run: the REST endpoint refuses the connection in the
    chat scenario and nowhere else. *)
Lemma unreachable_endpoint_aborts_batch_witness :
  Bench.run_all_benchmarks
    (Bench.failing Bench.Chat Bench.rest_chat_turn ConnectError) 5 Bench.fresh
  = (Raised ConnectError, Bench.mkRun [Bench.Benchmarking Bench.Chat] [] [] None).
Proof.
  exact (proj1 (unreachable_endpoint_aborts_batch
                  (Bench.failing Bench.Chat Bench.rest_chat_turn ConnectError) 5
                  ConnectError eq_refl)).
Defined.

(* ===================================================================== *)
(** * Part IV.  Further properties of the code                            *)
(* ===================================================================== *)

(** ** The simulator as a whole *)

Lemma Qmax_0_nonpos (d : Q) : d <= 0 -> Qmax 0 d == 0.
Proof. intro H. now apply Q.max_l. Qed.

Lemma latency_seconds_nonpos (self : NetworkSimulator) :
  latency_ms self <= 0 -> latency_ms self / 1000 <= 0.
Proof.
  intro H. unfold Qdiv.
  setoid_replace 0 with (0 * / 1000) by ring.
  apply Qmult_le_compat_r; [assumption | discriminate].
Qed.

Lemma simulate_network_draws (self : NetworkSimulator) (w : world) :
  drawn (snd (simulate_network self w))
  = if Qltb 0 (packet_loss_rate self) then S (drawn w) else drawn w.
Proof.
  destruct (Qlt_le_dec 0 (packet_loss_rate self)) as [Hpos|Hle].
  - rewrite (proj2 (Qltb_lt _ _) Hpos).
    destruct (Qlt_le_dec (rand w (drawn w)) (packet_loss_rate self)) as [Hr|Hr].
    + now rewrite simulate_network_dropped.
    + rewrite simulate_network_passed by assumption.
      now destruct (Qltb 0 (latency_ms self)).
  - rewrite (proj2 (Qltb_ge _ _) Hle).
    rewrite simulate_network_lossless by assumption.
    now destruct (Qltb 0 (latency_ms self)).
Qed.

Lemma simulate_transfer_frame (self : NetworkSimulator) (n : Z) (w : world) :
  fst (simulate_transfer self n w) = fst (simulate_network self w)
  /\ drawn (snd (simulate_transfer self n w)) = drawn (snd (simulate_network self w))
  /\ rand (snd (simulate_transfer self n w)) = rand w
  /\ remote_calls (log (snd (simulate_transfer self n w))) = remote_calls (log w).
Proof.
  destruct (simulate_network_frame self w) as [Hrand Hcalls].
  destruct (Qlt_le_dec 0 (bandwidth_mbps self)) as [Hpos|Hle].
  - rewrite simulate_transfer_limited by assumption.
    destruct (simulate_network self w) as [[[]|e] w1]; cbn [fst snd drawn rand log] in *.
    + repeat split; try assumption.
      rewrite remote_calls_app, Hcalls. cbn. apply app_nil_r.
    + now repeat split.
  - rewrite simulate_transfer_unlimited by assumption. now repeat split.
Qed.

(** Whether the link lets a call through depends on the rate and on the
    next draw only. *)
Lemma simulate_network_passes (self : NetworkSimulator) (w : world) :
  packet_loss_rate self <= 0 \/ packet_loss_rate self <= rand w (drawn w) ->
  fst (simulate_network self w) = Ok tt.
Proof.
  intro H.
  destruct (Qlt_le_dec 0 (packet_loss_rate self)) as [Hpos|Hle].
  - destruct H as [H|H]; [exfalso; exact (Qlt_not_le _ _ Hpos H)|].
    rewrite simulate_network_passed by assumption.
    now destruct (Qltb 0 (latency_ms self)).
  - rewrite simulate_network_lossless by assumption.
    now destruct (Qltb 0 (latency_ms self)).
Qed.

(** X1.  [simulate_network] raises exactly when the rate is positive and
    the draw falls below it, and then it raises the packet-loss error; in
    every other case it returns.  A rate of 1 or more loses every draw below
    it, a negative rate loses none. *)
Theorem simulate_network_drops_iff (self : NetworkSimulator) (w : world) :
  (fst (simulate_network self w) = Raised packet_loss
   <-> 0 < packet_loss_rate self /\ rand w (drawn w) < packet_loss_rate self)
  /\ (fst (simulate_network self w) = Ok tt
      <-> packet_loss_rate self <= 0 \/ packet_loss_rate self <= rand w (drawn w)).
Proof.
  destruct (Qlt_le_dec 0 (packet_loss_rate self)) as [Hpos|Hle].
  - destruct (Qlt_le_dec (rand w (drawn w)) (packet_loss_rate self)) as [Hr|Hr].
    + rewrite simulate_network_dropped by assumption. cbn [fst]. split; split.
      * now intros _.
      * reflexivity.
      * discriminate.
      * intros [H|H]; exfalso;
          [exact (Qlt_not_le _ _ Hpos H) | exact (Qlt_not_le _ _ Hr H)].
    + rewrite simulate_network_passed by assumption.
      assert (Hok : fst (if Qltb 0 (latency_ms self)
                         then (Ok tt, after_latency self w (S (drawn w)))
                         else (Ok tt, after_draw w)) = Ok tt)
        by now destruct (Qltb 0 (latency_ms self)).
      rewrite Hok. split; split.
      * discriminate.
      * intros [_ H]. exfalso. exact (Qlt_not_le _ _ H Hr).
      * intros _. now right.
      * reflexivity.
  - rewrite simulate_network_lossless by assumption.
    assert (Hok : fst (if Qltb 0 (latency_ms self)
                       then (Ok tt, after_latency self w (drawn w))
                       else (Ok tt, w)) = Ok tt)
      by now destruct (Qltb 0 (latency_ms self)).
    rewrite Hok. split; split.
    + discriminate.
    + intros [H _]. exfalso. exact (Qlt_not_le _ _ H Hle).
    + intros _. now left.
    + reflexivity.
Qed.

(** X2.  Dropped or not, a call of [simulate_network] costs the link
    latency and nothing else: the delay it injects is
    [max(0, latency_ms / 1000)] seconds, it makes no remote call, it leaves
    the random source as it is, and it consumes one draw when the loss rate
    is positive and none otherwise. *)
Theorem simulate_network_costs_latency (self : NetworkSimulator) (w : world) :
  let w' := snd (simulate_network self w) in
  injected_delay (log w') == injected_delay (log w) + Qmax 0 (latency_ms self / 1000)
  /\ remote_calls (log w') = remote_calls (log w)
  /\ rand w' = rand w
  /\ drawn w' = if Qltb 0 (packet_loss_rate self) then S (drawn w) else drawn w.
Proof.
  cbv zeta.
  destruct (simulate_network_frame self w) as [Hrand Hcalls].
  split; [|split; [assumption | split; [assumption|]]].
  - assert (Hsleep : forall d, injected_delay (log (after_latency self w d))
                               == injected_delay (log w) + Qmax 0 (latency_ms self / 1000)).
    { intro d. unfold after_latency. cbn [log]. apply sleep_delay. }
    assert (Hnone : latency_ms self <= 0 ->
                    forall l, injected_delay l
                              == injected_delay l + Qmax 0 (latency_ms self / 1000)).
    { intros Hl l. rewrite Qmax_0_nonpos by now apply latency_seconds_nonpos. ring. }
    destruct (Qlt_le_dec 0 (packet_loss_rate self)) as [Hpos|Hle].
    + destruct (Qlt_le_dec (rand w (drawn w)) (packet_loss_rate self)) as [Hr|Hr].
      * rewrite simulate_network_dropped by assumption. apply Hsleep.
      * rewrite simulate_network_passed by assumption.
        destruct (Qltb 0 (latency_ms self)) eqn:E; cbn [snd].
        -- apply Hsleep.
        -- apply Qltb_ge in E. cbn [after_draw log]. now apply Hnone.
    + rewrite simulate_network_lossless by assumption.
      destruct (Qltb 0 (latency_ms self)) eqn:E; cbn [snd].
      * apply Hsleep.
      * apply Qltb_ge in E. now apply Hnone.
  - destruct (Qlt_le_dec 0 (packet_loss_rate self)) as [Hpos|Hle].
    + rewrite (proj2 (Qltb_lt _ _) Hpos).
      destruct (Qlt_le_dec (rand w (drawn w)) (packet_loss_rate self)) as [Hr|Hr].
      * now rewrite simulate_network_dropped.
      * rewrite simulate_network_passed by assumption.
        now destruct (Qltb 0 (latency_ms self)).
    + rewrite (proj2 (Qltb_ge _ _) Hle).
      rewrite simulate_network_lossless by assumption.
      now destruct (Qltb 0 (latency_ms self)).
Qed.

(** X3.  The bandwidth part of a transfer adds no way to fail and no
    randomness: [simulate_transfer] ends as its call of [simulate_network]
    does, with the same number of draws consumed, and it makes no remote
    call. *)
Theorem transfer_fails_only_with_link (self : NetworkSimulator) (n : Z) (w : world) :
  fst (simulate_transfer self n w) = fst (simulate_network self w)
  /\ drawn (snd (simulate_transfer self n w)) = drawn (snd (simulate_network self w))
  /\ rand (snd (simulate_transfer self n w)) = rand w
  /\ remote_calls (log (snd (simulate_transfer self n w))) = remote_calls (log w).
Proof.
  destruct (simulate_network_frame self w) as [Hrand Hcalls].
  destruct (Qlt_le_dec 0 (bandwidth_mbps self)) as [Hpos|Hle].
  - rewrite simulate_transfer_limited by assumption.
    destruct (simulate_network self w) as [[[]|e] w1]; cbn [fst snd drawn rand log] in *.
    + repeat split; try assumption.
      rewrite remote_calls_app, Hcalls. cbn. apply app_nil_r.
    + now repeat split.
  - rewrite simulate_transfer_unlimited by assumption. now repeat split.
Qed.

(** X4.  Under a bandwidth cap, a transfer that gets through adds
    [max(0, 8 n / (bandwidth_mbps * 1_000_000))] seconds to the delay of the
    link: nothing for a byte count of zero or less, and never less for more
    bytes. *)
Theorem transfer_delay_grows_with_bytes (self : NetworkSimulator) (n : Z) (w : world) :
  0 < bandwidth_mbps self ->
  fst (simulate_network self w) = Ok tt ->
  extra_delay self n w == Qmax 0 (inject_Z (n * 8) / (bandwidth_mbps self * 1000000))
  /\ ((n <= 0)%Z -> extra_delay self n w == 0)
  /\ (forall m, (n <= m)%Z -> extra_delay self n w <= extra_delay self m w).
Proof.
  intros Hbw Hok.
  assert (Hform : forall k, extra_delay self k w
                            == Qmax 0 (inject_Z (k * 8) / (bandwidth_mbps self * 1000000))).
  { intro k. unfold extra_delay. rewrite simulate_transfer_limited by assumption.
    destruct (simulate_network self w) as [[[]|e] w1]; [|discriminate].
    cbn [snd log]. rewrite sleep_delay. ring. }
  assert (Hmono : forall k m, (k <= m)%Z ->
            inject_Z (k * 8) / (bandwidth_mbps self * 1000000)
            <= inject_Z (m * 8) / (bandwidth_mbps self * 1000000)).
  { intros k m Hkm. unfold Qdiv. apply Qmult_le_compat_r.
    - rewrite <- Zle_Qle. lia.
    - apply Qlt_le_weak, Qinv_lt_0_compat. now apply bits_per_second_pos. }
  split; [apply Hform | split].
  - intro Hn. rewrite Hform. apply Qmax_0_nonpos.
    specialize (Hmono n 0%Z Hn). unfold Qdiv in Hmono at 2.
    change (inject_Z (0 * 8)) with 0 in Hmono. now rewrite Qmult_0_l in Hmono.
  - intros m Hnm. rewrite !Hform. apply Q.max_le_compat_l. now apply Hmono.
Qed.

(** X4, an instance: 100 and 200 bytes at 8 Mbps on a loss-free link. *)
Lemma transfer_delay_grows_with_bytes_witness :
  let self := mkSim 50 0 8 in
  let w := constant_world 0 in
  extra_delay self 100 w == Qmax 0 (inject_Z (100 * 8) / (8 * 1000000))
  /\ ((100 <= 0)%Z -> extra_delay self 100 w == 0)
  /\ (forall m, (100 <= m)%Z -> extra_delay self 100 w <= extra_delay self m w).
Proof.
  apply (transfer_delay_grows_with_bytes (mkSim 50 0 8) 100 (constant_world 0));
    reflexivity.
Defined.

(** X5.  Without a bandwidth argument (its default is 0),
    [set_network_conditions] lifts whatever bandwidth cap was set before:
    latency and loss rate are the new ones, every later transfer is a bare
    link call with no size-dependent sleep, and the request counter and the
    session id of the client are left alone. *)
Theorem set_conditions_default_lifts_cap (self : McpClient) (latency rate : Q)
    (n : Z) (w : world) :
  let self' := set_network_conditions self latency rate None in
  simulate_transfer (network_sim self') n w
  = simulate_network (mkSim latency rate 0) w
  /\ extra_delay (network_sim self') n w == 0
  /\ request_id self' = request_id self
  /\ session_id self' = session_id self.
Proof.
  cbv zeta. unfold set_network_conditions, set_conditions. cbn [network_sim].
  assert (Hle : bandwidth_mbps (mkSim latency rate 0) <= 0) by apply Qle_refl.
  repeat split.
  - now apply simulate_transfer_unlimited.
  - unfold extra_delay. rewrite simulate_transfer_unlimited by assumption. ring.
Qed.

(** ** Requests of the MCP client *)

Section Requests.

Import McpMethods.

Variable remote : endpoint.

(** A request, step by step: the link, then the next id, then the post. *)
Lemma send_request_async_unfold (method : string) (params : json)
    (self : McpClient) (w : world) :
  _send_request_async remote method params (self, w) =
    match simulate_network (network_sim self) w with
    | (Raised e, w1) => (Raised e, (self, w1))
    | (Ok _, w1) =>
        (remote "/message" (rpc method params (request_id self + 1)),
         (mkClient (request_id self + 1) (session_id self) (network_sim self),
          mkWorld (rand w1) (drawn w1)
            (log w1 ++ [Post "/message" (rpc method params (request_id self + 1))])))
    end.
Proof.
  unfold _send_request_async, bind at 1, get_state. cbn [fst].
  unfold bind at 1, on_world at 1, zoom. cbn [fst snd].
  destruct (simulate_network (network_sim self) w) as [[[]|e] w1]; reflexivity.
Qed.

Lemma send_request_unfold (method : string) (params : json)
    (self : McpClient) (w : world) :
  _send_request remote method params (self, w) =
    let w1 := if Qltb 0 (latency_ms (network_sim self))
              then after_latency (network_sim self) w (drawn w) else w in
    (remote "/message" (rpc method params (request_id self + 1)),
     (mkClient (request_id self + 1) (session_id self) (network_sim self),
      mkWorld (rand w1) (drawn w1)
        (log w1 ++ [Post "/message" (rpc method params (request_id self + 1))]))).
Proof.
  unfold _send_request, bind at 1, get_state. cbn [fst].
  unfold bind at 1.
  destruct (Qltb 0 (latency_ms (network_sim self))); reflexivity.
Qed.

End Requests.

(** X6.  [_send_request_async] takes a request id only for a request it
    posts.  When the link drops the call, the client is unchanged and
    nothing is posted; when the link lets it through, exactly one payload is
    posted to [/message], carrying the id [request_id + 1], the counter moves
    to that id even if the post then raises, and the call ends as the post
    does.  So the counter always runs ahead of the posts by the same
    amount. *)
Theorem request_id_counts_posts (remote : endpoint) (method : string) (params : json)
    (self : McpClient) (w : world) :
  let out := _send_request_async remote method params (self, w) in
  let self' := fst (snd out) in
  let w' := snd (snd out) in
  let posted := McpMethods.rpc method params (request_id self + 1) in
  (forall e, fst (simulate_network (network_sim self) w) = Raised e ->
             fst out = Raised e
             /\ self' = self
             /\ remote_calls (log w') = remote_calls (log w))
  /\ (fst (simulate_network (network_sim self) w) = Ok tt ->
      fst out = remote "/message" posted
      /\ self' = mkClient (request_id self + 1) (session_id self) (network_sim self)
      /\ remote_calls (log w') = remote_calls (log w) ++ [Post "/message" posted])
  /\ (request_id self' - Z.of_nat (List.length (remote_calls (log w')))
      = request_id self - Z.of_nat (List.length (remote_calls (log w))))%Z.
Proof.
  cbv zeta. rewrite send_request_async_unfold.
  destruct (simulate_network_frame (network_sim self) w) as [_ Hcalls].
  destruct (simulate_network (network_sim self) w) as [[[]|e] w1];
    cbn [fst snd log request_id] in *.
  - split; [discriminate | split].
    + intros _. repeat split.
      rewrite remote_calls_app, Hcalls. reflexivity.
    + rewrite remote_calls_app, Hcalls, length_app. cbn [remote_calls filter is_post List.length].
      lia.
  - split; [|split].
    + intros e' He'. inversion He'; subst. now repeat split.
    + discriminate.
    + now rewrite Hcalls.
Qed.

(** X7.  The synchronous [_send_request] does not simulate loss: whatever
    the loss rate, it consumes no draw, sleeps for the latency (when
    positive), posts its payload once with the next request id and ends as
    the post does.  Under a loss rate of 1, where every asynchronous request
    is dropped, the synchronous one still goes out. *)
Theorem sync_request_never_drops (remote : endpoint) (method : string) (params : json)
    (self : McpClient) (w : world) :
  let out := McpMethods._send_request remote method params (self, w) in
  let posted := McpMethods.rpc method params (request_id self + 1) in
  fst out = remote "/message" posted
  /\ drawn (snd (snd out)) = drawn w
  /\ remote_calls (log (snd (snd out))) = remote_calls (log w) ++ [Post "/message" posted]
  /\ request_id (fst (snd out)) = (request_id self + 1)%Z
  /\ injected_delay (log (snd (snd out)))
     == injected_delay (log w) + Qmax 0 (latency_ms (network_sim self) / 1000)
  /\ (packet_loss_rate (network_sim self) == 1 -> uniform_draws w ->
      fst (_send_request_async remote method params (self, w)) = Raised packet_loss).
Proof.
  cbv zeta. rewrite send_request_unfold. cbv zeta. cbn [fst snd drawn log request_id].
  repeat split.
  - now destruct (Qltb 0 (latency_ms (network_sim self))).
  - rewrite remote_calls_app.
    destruct (Qltb 0 (latency_ms (network_sim self))); [|reflexivity].
    unfold after_latency. cbn [log]. rewrite remote_calls_app. cbn.
    now rewrite app_nil_r.
  - rewrite injected_delay_app. cbn [injected_delay delay_of].
    destruct (Qltb 0 (latency_ms (network_sim self))) eqn:E.
    + unfold after_latency. cbn [log]. rewrite sleep_delay. ring.
    + apply Qltb_ge in E.
      rewrite Qmax_0_nonpos by now apply latency_seconds_nonpos. ring.
  - intros Hrate Hw. rewrite send_request_dropped; [reflexivity | |].
    + rewrite Hrate. reflexivity.
    + rewrite Hrate. apply Hw.
Qed.

(** X8.  When the link lets the call through and the endpoint answers,
    the byte count [call_tool_async] reports is the length of the encoding
    of the very payload it posts, request id included; the latency it
    reports is the advance of the clock over the call. *)
Theorem call_tool_async_reports_posted_size (remote : endpoint)
    (dumps : McpMethods.encoder) (clock : McpMethods.timer)
    (name : string) (arguments : json) (self : McpClient) (w : world) (body : json) :
  let posted := McpMethods.rpc "tools/call" (McpMethods.tool_call name arguments)
                  (request_id self + 1) in
  let out := McpMethods.call_tool_async remote dumps clock name arguments (self, w) in
  fst (simulate_network (network_sim self) w) = Ok tt ->
  remote "/message" posted = Ok body ->
  fst out = Ok ((clock (snd (snd out)) - clock w) * 1000, String.length (dumps posted))
  /\ remote_calls (log (snd (snd out))) = remote_calls (log w) ++ [Post "/message" posted].
Proof.
  intros posted out Hgate Hbody.
  destruct (simulate_network_frame (network_sim self) w) as [_ Hcalls].
  destruct (simulate_network (network_sim self) w) as [[[]|e] w1] eqn:Hnet;
    [|discriminate].
  cbn [snd] in Hcalls.
  assert (Hout : out =
            (Ok ((clock (mkWorld (rand w1) (drawn w1) (log w1 ++ [Post "/message" posted]))
                  - clock w) * 1000,
                 String.length (dumps posted)),
             (mkClient (request_id self + 1) (session_id self) (network_sim self),
              mkWorld (rand w1) (drawn w1) (log w1 ++ [Post "/message" posted])))).
  { unfold out, McpMethods.call_tool_async, bind, McpMethods.perf_counter, get_state.
    cbn [fst snd]. rewrite send_request_async_unfold, Hnet. fold posted.
    rewrite Hbody. reflexivity. }
  rewrite Hout. cbn [fst snd log]. split; [reflexivity|].
  now rewrite remote_calls_app, Hcalls.
Qed.

(** X8, an instance: a loss-free client, an endpoint that answers every
    post with an empty object, and an encoder that writes one character per
    member of the payload. *)
Lemma call_tool_async_reports_posted_size_witness :
  let remote : endpoint := fun _ _ => Ok (JObj []) in
  let dumps : McpMethods.encoder :=
    fun v => match v with JObj items => string_of_list_ascii (map (fun _ => "x"%char) items)
                        | _ => "" end in
  let clock : McpMethods.timer := fun w => injected_delay (log w) in
  let out := McpMethods.call_tool_async remote dumps clock "calculate" (JObj [])
               (Mcp.init, constant_world 0) in
  fst out = Ok ((clock (snd (snd out)) - clock (constant_world 0)) * 1000, 4%nat)
  /\ remote_calls (log (snd (snd out)))
     = [Post "/message"
          (McpMethods.rpc "tools/call" (McpMethods.tool_call "calculate" (JObj [])) 1)].
Proof.
  exact (call_tool_async_reports_posted_size
           (fun _ _ => Ok (JObj []))
           (fun v => match v with
                     | JObj items => string_of_list_ascii (map (fun _ => "x"%char) items)
                     | _ => "" end)
           (fun w => injected_delay (log w))
           "calculate" (JObj []) Mcp.init (constant_world 0) (JObj [])
           eq_refl eq_refl).
Defined.

(** ** A chat turn of the MCP client *)

Lemma simulate_network_through (sim : NetworkSimulator) (w : world) :
  0 < packet_loss_rate sim ->
  packet_loss_rate sim <= rand w (drawn w) ->
  exists w1,
    simulate_network sim w = (Ok tt, w1)
    /\ rand w1 = rand w
    /\ drawn w1 = S (drawn w)
    /\ remote_calls (log w1) = remote_calls (log w).
Proof.
  intros Hrate Hr.
  pose proof (simulate_network_passes sim w (or_intror Hr)) as Hok.
  pose proof (simulate_network_draws sim w) as Hd.
  rewrite (proj2 (Qltb_lt _ _) Hrate) in Hd.
  destruct (simulate_network_frame sim w) as [Hrand Hcalls].
  destruct (simulate_network sim w) as [[[]|e] w1]; [|discriminate].
  now exists w1.
Qed.

Lemma simulate_transfer_dropped (sim : NetworkSimulator) (n : Z) (w : world) :
  0 < packet_loss_rate sim ->
  rand w (drawn w) < packet_loss_rate sim ->
  simulate_transfer sim n w = (Raised packet_loss, after_latency sim w (S (drawn w))).
Proof.
  intros Hrate Hr. unfold simulate_transfer, bind at 1.
  now rewrite simulate_network_dropped.
Qed.

Lemma simulate_transfer_through (sim : NetworkSimulator) (n : Z) (w : world) :
  0 < packet_loss_rate sim ->
  packet_loss_rate sim <= rand w (drawn w) ->
  exists w1,
    simulate_transfer sim n w = (Ok tt, w1)
    /\ rand w1 = rand w
    /\ drawn w1 = S (drawn w)
    /\ remote_calls (log w1) = remote_calls (log w).
Proof.
  intros Hrate Hr.
  destruct (simulate_network_through sim w Hrate Hr) as (w0 & Hnet & _ & Hd0 & _).
  destruct (simulate_transfer_frame sim n w) as (Hfst & Hd & Hrand & Hcalls).
  rewrite Hnet in Hfst, Hd. cbn [fst snd] in Hfst, Hd.
  destruct (simulate_transfer sim n w) as [[[]|e] w1]; [|discriminate].
  exists w1. cbn [snd] in *. repeat split; try assumption. congruence.
Qed.

Section ChatTurn.

Import McpMethods.

Variable remote : endpoint.
Variable dumps : encoder.
Variable clock : timer.
Variable of_float : Q -> json.
Variables session_id message : string.
Variable turn_count : Z.

(** A chat turn, step by step: upload, request, download, annotation. *)
Lemma chat_turn_unfold (self : McpClient) (w : world) :
  chat_turn remote dumps clock of_float session_id message turn_count (self, w) =
    let args := chat_args session_id message turn_count in
    let size := (String.length (dumps args) + 100)%nat in
    match simulate_transfer (network_sim self) (Z.of_nat size) w with
    | (Raised e, w1) => (Raised e, (self, w1))
    | (Ok _, w1) =>
        match _send_request_async remote "prompts/chat" args (self, w1) with
        | (Raised e, s2) => (Raised e, s2)
        | (Ok response, s2) =>
            match simulate_transfer (network_sim (fst s2))
                    (Z.of_nat (String.length (dumps response))) (snd s2) with
            | (Raised e, w3) => (Raised e, (fst s2, w3))
            | (Ok _, w3) =>
                annotate of_float response ((clock w3 - clock w) * 1000) size (fst s2, w3)
            end
        end
    end.
Proof.
  cbv zeta. unfold chat_turn.
  unfold bind at 1, perf_counter at 1. cbn [snd].
  unfold bind at 1, get_state at 1. cbn [fst].
  unfold bind at 1, on_world at 1, zoom. cbn [fst snd].
  destruct (simulate_transfer (network_sim self) _ w) as [[[]|e] w1]; [|reflexivity].
  unfold bind at 1.
  destruct (_send_request_async remote "prompts/chat" _ (self, w1))
    as [[response|e] s2]; [|reflexivity].
  unfold bind at 1, get_state at 1.
  unfold bind at 1, on_world at 1, zoom.
  destruct (simulate_transfer (network_sim (fst s2)) _ (snd s2)) as [[[]|e] w3];
    reflexivity.
Qed.

Lemma annotate_pure (response : json) (latency : Q) (size : nat) (s : session) :
  annotate of_float response latency size s
  = (fst (annotate of_float response latency size s), s).
Proof.
  unfold annotate. destruct response; try reflexivity.
  destruct (Json.get items "result") as [[]|]; reflexivity.
Qed.

Lemma annotate_outcome (response : json) (latency : Q) (size : nat) (s s' : session) :
  fst (annotate of_float response latency size s)
  = fst (annotate of_float response latency size s').
Proof.
  unfold annotate. destruct response; try reflexivity.
  destruct (Json.get items "result") as [[]|]; reflexivity.
Qed.

End ChatTurn.

(** X9.  A chat turn of the MCP client passes the loss gate three times:
    for the upload, for the request and for the download.  With a positive
    loss rate it is lost on the first of the next three draws that falls
    below the rate.  Lost on the first or the second draw, nothing has been
    posted; lost on the third, the request has been posted and answered, and
    the turn still ends in the packet-loss error.  When all three draws
    pass, the turn has consumed three draws, posted once, and ends as the
    annotation of the response does. *)
Theorem chat_turn_passes_three_gates (remote : endpoint) (dumps : McpMethods.encoder)
    (clock : McpMethods.timer) (of_float : Q -> json) (session_id message : string)
    (turn_count : Z) (self : McpClient) (w : world) :
  let rate := packet_loss_rate (network_sim self) in
  let args := McpMethods.chat_args session_id message turn_count in
  let size := (String.length (dumps args) + 100)%nat in
  let posted := McpMethods.rpc "prompts/chat" args (request_id self + 1) in
  let out := McpMethods.chat_turn remote dumps clock of_float session_id message
               turn_count (self, w) in
  0 < rate ->
  (draw w 0 < rate ->
   fst out = Raised packet_loss
   /\ drawn (snd (snd out)) = (drawn w + 1)%nat
   /\ remote_calls (log (snd (snd out))) = remote_calls (log w))
  /\ (rate <= draw w 0 -> draw w 1 < rate ->
      fst out = Raised packet_loss
      /\ drawn (snd (snd out)) = (drawn w + 2)%nat
      /\ remote_calls (log (snd (snd out))) = remote_calls (log w))
  /\ (rate <= draw w 0 -> rate <= draw w 1 ->
      forall response, remote "/message" posted = Ok response ->
        drawn (snd (snd out)) = (drawn w + 3)%nat
        /\ remote_calls (log (snd (snd out)))
           = remote_calls (log w) ++ [Post "/message" posted]
        /\ (draw w 2 < rate -> fst out = Raised packet_loss)
        /\ (rate <= draw w 2 ->
            exists latency,
              fst out = fst (McpMethods.annotate of_float response latency size (self, w)))).
Proof.
  intros rate args size posted out Hrate. unfold out, draw.
  rewrite chat_turn_unfold. cbv zeta. fold args size.
  rewrite Nat.add_0_r.
  replace (drawn w + 1)%nat with (S (drawn w)) by lia.
  replace (drawn w + 2)%nat with (S (S (drawn w))) by lia.
  replace (drawn w + 3)%nat with (S (S (S (drawn w)))) by lia.
  split; [|split].
  - intro H0. rewrite simulate_transfer_dropped by assumption.
    cbn [fst snd after_latency drawn log]. repeat split.
    rewrite remote_calls_app. cbn. apply app_nil_r.
  - intros H0 H1.
    destruct (simulate_transfer_through _ (Z.of_nat size) w Hrate H0)
      as (w1 & -> & Hr1 & Hd1 & Hc1).
    rewrite send_request_dropped; [| assumption | now rewrite Hr1, Hd1].
    cbn [fst snd after_latency drawn log]. rewrite Hd1. repeat split.
    rewrite remote_calls_app, Hc1. cbn. apply app_nil_r.
  - intros H0 H1 response Hresp.
    destruct (simulate_transfer_through _ (Z.of_nat size) w Hrate H0)
      as (w1 & -> & Hr1 & Hd1 & Hc1).
    rewrite send_request_async_unfold.
    destruct (simulate_network_through (network_sim self) w1 Hrate)
      as (w2 & -> & Hr2 & Hd2 & Hc2); [now rewrite Hr1, Hd1|].
    fold args posted. rewrite Hresp. cbn [fst snd network_sim].
    set (w2' := mkWorld (rand w2) (drawn w2) (log w2 ++ [Post "/message" posted])).
    assert (Hdraw : rand w2' (drawn w2') = rand w (S (S (drawn w)))).
    { unfold w2'. cbn [rand drawn]. now rewrite Hr2, Hr1, Hd2, Hd1. }
    assert (Hcalls : remote_calls (log w2')
                     = remote_calls (log w) ++ [Post "/message" posted]).
    { unfold w2'. cbn [log]. now rewrite remote_calls_app, Hc2, Hc1. }
    destruct (Qlt_le_dec (rand w (S (S (drawn w)))) rate) as [H2|H2].
    + rewrite simulate_transfer_dropped; [| assumption | now rewrite Hdraw].
      cbn [fst snd after_latency drawn log]. repeat split.
      * unfold w2'. cbn [drawn]. now rewrite Hd2, Hd1.
      * rewrite remote_calls_app, Hcalls. cbn. apply app_nil_r.
      * intro H2'. exfalso. exact (Qlt_not_le _ _ H2 H2').
    + destruct (simulate_transfer_through (network_sim self)
                  (Z.of_nat (String.length (dumps response))) w2' Hrate)
        as (w3 & -> & Hr3 & Hd3 & Hc3); [now rewrite Hdraw|].
      rewrite annotate_pure. cbn [fst snd]. repeat split.
      * rewrite Hd3. unfold w2'. cbn [drawn]. now rewrite Hd2, Hd1.
      * now rewrite Hc3.
      * intro H2'. exfalso. exact (Qlt_not_le _ _ H2' H2).
      * intros _. exists ((clock w3 - clock w) * 1000).
        apply annotate_outcome.
Qed.

(** X9, an instance: half of the exchanges lost, every draw 3/4, an endpoint
    that answers with an empty result; the turn gets through, three draws
    later and with one post. *)
Lemma chat_turn_passes_three_gates_witness :
  let remote : endpoint := fun _ _ => Ok (JObj [("result", JObj [])]) in
  let dumps : McpMethods.encoder := fun _ => "{}" in
  let clock : McpMethods.timer := fun w => injected_delay (log w) in
  let self := mkClient 0 None (mkSim 50 (1 # 2) 0) in
  let out := McpMethods.chat_turn remote dumps clock (fun _ => JNull)
               "session" "test" 1 (self, constant_world (3 # 4)) in
  drawn (snd (snd out)) = 3%nat
  /\ remote_calls (log (snd (snd out)))
     = [Post "/message"
          (McpMethods.rpc "prompts/chat" (McpMethods.chat_args "session" "test" 1) 1)].
Proof.
  cbv zeta.
  refine (let H := proj2 (proj2 (chat_turn_passes_three_gates
            (fun _ _ => Ok (JObj [("result", JObj [])])) (fun _ => "{}")
            (fun w => injected_delay (log w)) (fun _ => JNull) "session" "test" 1
            (mkClient 0 None (mkSim 50 (1 # 2) 0)) (constant_world (3 # 4)) _))
            _ _ (JObj [("result", JObj [])]) eq_refl in
          conj (proj1 H) (proj1 (proj2 H))).
  - reflexivity.
  - unfold Qle. simpl. lia.
  - unfold Qle. simpl. lia.
Defined.

(** ** What a chat turn returns *)

Lemma get_set_same (items : list (string * json)) (k : string) (v : json) :
  Json.get (Json.set items k v) k = Some v.
Proof.
  induction items as [|[k0 v0] items IH]; cbn [Json.set Json.get].
  - now rewrite String.eqb_refl.
  - destruct (String.eqb k0 k) eqn:E; cbn [Json.get]; rewrite E; [reflexivity | exact IH].
Qed.

Lemma get_set_other (items : list (string * json)) (k k' : string) (v : json) :
  k <> k' -> Json.get (Json.set items k v) k' = Json.get items k'.
Proof.
  intro Hne. induction items as [|[k0 v0] items IH]; cbn [Json.set Json.get].
  - destruct (String.eqb_spec k k'); [contradiction | reflexivity].
  - destruct (String.eqb_spec k0 k) as [->|Hk]; cbn [Json.get].
    + destruct (String.eqb_spec k k'); [contradiction | reflexivity].
    + destruct (String.eqb k0 k'); [reflexivity | exact IH].
Qed.

(** X10.  Whenever a chat turn of the MCP client returns a dict, that dict
    is the [result] object of the endpoint's answer to the one request
    posted, with two items set: ["bytes_sent"], the length of the encoded
    arguments (message, session id, turn count) plus 100, whatever the
    answer and however long the conversation has been, and ["latency_ms"];
    every other item is the endpoint's. *)
Theorem chat_turn_reports_upload_size (remote : endpoint) (dumps : McpMethods.encoder)
    (clock : McpMethods.timer) (of_float : Q -> json) (session_id message : string)
    (turn_count : Z) (self : McpClient) (w : world) (v : json) :
  let args := McpMethods.chat_args session_id message turn_count in
  let posted := McpMethods.rpc "prompts/chat" args (request_id self + 1) in
  fst (McpMethods.chat_turn remote dumps clock of_float session_id message turn_count
         (self, w)) = Ok (McpMethods.Returns v) ->
  exists answer result items latency,
    remote "/message" posted = Ok (JObj answer)
    /\ Json.get answer "result" = Some (JObj result)
    /\ v = JObj items
    /\ Json.get items "bytes_sent"
       = Some (JInt (Z.of_nat (String.length (dumps args) + 100)))
    /\ Json.get items "latency_ms" = Some (of_float latency)
    /\ forall k, k <> "latency_ms" -> k <> "bytes_sent" ->
                 Json.get items k = Json.get result k.
Proof.
  intros args posted. rewrite chat_turn_unfold. cbv zeta. fold args.
  destruct (simulate_transfer (network_sim self) _ w) as [[[]|e] w1]; [|discriminate].
  rewrite send_request_async_unfold.
  destruct (simulate_network (network_sim self) w1) as [[[]|e] w2]; [|discriminate].
  fold posted.
  destruct (remote "/message" posted) as [response|e]; [|discriminate].
  cbn [fst snd network_sim].
  destruct (simulate_transfer (network_sim self) _ _) as [[[]|e] w3]; [|discriminate].
  unfold McpMethods.annotate.
  destruct response as [| | | | | |answer]; try discriminate.
  destruct (Json.get answer "result") as [[| | | | | |result]|] eqn:Hres; try discriminate.
  cbn [fst ret]. intro H. inversion H; subst v.
  eexists answer, result, _, ((clock w3 - clock w) * 1000).
  split; [reflexivity|]. split; [exact Hres|]. split; [reflexivity|].
  repeat split.
  - apply get_set_same.
  - rewrite get_set_other by discriminate. apply get_set_same.
  - intros k Hk1 Hk2. rewrite !get_set_other by congruence. reflexivity.
Qed.

(** X10, an instance: the endpoint echoes and reports its usage. *)
Lemma chat_turn_reports_upload_size_witness :
  let remote : endpoint :=
    fun _ _ => Ok (JObj [("result", JObj [("response", JStr "Echo: test");
                                          ("usage", JInt 104)])]) in
  let dumps : McpMethods.encoder := fun _ => "{}" in
  exists answer result items latency,
    remote "/message"
      (McpMethods.rpc "prompts/chat" (McpMethods.chat_args "session" "test" 1) 1)
    = Ok (JObj answer)
    /\ Json.get answer "result" = Some (JObj result)
    /\ JObj [("response", JStr "Echo: test"); ("usage", JInt 104);
             ("latency_ms", JFloat "50.0"); ("bytes_sent", JInt 102)] = JObj items
    /\ Json.get items "bytes_sent" = Some (JInt (Z.of_nat (String.length (dumps JNull) + 100)))
    /\ Json.get items "latency_ms" = Some ((fun _ : Q => JFloat "50.0") latency)
    /\ forall k, k <> "latency_ms" -> k <> "bytes_sent" ->
                 Json.get items k = Json.get result k.
Proof.
  exact (chat_turn_reports_upload_size
           (fun _ _ => Ok (JObj [("result", JObj [("response", JStr "Echo: test");
                                                  ("usage", JInt 104)])]))
           (fun _ => "{}") (fun w => injected_delay (log w)) (fun _ => JFloat "50.0")
           "session" "test" 1 Mcp.init (constant_world 0)
           (JObj [("response", JStr "Echo: test"); ("usage", JInt 104);
                  ("latency_ms", JFloat "50.0"); ("bytes_sent", JInt 102)])
           eq_refl).
Defined.

(** ** The REST client behind the simulator *)

Lemma rest_echo_unfold (http : Rest.transport) (clock : McpMethods.timer)
    (sim : NetworkSimulator) (message : string) (w : world) :
  Rest.echo_async http clock sim message w =
    let payload := JObj [("message", JStr message)] in
    match simulate_network sim w with
    | (Raised e, w1) => (Raised e, w1)
    | (Ok _, w1) =>
        let w2 := mkWorld (rand w1) (drawn w1) (log w1 ++ [Post "/echo" payload]) in
        match http "/echo" payload with
        | Raised e => (Raised e, w2)
        | Ok _ => (Ok ((clock w2 - clock w1) * 1000), w2)
        end
    end.
Proof.
  cbv zeta. unfold Rest.echo_async, bind at 1.
  destruct (simulate_network sim w) as [[[]|e] w1]; [|reflexivity].
  unfold bind, Rest.clock_now, Rest.post.
  destruct (http "/echo" (JObj [("message", JStr message)])); reflexivity.
Qed.

(** X11.  [echo_async] passes the loss gate once and never looks at the
    status of the response: dropped by the link it posts nothing; let
    through, it posts the message to [/echo] once and returns a latency for
    any response, a 500 as well as a 200; it raises only the packet-loss
    error of the link or what the transport itself raises. *)
Theorem echo_async_ignores_status (http : Rest.transport) (clock : McpMethods.timer)
    (sim : NetworkSimulator) (message : string) (w : world) :
  let out := Rest.echo_async http clock sim message w in
  let payload := JObj [("message", JStr message)] in
  (forall e, fst (simulate_network sim w) = Raised e ->
             fst out = Raised e /\ remote_calls (log (snd out)) = remote_calls (log w))
  /\ (fst (simulate_network sim w) = Ok tt ->
      remote_calls (log (snd out)) = remote_calls (log w) ++ [Post "/echo" payload]
      /\ (forall e, http "/echo" payload = Raised e -> fst out = Raised e)
      /\ (forall r, http "/echo" payload = Ok r -> exists latency, fst out = Ok latency))
  /\ drawn (snd out) = (if Qltb 0 (packet_loss_rate sim) then S (drawn w) else drawn w).
Proof.
  cbv zeta. rewrite rest_echo_unfold. cbv zeta.
  pose proof (simulate_network_draws sim w) as Hd.
  destruct (simulate_network_frame sim w) as [_ Hcalls].
  destruct (simulate_network sim w) as [[[]|e] w1]; cbn [fst snd] in *.
  - split; [discriminate | split].
    + intros _.
      destruct (http "/echo" (JObj [("message", JStr message)])) as [r|e] eqn:E;
        cbn [fst snd log]; rewrite remote_calls_app, Hcalls.
      * repeat split; [discriminate | intros r' _; now eexists].
      * repeat split; [now intros e' [= ->] | discriminate].
    + now destruct (http "/echo" (JObj [("message", JStr message)])).
  - split; [|split].
    + intros e' [= ->]. now split.
    + discriminate.
    + assumption.
Qed.

Section RestChat.

Variable http : Rest.transport.
Variable is_error : Z -> bool.
Variable json_loads : decoder.
Variable dumps : McpMethods.encoder.
Variable clock : McpMethods.timer.
Variable sim : NetworkSimulator.
Variable history : json.
Variable message : string.


End RestChat.



(** ** Subscriptions *)

Section Subscribing.

Import McpStreams.

Variable json_loads : decoder.
Variable stamp : sse_line -> Q.
Variable start_time : Q.
Variable uri : string.

Lemma subscribe_loop_spec (ls : list sse_line) (ending : stream_end) :
  forall updates,
    subscribe_loop json_loads stamp start_time uri ls ending updates =
      let kept := within_budget start_time 5 ls in
      if (List.length kept <? List.length ls)%nat
      then (Ok tt, updates ++ updates_of json_loads stamp uri kept)
      else match ending with
           | EndOfStream => (Ok tt, updates ++ updates_of json_loads stamp uri ls)
           | StreamRaises e => (Raised e, updates ++ updates_of json_loads stamp uri ls)
           end.
Proof.
  induction ls as [|l ls IH]; intro updates; cbv zeta.
  - cbn. rewrite app_nil_r. now destruct ending.
  - cbn [subscribe_loop within_budget]. unfold in_budget.
    destruct (Qltb 5 (clock l - start_time)); cbn [negb].
    + cbn. now rewrite app_nil_r.
    + cbn [List.length updates_of]. unfold is_data.
      change (S (List.length (within_budget start_time 5 ls)) <? S (List.length ls))%nat
        with (List.length (within_budget start_time 5 ls) <? List.length ls)%nat.
      unfold bind at 1.
      destruct (startswith (text l) "data: ").
      * destruct (update_of json_loads stamp uri l) as [u|]; cbn [modify ret].
        -- rewrite IH. cbv zeta. rewrite <- !app_assoc. reflexivity.
        -- now rewrite IH.
      * cbn [ret]. now rewrite IH.
Qed.

Lemma updates_of_sound (ls : list sse_line) (u : update) :
  In u (updates_of json_loads stamp uri ls) ->
  exists l, In l ls /\ is_data l = true /\ update_of json_loads stamp uri l = Some u.
Proof.
  induction ls as [|l ls IH]; cbn [updates_of]; [contradiction|].
  destruct (is_data l) eqn:Hd.
  - destruct (update_of json_loads stamp uri l) as [u0|] eqn:Hu.
    + intros [->|Hin].
      * exists l. split; [now left|]. split; assumption.
      * destruct (IH Hin) as (l' & Hl' & H'). exists l'. split; [now right | assumption].
    + intro Hin. destruct (IH Hin) as (l' & Hl' & H'). exists l'.
      split; [now right | assumption].
  - intro Hin. destruct (IH Hin) as (l' & Hl' & H'). exists l'.
    split; [now right | assumption].
Qed.

(** An update is collected only from a notification of the right method
    whose [params] name the subscribed resource; it carries their [delta]. *)
Lemma update_of_matches (l : sse_line) (u : update) :
  update_of json_loads stamp uri l = Some u ->
  exists items params,
    json_loads (strip (payload l)) = Some (JObj items)
    /\ Json.get items "method" = Some (JStr "notifications/resources/updated")
    /\ Json.get items "params" = Some (JObj params)
    /\ Json.get params "uri" = Some (JStr uri)
    /\ Json.get params "delta" = Some (data u)
    /\ timestamp u = stamp l.
Proof.
  unfold update_of, payload.
  destruct (json_loads (strip (slice_from 6 (text l)))) as [[| | | | | |items]|];
    try discriminate.
  destruct (Json.get items "method") as [[| | | |m| |]|] eqn:Hm; try discriminate.
  cbn [eq_str]. destruct (String.eqb_spec m "notifications/resources/updated") as [->|];
    [|discriminate].
  cbn [item].
  destruct (Json.get items "params") as [[| | | | | |params]|] eqn:Hp; try discriminate.
  cbn [item].
  destruct (Json.get params "uri") as [[| | | |u0| |]|] eqn:Hu; try discriminate.
  cbn [eq_str]. destruct (String.eqb_spec u0 uri) as [->|]; [|discriminate].
  destruct (Json.get params "delta") as [delta|] eqn:Hdelta; [|discriminate].
  intros [= <-]. exists items, params. now repeat split.
Qed.

End Subscribing.

(** X13.  [subscribe_to_resource] first sends its request; if that raises
    (the link drops it, or the endpoint fails) the call raises the same and
    no line of the stream matters.  Otherwise it reads the stream for a
    fixed budget of 5 seconds, tested when a line arrives, and returns, in
    order, the [delta] of every data line that decodes to a
    [notifications/resources/updated] message whose [params.uri] is the
    subscribed one, and of no other line.  It has no handler for the end of
    the stream: an exception there, a read timeout included, is raised and
    the updates gathered so far are lost, whereas [listen_for_events]
    returns normally on a read timeout. *)
Theorem subscribe_collects_matching_updates (remote : endpoint) (json_loads : decoder)
    (stamp : sse_line -> Q) (start_time : Q) (uri : string) (s : sse_stream)
    (self : McpClient) (w : world) :
  let req := _send_request_async remote "resources/subscribe"
               (JObj [("uri", JStr uri)]) (self, w) in
  let out := McpStreams.subscribe_to_resource remote json_loads stamp start_time uri s
               (self, w) in
  let kept := within_budget start_time 5 (lines s) in
  snd out = snd req
  /\ (forall e, fst req = Raised e -> fst out = Raised e)
  /\ (forall body, fst req = Ok body ->
        ((List.length kept < List.length (lines s))%nat \/ ending s = EndOfStream ->
         fst out = Ok (McpStreams.updates_of json_loads stamp uri kept))
        /\ (forall e, List.length kept = List.length (lines s) ->
                      ending s = StreamRaises e -> fst out = Raised e))
  /\ (forall u, In u (McpStreams.updates_of json_loads stamp uri kept) ->
        exists l items params,
          In l kept /\ is_data l = true
          /\ json_loads (strip (payload l)) = Some (JObj items)
          /\ Json.get items "method" = Some (JStr "notifications/resources/updated")
          /\ Json.get items "params" = Some (JObj params)
          /\ Json.get params "uri" = Some (JStr uri)
          /\ Json.get params "delta" = Some (McpStreams.data u))
  /\ (forall e,
        returned (listen_for_events json_loads start_time 5
                    (mkStream (lines s) (StreamRaises ReadTimeout))) <> Raised e).
Proof.
  intros req out kept.
  assert (Hout : out =
            match req with
            | (Raised e, st) => (Raised e, st)
            | (Ok _, st) =>
                match McpStreams.subscribe_loop json_loads stamp start_time uri
                        (lines s) (ending s) [] with
                | (Ok _, updates) => (Ok updates, st)
                | (Raised e, _) => (Raised e, st)
                end
            end).
  { unfold out, req, McpStreams.subscribe_to_resource, bind.
    now destruct (_send_request_async remote "resources/subscribe" _ (self, w))
      as [[body|e] st]. }
  rewrite Hout. clear Hout out. clearbody req.
  assert (Hsound : forall u, In u (McpStreams.updates_of json_loads stamp uri kept) ->
            exists l items params,
              In l kept /\ is_data l = true
              /\ json_loads (strip (payload l)) = Some (JObj items)
              /\ Json.get items "method" = Some (JStr "notifications/resources/updated")
              /\ Json.get items "params" = Some (JObj params)
              /\ Json.get params "uri" = Some (JStr uri)
              /\ Json.get params "delta" = Some (McpStreams.data u)).
  { intros u Hu.
    destruct (updates_of_sound json_loads stamp uri _ u Hu) as (l & Hl & Hd & Hup).
    destruct (update_of_matches json_loads stamp uri l u Hup)
      as (items & params & H1 & H2 & H3 & H4 & H5 & _).
    exists l, items, params. now repeat split. }
  assert (Hlisten : forall e,
            returned (listen_for_events json_loads start_time 5
                        (mkStream (lines s) (StreamRaises ReadTimeout))) <> Raised e).
  { intros ev Hev.
    destruct (listen_for_events_raises json_loads start_time 5 _ ev Hev) as [Hend Hrt].
    cbn [Mcp.ending] in Hend. inversion Hend; subst. discriminate. }
  destruct req as [[body|e] st]; cbn [fst snd].
  - rewrite subscribe_loop_spec. cbv zeta. cbn [app]. fold kept.
    pose proof (within_budget_length start_time 5 (lines s)) as Hlen. fold kept in Hlen.
    destruct (Nat.ltb_spec (List.length kept) (List.length (lines s))) as [Hlt|Hge].
    + cbn [fst snd]. split; [reflexivity|]. split; [discriminate|]. split.
      * intros body' _. split; [reflexivity|]. intros e He. lia.
      * now split.
    + assert (Hall : kept = lines s) by (apply within_budget_all; fold kept; lia).
      rewrite <- Hall.
      split; [now destruct (ending s)|]. split; [discriminate|]. split.
      * intros body' _. split.
        -- intros [Hlt | ->]; [lia | reflexivity].
        -- intros e _ ->. reflexivity.
      * split; [exact Hsound|]. rewrite Hall. exact Hlisten.
  - split; [reflexivity|]. split; [now intros e' [= ->]|]. split; [discriminate|].
    now split.
Qed.

(** ** A task with notifications *)

Section TaskWithNotifications.

Import McpMethods McpStreams.

Variable remote : endpoint.
Variable json_loads : decoder.
Variable dumps : encoder.
Variable float_ok : string -> bool.
Variable complexity : Z.

Local Abbreviation line := (task_line remote json_loads dumps float_ok complexity).
Local Abbreviation loop := (task_loop remote json_loads dumps float_ok complexity).

(** A line handled once the task has started. *)
Lemma task_line_started (l : sse_line) (t : task_locals) (st : session) :
  no_session (task_session t) = false ->
  task_started t = true ->
  line l (t, st) =
    match progress_of json_loads l with
    | None => (Ok Next, (t, st))
    | Some done =>
        (Ok (if done then Break else Next),
         (mkLocals (S (event_count t)) (task_session t) (task_started t) (task_bytes t),
          st))
    end.
Proof.
  intros Hs Ht. unfold task_line, progress_of, is_data, payload.
  destruct (startswith (text l) "data: "); [|reflexivity].
  unfold bind at 1, get_state at 1. cbn [fst]. rewrite Hs.
  unfold bind at 1. cbn [ret].
  unfold bind at 1, get_state at 1. cbn [fst]. rewrite Ht.
  unfold count_progress, try_except, bind at 1, loads.
  destruct (json_loads (strip (slice_from 6 (text l)))) as [msg|];
    cbn [ret raise any_exception]; [|reflexivity].
  unfold bind at 1, dict_get.
  destruct msg as [| | | | | |items]; cbn [ret raise any_exception]; try reflexivity.
  destruct (eq_str _ "notifications/progress"); cbn [ret]; [|reflexivity].
  unfold bind at 1, on_locals, modify. cbn [fst snd].
  unfold bind at 1. rewrite completed_pure. unfold is_completed.
  destruct (completed (JObj items) tt) as [[[]|e] u];
    cbn [ret]; rewrite ?Ht; reflexivity.
Qed.

(** A line handled before any session id has been found, when it is no
    data line that [float] accepts. *)
Lemma task_line_waiting (l : sse_line) (t : task_locals) (st : session) :
  task_session t = None ->
  task_started t = false ->
  id_line float_ok l = false ->
  line l (t, st) = (Ok Next, (t, st)).
Proof.
  intros Hs Ht Hid. unfold task_line, id_line, is_data, payload in *.
  destruct (startswith (text l) "data: "); [|reflexivity].
  cbn [andb] in Hid.
  unfold bind at 1, get_state at 1. cbn [fst]. rewrite Hs. cbn [no_session].
  unfold bind at 1, start_task, try_except. rewrite Hid. cbn [ret].
  unfold bind, get_state. cbn [fst]. now rewrite Ht.
Qed.

(** The line that brings the session id: the request goes out. *)
Lemma task_line_id (l : sse_line) (t : task_locals) (st : session) :
  task_session t = None ->
  id_line float_ok l = true ->
  let sid := strip (payload l) in
  let params := tool_call "generate_task" (task_args complexity sid) in
  line l (t, st) =
    match _send_request_async remote "tools/call" params st with
    | (Ok _, st') =>
        (Ok Next,
         (mkLocals (event_count t) (Some sid) true
                   (String.length (dumps (rpc "tools/call" params 0))), st'))
    | (Raised e, st') =>
        if is_value_error e
        then if task_started t
             then count_progress json_loads sid
                    (mkLocals (event_count t) (Some sid) true (task_bytes t), st')
             else (Ok Next,
                   (mkLocals (event_count t) (Some sid) false (task_bytes t), st'))
        else (Raised e,
              (mkLocals (event_count t) (Some sid) (task_started t) (task_bytes t), st'))
    end.
Proof.
  intros Hs Hid. cbv zeta. unfold task_line, id_line, is_data, payload in *.
  destruct (startswith (text l) "data: "); [|discriminate].
  cbn [andb] in Hid.
  unfold bind at 1, get_state at 1. cbn [fst]. rewrite Hs. cbn [no_session].
  unfold bind at 1, start_task, try_except. rewrite Hid.
  unfold bind at 1, on_locals at 1, modify. cbn [fst snd].
  unfold bind at 1, on_session at 1, zoom. cbn [fst snd].
  destruct (_send_request_async remote "tools/call" _ st) as [[body|e] st'].
  - cbn [fst snd]. unfold bind, on_locals, modify, ret. cbn [fst snd]. reflexivity.
  - destruct (is_value_error e); [|reflexivity].
    cbn [ret]. unfold bind at 1, get_state at 1. cbn [fst task_started].
    destruct (task_started t); reflexivity.
Qed.

Lemma task_loop_waiting (pre rest : list sse_line) (ending : stream_end)
    (t : task_locals) (st : session) :
  task_session t = None ->
  task_started t = false ->
  Forall (fun l => id_line float_ok l = false) pre ->
  loop (pre ++ rest) ending (t, st) = loop rest ending (t, st).
Proof.
  intros Hs Ht Hpre. induction Hpre as [|l pre Hl _ IH]; [reflexivity|].
  cbn [app task_loop]. unfold bind at 1.
  now rewrite task_line_waiting.
Qed.

Lemma progress_count_cons (l : sse_line) (ls : list sse_line) :
  progress_count json_loads (l :: ls)
  = ((match progress_of json_loads l with Some _ => 1 | None => 0 end)
     + progress_count json_loads ls)%nat.
Proof.
  unfold progress_count. cbn [filter].
  now destruct (progress_of json_loads l).
Qed.

(** Once started, the loop counts the progress notifications it meets ... *)
Lemma task_loop_counts (mid rest : list sse_line) (ending : stream_end) :
  Forall (fun l => progress_of json_loads l <> Some true) mid ->
  forall n sid b st,
    no_session (Some sid) = false ->
    loop (mid ++ rest) ending (mkLocals n (Some sid) true b, st)
    = loop rest ending
        (mkLocals (n + progress_count json_loads mid) (Some sid) true b, st).
Proof.
  induction 1 as [|l mid Hl _ IH]; intros n sid b st Hsid.
  - cbn [app]. unfold progress_count. cbn. now rewrite Nat.add_0_r.
  - cbn [app task_loop]. unfold bind at 1.
    rewrite task_line_started by first [exact Hsid | reflexivity]. rewrite progress_count_cons.
    destruct (progress_of json_loads l) as [[]|]; [congruence | |].
    + cbn [event_count task_session task_started task_bytes].
      rewrite IH by assumption. f_equal. f_equal. f_equal. lia.
    + rewrite IH by assumption. reflexivity.
Qed.

(** ... and stops on the one that completes the task. *)
Lemma task_loop_completes (t : sse_line) (rest : list sse_line) (ending : stream_end)
    (n : nat) (sid : string) (b : nat) (st : session) :
  progress_of json_loads t = Some true ->
  no_session (Some sid) = false ->
  loop (t :: rest) ending (mkLocals n (Some sid) true b, st)
  = (Ok tt, (mkLocals (S n) (Some sid) true b, st)).
Proof.
  intros Ht Hsid. cbn [task_loop]. unfold bind at 1.
  rewrite task_line_started by first [exact Hsid | reflexivity]. now rewrite Ht.
Qed.

(** With a session id but no task started, nothing is ever counted. *)
Lemma task_loop_idle (ls : list sse_line) (ending : stream_end)
    (n : nat) (sid : string) (b : nat) (st : session) :
  no_session (Some sid) = false ->
  loop ls ending (mkLocals n (Some sid) false b, st)
  = match ending with
    | EndOfStream => (Ok tt, (mkLocals n (Some sid) false b, st))
    | StreamRaises e => (Raised e, (mkLocals n (Some sid) false b, st))
    end.
Proof.
  intro Hsid. induction ls as [|l ls IH].
  - cbn [task_loop]. now destruct ending.
  - cbn [task_loop]. unfold bind at 1, task_line.
    destruct (startswith (text l) "data: "); [|exact IH].
    unfold bind at 1, get_state at 1. cbn [fst task_session]. rewrite Hsid.
    unfold bind at 1. cbn [ret].
    unfold bind at 1, get_state at 1. cbn [fst task_started ret]. exact IH.
Qed.

End TaskWithNotifications.

Section TaskReports.

Import McpMethods McpStreams.

Variable remote : endpoint.
Variable json_loads : decoder.
Variable dumps : encoder.
Variable clock : timer.
Variable float_ok : string -> bool.
Variable complexity : Z.

Lemma id_line_session (l : sse_line) :
  float_ok "" = false ->
  id_line float_ok l = true ->
  no_session (Some (strip (payload l))) = false.
Proof.
  intros Hempty Hid. unfold id_line in Hid.
  apply andb_true_iff in Hid. destruct Hid as [_ Hfloat].
  cbn [no_session]. destruct (String.eqb_spec (strip (payload l)) ""); [|reflexivity].
  congruence.
Qed.

(** X14.  [run_task_with_notifications], when all goes well.  The first
    data line whose payload [float] accepts gives the session id: the task
    is requested with it, once, and that line itself counts for nothing.
    From then on every progress notification counts, up to and including the
    first one whose status is completed, where the loop stops: nothing that
    was sent before the id line or after the completion is counted, and the
    bytes reported are those of a request with id 0, whatever the id of the
    request that was sent. *)
Theorem task_counts_progress_up_to_completion (s : sse_stream)
    (pre mid rest : list sse_line) (idl t : sse_line) (st st' : session) (body : json) :
  float_ok "" = false ->
  lines s = pre ++ idl :: mid ++ t :: rest ->
  Forall (fun l => id_line float_ok l = false) pre ->
  id_line float_ok idl = true ->
  _send_request_async remote "tools/call"
    (tool_call "generate_task" (task_args complexity (strip (payload idl)))) st
  = (Ok body, st') ->
  Forall (fun l => progress_of json_loads l <> Some true) mid ->
  progress_of json_loads t = Some true ->
  exists latency_ms,
    run_task_with_notifications remote json_loads dumps clock float_ok complexity s st
    = (Ok (mkReport latency_ms
             (S (progress_count json_loads mid))
             (String.length
                (dumps (rpc "tools/call"
                          (tool_call "generate_task"
                             (task_args complexity (strip (payload idl)))) 0)))),
       st').
Proof.
  intros Hempty Hlines Hpre Hid Hreq Hmid Ht.
  pose proof (id_line_session idl Hempty Hid) as Hsid.
  unfold run_task_with_notifications. rewrite Hlines.
  rewrite task_loop_waiting by (assumption || reflexivity).
  cbn [task_loop]. unfold bind at 1.
  rewrite task_line_id by (assumption || reflexivity).
  rewrite Hreq. cbv beta iota.
  rewrite (task_loop_counts remote json_loads dumps float_ok complexity mid (t :: rest)
             (ending s) Hmid) by exact Hsid.
  rewrite task_loop_completes by assumption.
  eexists. reflexivity.
Qed.

(** X15.  [run_task_with_notifications], when the request that starts the
    task fails.  An exception that is no [ValueError] leaves the method at
    once.  A [ValueError] (the response does not decode) is taken for a
    payload that is no number: it is passed over, but the session id has
    been set by then, so no later line starts the task again, nothing is
    ever counted, and the method reads the stream to its end. *)
Theorem task_start_failure (s : sse_stream) (pre rest : list sse_line) (idl : sse_line)
    (st st' : session) (e : exn) :
  float_ok "" = false ->
  lines s = pre ++ idl :: rest ->
  Forall (fun l => id_line float_ok l = false) pre ->
  id_line float_ok idl = true ->
  _send_request_async remote "tools/call"
    (tool_call "generate_task" (task_args complexity (strip (payload idl)))) st
  = (Raised e, st') ->
  let out :=
    run_task_with_notifications remote json_loads dumps clock float_ok complexity s st in
  snd out = st'
  /\ (is_value_error e = false -> fst out = Raised e)
  /\ (is_value_error e = true ->
      match ending s with
      | EndOfStream =>
          exists latency_ms, fst out = Ok (mkReport latency_ms 0 0)
      | StreamRaises e' => fst out = Raised e'
      end).
Proof.
  intros Hempty Hlines Hpre Hid Hreq out.
  pose proof (id_line_session idl Hempty Hid) as Hsid.
  assert (Hout : out =
    if is_value_error e
    then match ending s with
         | EndOfStream =>
             (Ok (mkReport ((clock (snd st') - clock (snd st)) * 1000) 0 0), st')
         | StreamRaises e' => (Raised e', st')
         end
    else (Raised e, st')).
  { unfold out, run_task_with_notifications. rewrite Hlines.
    rewrite task_loop_waiting by (assumption || reflexivity).
    cbn [task_loop]. unfold bind at 1.
    rewrite task_line_id by (assumption || reflexivity).
    rewrite Hreq. cbv beta iota.
    destruct (is_value_error e); [|reflexivity].
    cbn [task_started event_count task_bytes].
    rewrite task_loop_idle by exact Hsid.
    now destruct (ending s). }
  rewrite Hout. clear Hout out.
  destruct (is_value_error e).
  - destruct (ending s); (split; [reflexivity|]); (split; [discriminate|]); intros _.
    + eexists. reflexivity.
    + reflexivity.
  - split; [reflexivity|]. split; [reflexivity | discriminate].
Qed.

(** X16.  [run_task_with_notifications] on a stream without any data line
    whose payload [float] accepts (a server whose session ids are no
    numbers, say): the task is never requested, the client and the world are
    left as they were, and zero events and zero bytes are reported however
    many progress notifications the stream carries. *)
Theorem task_without_numeric_id_never_starts (s : sse_stream) (st : session) :
  Forall (fun l => id_line float_ok l = false) (lines s) ->
  let out :=
    run_task_with_notifications remote json_loads dumps clock float_ok complexity s st in
  snd out = st
  /\ match ending s with
     | EndOfStream => exists latency_ms, fst out = Ok (mkReport latency_ms 0 0)
     | StreamRaises e => fst out = Raised e
     end.
Proof.
  intros Hall out.
  assert (Hout : out =
    match ending s with
    | EndOfStream => (Ok (mkReport ((clock (snd st) - clock (snd st)) * 1000) 0 0), st)
    | StreamRaises e => (Raised e, st)
    end).
  { unfold out, run_task_with_notifications.
    rewrite <- (app_nil_r (lines s)).
    rewrite task_loop_waiting by (assumption || reflexivity).
    cbn [task_loop]. now destruct (ending s). }
  rewrite Hout. clear Hout out.
  destruct (ending s); (split; [reflexivity|]).
  - eexists. reflexivity.
  - reflexivity.
Qed.

Lemma run_task_unstarted (s : sse_stream) (st : session) :
  Forall (fun l => id_line float_ok l = false) (lines s) ->
  run_task_with_notifications remote json_loads dumps clock float_ok complexity s st
  = match ending s with
    | EndOfStream => (Ok (mkReport ((clock (snd st) - clock (snd st)) * 1000) 0 0), st)
    | StreamRaises e => (Raised e, st)
    end.
Proof.
  intro Hall. unfold run_task_with_notifications.
  rewrite <- (app_nil_r (lines s)).
  rewrite task_loop_waiting by (assumption || reflexivity).
  cbn [task_loop]. now destruct (ending s).
Qed.

(** Once the task has started the loop leaves the client and the world
    alone. *)
Lemma task_loop_started_frame (ls : list sse_line) (ending : stream_end) (sid : string)
    (b : nat) (st : session) :
  no_session (Some sid) = false ->
  forall n,
    snd (snd (task_loop remote json_loads dumps float_ok complexity ls ending
                (mkLocals n (Some sid) true b, st))) = st.
Proof.
  intro Hsid. induction ls as [|l ls IH]; intro n.
  - cbn [task_loop]. now destruct ending.
  - cbn [task_loop]. unfold bind at 1.
    rewrite task_line_started by first [exact Hsid | reflexivity].
    destruct (progress_of json_loads l) as [[]|];
      cbn [event_count task_session task_started task_bytes].
    + reflexivity.
    + apply IH.
    + apply IH.
Qed.

(** The first data line whose payload [float] accepts, if there is one. *)
Lemma first_id_line (ls : list sse_line) :
  Forall (fun l => id_line float_ok l = false) ls
  \/ exists pre idl rest,
       ls = pre ++ idl :: rest
       /\ Forall (fun l => id_line float_ok l = false) pre
       /\ id_line float_ok idl = true.
Proof.
  induction ls as [|l ls IH].
  - left. constructor.
  - destruct (id_line float_ok l) eqn:Hl.
    + right. exists [], l, ls. repeat split; [constructor | exact Hl].
    + destruct IH as [IH|(pre & idl & rest & Heq & Hpre & Hid)].
      * left. now constructor.
      * right. exists (l :: pre), idl, rest. rewrite Heq.
        repeat split; [now constructor | exact Hid].
Qed.

(** X17.  [run_task_with_notifications] sends at most one request, whatever
    the stream carries and whatever the endpoint answers: either nothing is
    posted and no request id is used, or the one thing posted is the
    [generate_task] call whose [sessionId] is the payload of the first data
    line [float] accepts.  A request that is lost or refused is never sent
    again. *)
Theorem task_requests_at_most_once (s : sse_stream) (st : session) :
  float_ok "" = false ->
  let out :=
    run_task_with_notifications remote json_loads dumps clock float_ok complexity s st in
  (remote_calls (log (snd (snd out))) = remote_calls (log (snd st))
   /\ fst (snd out) = fst st)
  \/ exists pre idl rest,
       lines s = pre ++ idl :: rest
       /\ Forall (fun l => id_line float_ok l = false) pre
       /\ id_line float_ok idl = true
       /\ remote_calls (log (snd (snd out)))
          = remote_calls (log (snd st))
            ++ [Post "/message"
                  (rpc "tools/call"
                     (tool_call "generate_task"
                        (task_args complexity (strip (payload idl))))
                     (request_id (fst st) + 1))]
       /\ request_id (fst (snd out)) = (request_id (fst st) + 1)%Z.
Proof.
  intros Hempty out.
  destruct (first_id_line (lines s)) as [Hall|(pre & idl & rest & Hlines & Hpre & Hid)].
  - left. unfold out. rewrite (run_task_unstarted s st Hall).
    now destruct (ending s).
  - pose proof (id_line_session idl Hempty Hid) as Hsid.
    set (params := tool_call "generate_task" (task_args complexity (strip (payload idl)))).
    assert (Hsnd : snd out =
      snd (match _send_request_async remote "tools/call" params st with
           | (o, st') => (o, st')
           end)).
    { unfold out, run_task_with_notifications. rewrite Hlines.
      rewrite task_loop_waiting by (assumption || reflexivity).
      cbn [task_loop]. unfold bind at 1.
      rewrite task_line_id by (assumption || reflexivity). fold params.
      destruct (_send_request_async remote "tools/call" params st) as [[body|e] st'].
      - match goal with
        | |- context [task_loop ?r ?j ?d ?f ?c ?ls ?en (mkLocals ?n ?sd ?on ?b, st')] =>
            generalize (task_loop_started_frame ls en (strip (payload idl)) b st' Hsid n);
            destruct (task_loop r j d f c ls en (mkLocals n sd on b, st'))
              as [[u|e] [t' st'']]
        end; cbn [snd]; intro; now subst.
      - destruct (is_value_error e); [|reflexivity].
        cbn [task_started event_count task_bytes].
        rewrite task_loop_idle by exact Hsid.
        now destruct (ending s). }
    destruct st as [self w].
    rewrite send_request_async_unfold in Hsnd.
    destruct (simulate_network_frame (network_sim self) w) as [_ Hcalls].
    destruct (simulate_network (network_sim self) w) as [[[]|e] w1];
      cbn [fst snd] in *; rewrite Hsnd; cbn [fst snd log request_id].
    + right. exists pre, idl, rest. repeat split; try assumption.
      rewrite remote_calls_app, Hcalls. reflexivity.
    + left. split; [exact Hcalls | reflexivity].
Qed.

End TaskReports.

(** ** Runs of a task *)

Section TaskRuns.

Import McpMethods McpStreams TaskScript Script.

Local Ltac each_line :=
  repeat (apply Forall_cons; [vm_compute; first [reflexivity | discriminate] |]);
  apply Forall_nil.

(** X14, an instance: the stream of the bundled server, an endpoint that
    accepts the request.  The two running notifications and the completion
    are counted; the stock update before them and the notification behind
    the completion are not. *)
Lemma task_counts_progress_up_to_completion_witness :
  exists latency_ms,
    fst (run_task_with_notifications accepting Json.loads (fun _ => "{}")
           (fun w => injected_delay (log w)) numeral 1 task_stream quiet)
    = Ok (mkReport latency_ms 3 2).
Proof.
  set (request := _send_request_async accepting "tools/call"
                    (tool_call "generate_task" (task_args 1 "1762180000.1234567")) quiet).
  destruct (task_counts_progress_up_to_completion
              accepting Json.loads (fun _ => "{}") (fun w => injected_delay (log w))
              numeral 1 task_stream
              [mkLine 0 "event: connection"]
              [mkLine 0 ""; stock_update 1;
               progress_line 1 "10" "running"; progress_line 2 "20" "running"]
              [progress_line 4 "100" "completed"]
              (mkLine 0 "data: 1762180000.1234567")
              (progress_line 3 "100" "completed")
              quiet (snd request)
              (match fst request with Ok body => body | Raised _ => JNull end))
    as [latency_ms H].
  - vm_compute. reflexivity.
  - vm_compute. reflexivity.
  - each_line.
  - vm_compute. reflexivity.
  - vm_compute. reflexivity.
  - each_line.
  - vm_compute. reflexivity.
  - exists latency_ms. rewrite H. reflexivity.
Defined.

(** X15, an instance: the same stream, an endpoint whose responses do not
    decode.  The method returns at the end of the stream and reports no
    event, although three progress notifications went by. *)
Lemma task_start_failure_witness :
  exists latency_ms,
    fst (run_task_with_notifications garbled Json.loads (fun _ => "{}")
           (fun w => injected_delay (log w)) numeral 1 task_stream quiet)
    = Ok (mkReport latency_ms 0 0).
Proof.
  set (request := _send_request_async garbled "tools/call"
                    (tool_call "generate_task" (task_args 1 "1762180000.1234567")) quiet).
  assert (H := task_start_failure
              garbled Json.loads (fun _ => "{}") (fun w => injected_delay (log w))
              numeral 1 task_stream
              [mkLine 0 "event: connection"]
              [mkLine 0 ""; stock_update 1;
               progress_line 1 "10" "running"; progress_line 2 "20" "running";
               progress_line 3 "100" "completed"; progress_line 4 "100" "completed"]
              (mkLine 0 "data: 1762180000.1234567")
              quiet (snd request) JSONDecodeError).
  cbv zeta in H.
  refine (proj2 (proj2 (H _ _ _ _ _)) eq_refl).
  - vm_compute. reflexivity.
  - vm_compute. reflexivity.
  - each_line.
  - vm_compute. reflexivity.
  - vm_compute. reflexivity.
Defined.

(** X16, an instance: a server whose session id is a name.  The two
    progress notifications go by uncounted and nothing is posted. *)
Lemma task_without_numeric_id_never_starts_witness :
  let out := run_task_with_notifications accepting Json.loads (fun _ => "{}")
               (fun w => injected_delay (log w)) numeral 1 named_stream quiet in
  snd out = quiet
  /\ exists latency_ms, fst out = Ok (mkReport latency_ms 0 0).
Proof.
  refine (task_without_numeric_id_never_starts
            accepting Json.loads (fun _ => "{}") (fun w => injected_delay (log w))
            numeral 1 named_stream quiet _).
  replace (lines named_stream)
    with [mkLine 0 "event: connection"; mkLine 0 "data: session-7f3a"; mkLine 0 "";
          progress_line 1 "10" "running"; progress_line 3 "100" "completed"]
    by (vm_compute; reflexivity).
  each_line.
Defined.

(** X17, an instance: on the stream of the bundled server at most the one
    request with the id of its connection event is posted. *)
Lemma task_requests_at_most_once_witness :
  let out := run_task_with_notifications accepting Json.loads (fun _ => "{}")
               (fun w => injected_delay (log w)) numeral 1 task_stream quiet in
  (remote_calls (log (snd (snd out))) = remote_calls (log (snd quiet))
   /\ fst (snd out) = fst quiet)
  \/ exists pre idl rest,
       lines task_stream = pre ++ idl :: rest
       /\ Forall (fun l => id_line numeral l = false) pre
       /\ id_line numeral idl = true
       /\ remote_calls (log (snd (snd out)))
          = remote_calls (log (snd quiet))
            ++ [Post "/message"
                  (rpc "tools/call"
                     (tool_call "generate_task" (task_args 1 (strip (payload idl))))
                     (request_id (fst quiet) + 1))]
       /\ request_id (fst (snd out)) = (request_id (fst quiet) + 1)%Z.
Proof.
  apply (task_requests_at_most_once accepting Json.loads (fun _ => "{}")
           (fun w => injected_delay (log w)) numeral 1 task_stream quiet).
  vm_compute. reflexivity.
Defined.

End TaskRuns.

(** ** The background tasks of the two servers *)

Section ServerTasks.

Import ServerTasks.

Lemma lookup_change_same {V} (d : table V) (k : string) (f : V -> V) (v : V) :
  lookup d k = Some v -> lookup (change d k f) k = Some (f v).
Proof.
  induction d as [|[k0 v0] d IH]; cbn [lookup change]; [discriminate|].
  destruct (String.eqb k0 k) eqn:E; cbn [lookup]; rewrite E.
  - congruence.
  - exact IH.
Qed.

Lemma lookup_change_other {V} (d : table V) (k k' : string) (f : V -> V) :
  k' <> k -> lookup (change d k f) k' = lookup d k'.
Proof.
  intro Hne. induction d as [|[k0 v0] d IH]; cbn [lookup change]; [reflexivity|].
  destruct (String.eqb k0 k) eqn:E; cbn [lookup].
  - apply String.eqb_eq in E. subst k0.
    destruct (String.eqb_spec k k'); [congruence | reflexivity].
  - now rewrite IH.
Qed.

Lemma change_missing {V} (d : table V) (k : string) (f : V -> V) :
  lookup d k = None -> change d k f = d.
Proof.
  induction d as [|[k0 v0] d IH]; cbn [lookup change]; [reflexivity|].
  destruct (String.eqb k0 k); [discriminate|].
  intro H. now rewrite IH.
Qed.

Lemma change_to {V} (d : table V) (k : string) (f : V -> V) (v : V) :
  lookup d k = Some v -> change d k f = change d k (fun _ => f v).
Proof.
  induction d as [|[k0 v0] d IH]; cbn [lookup change]; [reflexivity|].
  destruct (String.eqb k0 k).
  - intro H. now inversion H.
  - intro H. now rewrite IH.
Qed.

Lemma change_twice {V} (d : table V) (k : string) (a b : V) :
  change (change d k (fun _ => a)) k (fun _ => b) = change d k (fun _ => b).
Proof.
  induction d as [|[k0 v0] d IH]; cbn [change]; [reflexivity|].
  destruct (String.eqb k0 k) eqn:E; cbn [change]; rewrite E; [reflexivity|].
  now rewrite IH.
Qed.

Lemma change_same {V} (d : table V) (k : string) (v : V) :
  lookup d k = Some v -> change d k (fun _ => v) = d.
Proof.
  induction d as [|[k0 v0] d IH]; cbn [lookup change]; [reflexivity|].
  destruct (String.eqb k0 k).
  - intro H. now inversion H.
  - intro H. now rewrite IH.
Qed.

(** Ten steps of a tenth of [complexity] seconds each. *)
Lemma ten_steps (complexity : Z) (l : list effect) :
  injected_delay (l ++ repeat (Sleep (step_seconds complexity)) 10)
  == injected_delay l + Qmax 0 (inject_Z complexity).
Proof.
  rewrite injected_delay_app. apply Qplus_inj_l.
  cbn [repeat injected_delay delay_of]. unfold step_seconds.
  set (c := inject_Z complexity).
  destruct (Qlt_le_dec c 0) as [Hneg|Hpos].
  - assert (H : (1 # 10) * c <= 0).
    { setoid_replace 0 with ((1 # 10) * 0) by ring.
      apply Qmult_le_l; [reflexivity | now apply Qlt_le_weak]. }
    rewrite (Q.max_l 0 ((1 # 10) * c)) by exact H.
    rewrite (Q.max_l 0 c) by now apply Qlt_le_weak.
    ring.
  - assert (H : 0 <= (1 # 10) * c).
    { setoid_replace 0 with ((1 # 10) * 0) by ring.
      apply Qmult_le_l; [reflexivity | exact Hpos]. }
    rewrite (Q.max_r 0 ((1 # 10) * c)) by exact H.
    rewrite (Q.max_r 0 c) by exact Hpos.
    ring.
Qed.

(** The loop of [run_mcp_task], for a session the server knows. *)
Lemma notify_loop (sid : string) (d : Q) (g : nat -> json) (steps : list nat) :
  forall (ss : sessions) (q : list json) (w : world),
    lookup ss sid = Some q ->
    for_each steps (fun i => asleep d ;; queue_put sid (g i)) (ss, w)
    = (Ok tt,
       (change ss sid (fun _ => q ++ map g steps),
        mkWorld (rand w) (drawn w) (log w ++ repeat (Sleep d) (List.length steps)))).
Proof.
  induction steps as [|i steps IH]; intros ss q w Hq.
  - cbn [for_each map repeat List.length ret]. rewrite !app_nil_r.
    rewrite change_same by exact Hq. now destruct w.
  - cbn [for_each]. unfold bind at 1, bind at 1, asleep, zoom, sleep, queue_put, modify.
    cbn [fst snd].
    rewrite (change_to ss sid _ q Hq).
    rewrite (IH _ (q ++ [g i])) by (now apply lookup_change_same with (v := q)).
    cbn [rand drawn log map repeat List.length].
    rewrite change_twice.
    replace ((q ++ [g i]) ++ map g steps) with (q ++ g i :: map g steps)
      by (now rewrite <- app_assoc).
    replace ((log w ++ [Sleep d]) ++ repeat (Sleep d) (List.length steps))
      with (log w ++ Sleep d :: repeat (Sleep d) (List.length steps))
      by (now rewrite <- app_assoc).
    reflexivity.
Qed.

Lemma run_mcp_task_known (sid : string) (complexity : Z) (ss : sessions)
    (q : list json) (w : world) :
  lookup ss sid = Some q ->
  run_mcp_task sid complexity (ss, w)
  = (Ok tt,
     (change ss sid (fun _ => q ++ queued),
      mkWorld (rand w) (drawn w)
              (log w ++ repeat (Sleep (step_seconds complexity)) 10))).
Proof.
  intro Hq. unfold run_mcp_task, bind at 1, get_state. cbn [fst]. rewrite Hq.
  unfold bind at 1. rewrite (notify_loop sid _ _ (seq 0 10) ss q w Hq).
  unfold queue_put, modify. cbn [fst snd].
  erewrite change_to by (now apply lookup_change_same with (v := q)).
  rewrite change_twice. unfold queued. rewrite <- app_assoc. reflexivity.
Qed.

End ServerTasks.

(** X18.  [run_mcp_task] never raises and posts nothing.  For a session
    the server does not know it does nothing at all, without waiting.  For
    a session it knows it appends eleven messages to that session's queue,
    behind what is already there: ten running notifications with progress
    10, 20, ..., 100 and then the completion, the only one of them the
    client takes for completed; no other queue is touched, and the waits
    add up to [complexity] seconds (none for a negative complexity). *)
Theorem mcp_task_queues_ten_steps_and_completion (session_id : string)
    (complexity : Z) (ss : ServerTasks.sessions) (w : world) :
  let out := ServerTasks.run_mcp_task session_id complexity (ss, w) in
  fst out = Ok tt
  /\ remote_calls (log (snd (snd out))) = remote_calls (log w)
  /\ (ServerTasks.lookup ss session_id = None -> snd out = (ss, w))
  /\ (forall q, ServerTasks.lookup ss session_id = Some q ->
        ServerTasks.lookup (fst (snd out)) session_id
        = Some (q ++ map (fun p => ServerTasks.notification p)
                       [10; 20; 30; 40; 50; 60; 70; 80; 90; 100]%Z
                  ++ [ServerTasks.completion])
        /\ (forall other, other <> session_id ->
              ServerTasks.lookup (fst (snd out)) other = ServerTasks.lookup ss other)
        /\ injected_delay (log (snd (snd out)))
           == injected_delay (log w) + Qmax 0 (inject_Z complexity))
  /\ map is_completed ServerTasks.queued
     = repeat false 10 ++ [true].
Proof.
  cbv zeta.
  destruct (ServerTasks.lookup ss session_id) as [q|] eqn:Hq.
  - rewrite (run_mcp_task_known session_id complexity ss q w Hq). cbn [fst snd log].
    split; [reflexivity|]. split.
    { rewrite remote_calls_app. cbn. apply app_nil_r. }
    split; [discriminate|]. split; [|reflexivity].
    intros q' Hq'. inversion Hq'. subst q'. split; [|split].
    + rewrite (lookup_change_same ss session_id _ q Hq). reflexivity.
    + intros other Hne. now apply lookup_change_other.
    + apply ten_steps.
  - unfold ServerTasks.run_mcp_task, bind, get_state. cbn [fst]. rewrite Hq.
    cbn [ret fst snd].
    split; [reflexivity|]. split; [reflexivity|]. split; [reflexivity|].
    split; [discriminate | reflexivity].
Qed.

(** ** A task of the server, read by the client *)

Section TaskAgainstServer.

Import McpMethods McpStreams ServerTasks.

Variable remote : endpoint.
Variable json_loads : decoder.
Variable dumps : encoder.
Variable clock : timer.
Variable float_ok : string -> bool.
Variable complexity : Z.

(** What a started task makes of the lines [ls]. *)
Lemma task_loop_events (ls : list sse_line) (ending : stream_end) (sid : string)
    (b : nat) (st : session) :
  no_session (Some sid) = false ->
  forall n,
    task_loop remote json_loads dumps float_ok complexity ls ending
      (mkLocals n (Some sid) true b, st)
    = (if existsb is_completed (progress_events json_loads ls) then Ok tt
       else match ending with
            | EndOfStream => Ok tt
            | StreamRaises e => Raised e
            end,
       (mkLocals (n + counted (progress_events json_loads ls)) (Some sid) true b, st)).
Proof.
  intro Hsid. induction ls as [|l ls IH]; intro n.
  - cbn [task_loop progress_events existsb counted]. rewrite Nat.add_0_r.
    now destruct ending.
  - cbn [task_loop progress_events]. unfold bind at 1.
    rewrite task_line_started by first [exact Hsid | reflexivity].
    unfold progress_of.
    destruct (is_data l); [|apply IH].
    destruct (json_loads (strip (payload l))) as [[| | | | | |items]|]; try apply IH.
    destruct (eq_str _ "notifications/progress"); [|apply IH].
    cbn [existsb counted event_count task_session task_started task_bytes].
    destruct (is_completed (JObj items)); cbn [orb].
    + now rewrite Nat.add_1_r.
    + rewrite IH. now rewrite Nat.add_succ_r.
Qed.

(** X19.  The two sides of a task together.  The client reads the
    session id, the request is accepted, and the progress notifications the
    stream carries from then on are those [run_mcp_task] has put in the
    queue of that session (stock updates and blank lines may come in
    between): then [run_task_with_notifications] returns without reading
    further and reports eleven events, ten steps and the completion. *)
Theorem server_task_is_counted_in_full (s : sse_stream) (pre after : list sse_line)
    (idl : sse_line) (st st' : session) (body : json) (ss : sessions) (w : world) :
  float_ok "" = false ->
  lines s = pre ++ idl :: after ->
  Forall (fun l => id_line float_ok l = false) pre ->
  id_line float_ok idl = true ->
  _send_request_async remote "tools/call"
    (tool_call "generate_task" (task_args complexity (strip (payload idl)))) st
  = (Ok body, st') ->
  lookup ss (strip (payload idl)) = Some [] ->
  lookup (fst (snd (run_mcp_task (strip (payload idl)) complexity (ss, w))))
         (strip (payload idl))
  = Some (progress_events json_loads after) ->
  exists latency_ms,
    run_task_with_notifications remote json_loads dumps clock float_ok complexity s st
    = (Ok (mkReport latency_ms 11
             (String.length
                (dumps (rpc "tools/call"
                          (tool_call "generate_task"
                             (task_args complexity (strip (payload idl)))) 0)))),
       st').
Proof.
  intros Hempty Hlines Hpre Hid Hreq Hknown Hqueue.
  pose proof (id_line_session float_ok idl Hempty Hid) as Hsid.
  rewrite (run_mcp_task_known _ complexity ss [] w Hknown) in Hqueue.
  cbn [fst snd] in Hqueue.
  rewrite (lookup_change_same ss _ _ [] Hknown) in Hqueue.
  cbn [app] in Hqueue. inversion Hqueue as [Hevents]. clear Hqueue.
  unfold run_task_with_notifications. rewrite Hlines.
  rewrite task_loop_waiting by (assumption || reflexivity).
  cbn [task_loop]. unfold bind at 1.
  rewrite task_line_id by (assumption || reflexivity).
  rewrite Hreq. cbv beta iota.
  rewrite task_loop_events by exact Hsid.
  rewrite <- Hevents.
  change (existsb is_completed queued) with true.
  change (counted queued) with 11%nat.
  eexists. reflexivity.
Qed.

End TaskAgainstServer.

(** ** The background task of the REST server *)

Section BackgroundTask.

Import ServerTasks.

(** The loop of [run_background_task], for a task the server knows. *)
Lemma progress_loop (tid key : string) (d : Q) (g : nat -> json) (steps : list nat) :
  forall (ts : tasks) (t : list (string * json)) (w : world),
    lookup ts tid = Some t ->
    for_each steps (fun i => asleep d ;; set_item tid key (g i)) (ts, w)
    = (Ok tt,
       (change ts tid (fun _ => fold_left (fun t i => Json.set t key (g i)) steps t),
        mkWorld (rand w) (drawn w) (log w ++ repeat (Sleep d) (List.length steps)))).
Proof.
  induction steps as [|i steps IH]; intros ts t w Ht.
  - cbn [for_each fold_left repeat List.length ret]. rewrite app_nil_r.
    rewrite change_same by exact Ht. now destruct w.
  - cbn [for_each]. unfold bind at 1, bind at 1, asleep, zoom, sleep, set_item.
    cbn [fst snd]. rewrite Ht.
    rewrite (change_to ts tid _ t Ht).
    rewrite (IH _ (Json.set t key (g i)))
      by (now apply lookup_change_same with (v := t)).
    cbn [rand drawn log fold_left repeat List.length].
    rewrite change_twice.
    replace ((log w ++ [Sleep d]) ++ repeat (Sleep d) (List.length steps))
      with (log w ++ Sleep d :: repeat (Sleep d) (List.length steps))
      by (now rewrite <- app_assoc).
    reflexivity.
Qed.

Lemma set_item_known (tid key : string) (v : json) (ts : tasks)
    (t : list (string * json)) (w : world) :
  lookup ts tid = Some t ->
  set_item tid key v (ts, w) = (Ok tt, (change ts tid (fun _ => Json.set t key v), w)).
Proof.
  intro Ht. unfold set_item. cbn [fst snd]. rewrite Ht.
  now rewrite (change_to ts tid _ t Ht).
Qed.

Lemma run_background_task_known (tid : string) (complexity : Z) (ts : tasks)
    (t : list (string * json)) (w : world) :
  lookup ts tid = Some t ->
  run_background_task tid complexity (ts, w)
  = (Ok tt,
     (change ts tid
        (fun _ =>
           Json.set
             (Json.set
                (fold_left
                   (fun t i => Json.set t "progress" (JInt ((Z.of_nat i + 1) * 10)))
                   (seq 0 10) t)
                "status" (JStr "completed"))
             "result" (JStr "Task Completed Successfully")),
      mkWorld (rand w) (drawn w)
              (log w ++ repeat (Sleep (step_seconds complexity)) 10))).
Proof.
  intro Ht. unfold run_background_task, bind at 1.
  rewrite (progress_loop tid "progress" _ _ (seq 0 10) ts t w Ht).
  unfold bind at 1.
  erewrite set_item_known by (now apply lookup_change_same with (v := t)).
  rewrite change_twice.
  erewrite set_item_known by (now apply lookup_change_same with (v := t)).
  rewrite change_twice. reflexivity.
Qed.

Lemma run_background_task_unknown (tid : string) (complexity : Z) (ts : tasks)
    (w : world) :
  lookup ts tid = None ->
  run_background_task tid complexity (ts, w)
  = (Raised (KeyError tid),
     (ts, mkWorld (rand w) (drawn w) (log w ++ [Sleep (step_seconds complexity)]))).
Proof.
  intro Ht. unfold run_background_task, bind at 1. cbn [seq for_each].
  unfold bind at 1, bind at 1, asleep, zoom, sleep, set_item.
  cbn [fst snd]. now rewrite Ht.
Qed.

End BackgroundTask.

(** X20.  [run_background_task] posts nothing.  For a task the server
    has in [tasks] it returns with status completed, progress 100 and the
    result text set, every other item of the task and every other task left
    as it was, and its waits add up to [complexity] seconds, as those of
    [run_mcp_task] do.  For a task id that is not in [tasks] it waits one
    step and then raises [KeyError]. *)
Theorem background_task_completes (task_id : string) (complexity : Z)
    (ts : ServerTasks.tasks) (w : world) :
  let out := ServerTasks.run_background_task task_id complexity (ts, w) in
  remote_calls (log (snd (snd out))) = remote_calls (log w)
  /\ (ServerTasks.lookup ts task_id = None ->
      out = (Raised (KeyError task_id),
             (ts, mkWorld (rand w) (drawn w)
                          (log w ++ [Sleep (ServerTasks.step_seconds complexity)]))))
  /\ (forall t, ServerTasks.lookup ts task_id = Some t ->
        fst out = Ok tt
        /\ (exists t',
              ServerTasks.lookup (fst (snd out)) task_id = Some t'
              /\ Json.get t' "status" = Some (JStr "completed")
              /\ Json.get t' "progress" = Some (JInt 100)
              /\ Json.get t' "result" = Some (JStr "Task Completed Successfully")
              /\ (forall key, key <> "status" -> key <> "progress" -> key <> "result" ->
                    Json.get t' key = Json.get t key))
        /\ (forall other, other <> task_id ->
              ServerTasks.lookup (fst (snd out)) other = ServerTasks.lookup ts other)
        /\ injected_delay (log (snd (snd out)))
           == injected_delay (log w) + Qmax 0 (inject_Z complexity)).
Proof.
  cbv zeta.
  destruct (ServerTasks.lookup ts task_id) as [t|] eqn:Ht.
  - rewrite (run_background_task_known task_id complexity ts t w Ht).
    cbn [fst snd log].
    split; [rewrite remote_calls_app; cbn; apply app_nil_r|].
    split; [discriminate|].
    intros t0 Ht0. inversion Ht0. subst t0.
    split; [reflexivity|]. split; [|split].
    + eexists. split; [now apply lookup_change_same with (v := t)|].
      cbv beta. cbn [seq fold_left].
      split; [|split; [|split]].
      * rewrite get_set_other by discriminate. apply get_set_same.
      * rewrite !(get_set_other _ _ "progress") by discriminate. apply get_set_same.
      * apply get_set_same.
      * intros key Hs Hp Hr.
        rewrite !get_set_other by congruence. reflexivity.
    + intros other Hne. now apply lookup_change_other.
    + apply ten_steps.
  - rewrite (run_background_task_unknown task_id complexity ts w Ht).
    cbn [fst snd log].
    split; [rewrite remote_calls_app; cbn; apply app_nil_r|].
    split; [reflexivity | discriminate].
Qed.

Section ServedTask.

Import McpMethods McpStreams TaskScript ServerTasks Script.

(** X19, an instance: session 1762180000.1234567 of the bundled server, a
    stock update pushed before the notifications of the task. *)
Lemma server_task_is_counted_in_full_witness :
  exists latency_ms,
    fst (run_task_with_notifications accepting Json.loads (fun _ => "{}")
           (fun w => injected_delay (log w)) numeral 2
           (mkStream ([mkLine 0 "event: connection"]
                      ++ mkLine 0 "data: 1762180000.1234567"
                      :: mkLine 0 "" :: stock_update 1 :: task_lines)
                     (StreamRaises ReadTimeout))
           quiet)
    = Ok (mkReport latency_ms 11 2).
Proof.
  set (request := _send_request_async accepting "tools/call"
                    (tool_call "generate_task" (task_args 2 "1762180000.1234567")) quiet).
  destruct (server_task_is_counted_in_full
              accepting Json.loads (fun _ => "{}") (fun w => injected_delay (log w))
              numeral 2
              (mkStream ([mkLine 0 "event: connection"]
                         ++ mkLine 0 "data: 1762180000.1234567"
                         :: mkLine 0 "" :: stock_update 1 :: task_lines)
                        (StreamRaises ReadTimeout))
              [mkLine 0 "event: connection"]
              (mkLine 0 "" :: stock_update 1 :: task_lines)
              (mkLine 0 "data: 1762180000.1234567")
              quiet (snd request)
              (match fst request with Ok body => body | Raised _ => JNull end)
              [("1762180000.1234567", [])] (constant_world 0)) as [latency_ms H].
  - vm_compute. reflexivity.
  - reflexivity.
  - apply Forall_cons; [vm_compute; reflexivity | apply Forall_nil].
  - vm_compute. reflexivity.
  - vm_compute. reflexivity.
  - vm_compute. reflexivity.
  - vm_compute. reflexivity.
  - exists latency_ms. rewrite H. reflexivity.
Defined.

End ServedTask.

(** ** One attempt of each client under the same conditions *)

(** X21.  The two calls the instability scenario counts, under the same
    network conditions and from the same point of the random sequence.
    Where the chat turn of the MCP client returns, the echo of the REST
    client is not lost either: it needs the first draw only, the chat turn
    the first three.  The converse fails: a first draw that passes and a
    second one that does not let the echo through and lose the chat turn. *)
Theorem echo_survives_where_chat_turn_does (remote : endpoint) (http : Rest.transport)
    (dumps : McpMethods.encoder) (clock : McpMethods.timer) (of_float : Q -> json)
    (session_id message text : string) (turn_count : Z) (self : McpClient) (w : world)
    (answer : Rest.response) :
  let rate := packet_loss_rate (network_sim self) in
  let chat := McpMethods.chat_turn remote dumps clock of_float session_id message
                turn_count (self, w) in
  let echo := Rest.echo_async http clock (network_sim self) text w in
  http "/echo" (JObj [("message", JStr text)]) = Ok answer ->
  (forall r, fst chat = Ok r -> exists latency_ms, fst echo = Ok latency_ms)
  /\ (0 < rate -> rate <= draw w 0 -> draw w 1 < rate ->
      (exists latency_ms, fst echo = Ok latency_ms)
      /\ fst chat = Raised packet_loss).
Proof.
  intros rate chat echo Hhttp.
  assert (Hecho : fst (simulate_network (network_sim self) w) = Ok tt ->
                  exists latency_ms, fst echo = Ok latency_ms).
  { intro Hnet. unfold echo. rewrite rest_echo_unfold. cbv zeta.
    destruct (simulate_network (network_sim self) w) as [[[]|e] w1]; [|discriminate].
    rewrite Hhttp. eexists. reflexivity. }
  split.
  - intros r Hr. apply Hecho.
    destruct (simulate_transfer_frame (network_sim self)
                (Z.of_nat (String.length
                             (dumps (McpMethods.chat_args session_id message turn_count))
                           + 100)) w) as (Hfst & _).
    rewrite <- Hfst. unfold chat in Hr. rewrite chat_turn_unfold in Hr. cbv zeta in Hr.
    destruct (simulate_transfer (network_sim self) _ w) as [[[]|e] w1];
      [reflexivity | discriminate].
  - unfold draw. rewrite Nat.add_0_r.
    replace (drawn w + 1)%nat with (S (drawn w)) by lia.
    intros Hrate H0 H1. split.
    + apply Hecho. apply simulate_network_passes. now right.
    + unfold chat. rewrite chat_turn_unfold. cbv zeta.
      destruct (simulate_transfer_through (network_sim self)
                  (Z.of_nat (String.length
                               (dumps (McpMethods.chat_args session_id message turn_count))
                             + 100)) w Hrate H0)
        as (w1 & -> & Hr1 & Hd1 & Hc1).
      rewrite send_request_dropped; [reflexivity | assumption | now rewrite Hr1, Hd1].
Qed.

(** X21, an instance: half of the exchanges lost, a first draw of 3/4 and
    1/4 from then on.  The echo returns, the chat turn is lost. *)
Lemma echo_survives_where_chat_turn_does_witness :
  let self := mkClient 0 None (mkSim 50 (1 # 2) 0) in
  let clock : McpMethods.timer := fun w => injected_delay (log w) in
  (exists latency_ms,
     fst (Rest.echo_async (fun _ _ => Ok (Rest.mkResponse 200 "{}")) clock
            (network_sim self) "test" (first_then (3 # 4) (1 # 4)))
     = Ok latency_ms)
  /\ fst (McpMethods.chat_turn (fun _ _ => Ok (JObj [("result", JObj [])]))
            (fun _ => "{}") clock (fun _ => JNull) "session" "test" 1
            (self, first_then (3 # 4) (1 # 4)))
     = Raised packet_loss.
Proof.
  cbv zeta.
  refine (proj2 (echo_survives_where_chat_turn_does
                   (fun _ _ => Ok (JObj [("result", JObj [])]))
                   (fun _ _ => Ok (Rest.mkResponse 200 "{}"))
                   (fun _ => "{}") (fun w => injected_delay (log w)) (fun _ => JNull)
                   "session" "test" "test" 1
                   (mkClient 0 None (mkSim 50 (1 # 2) 0))
                   (first_then (3 # 4) (1 # 4))
                   (Rest.mkResponse 200 "{}") eq_refl) _ _ _).
  - reflexivity.
  - unfold Qle. simpl. lia.
  - reflexivity.
Defined.

(** ** The rows and the file of a batch *)

Section BatchResults.

Import Bench BatchResults.

Variable env : remote.

Lemma successes_count (c : call) (n : nat) :
  forall i st, successes env c n i st = (Ok (returning env c i n), st).
Proof.
  induction n as [|n IH]; intros i st.
  - reflexivity.
  - cbn [successes]. unfold bind at 1, try_except, bind at 1, invoke.
    unfold returning. cbn [seq filter].
    destruct (answer env NetworkInstability c i) as [e|];
      cbn [raise ret any_exception]; unfold bind; rewrite IH; reflexivity.
Qed.

Lemma returning_bound (c : call) (first n : nat) : (returning env c first n <= n)%nat.
Proof.
  unfold returning.
  etransitivity; [apply filter_length_le | now rewrite length_seq].
Qed.






















End BatchResults.

(** X22.  [bench_network_instability] never raises and always returns
    two rows, REST first and MCP second.  The success rate of a row is the
    number of the twenty attempts of that client that returned, over twenty,
    times a hundred; it lies between 0 and 100.  An attempt that raises,
    whatever it raises, only lowers the rate. *)
Theorem instability_rows_report_success_rates (env : Bench.remote) (st : Bench.run) :
  let rate c := (inject_Z (Z.of_nat (BatchResults.returning env c 0 20)) / 20) * 100 in
  let rows := [Bench.mkRow Bench.REST Bench.NetworkInstability
                 (Bench.SuccessRate (rate Bench.rest_echo_async));
               Bench.mkRow Bench.MCP Bench.NetworkInstability
                 (Bench.SuccessRate (rate Bench.mcp_chat_turn))] in
  Bench.bench_network_instability env st
  = (Ok rows,
     Bench.mkRun (Bench.console st ++ [Bench.Benchmarking Bench.NetworkInstability])
                 rows (Bench.all_results st) (Bench.csv st))
  /\ (forall c, 0 <= rate c /\ rate c <= 100).
Proof.
  cbv zeta. split.
  - unfold Bench.bench_network_instability, bind at 1, Bench.new_results, modify.
    unfold bind at 1, Bench.print, modify.
    cbn [Bench.for_each fst snd]. unfold bind at 1, bind at 1, bind at 1.
    rewrite successes_count.
    unfold Bench.append at 1, modify. unfold bind at 1, bind at 1.
    rewrite successes_count.
    unfold Bench.append at 1, modify. cbn [ret].
    unfold Bench.return_results, bind, get_state, ret. reflexivity.
  - intro c. pose proof (returning_bound env c 0 20) as Hle.
    set (k := BatchResults.returning env c 0 20) in *.
    assert (H0 : 0 <= inject_Z (Z.of_nat k)).
    { change 0 with (inject_Z 0). rewrite <- Zle_Qle. lia. }
    assert (H20 : inject_Z (Z.of_nat k) <= 20).
    { change 20 with (inject_Z 20). rewrite <- Zle_Qle. lia. }
    split.
    + apply Qle_trans with (0 / 20 * 100); [unfold Qle; simpl; lia|].
      apply Qmult_le_compat_r; [|discriminate].
      apply Qmult_le_compat_r; [exact H0 | discriminate].
    + apply Qle_trans with (20 / 20 * 100); [|unfold Qle; simpl; lia].
      apply Qmult_le_compat_r; [|discriminate].
      apply Qmult_le_compat_r; [exact H20 | discriminate].
Qed.


(** ** The three-step workflow *)

Section Workflow.

Import McpMethods Workflow.

Lemma call_step_unfold (remote : endpoint) (json_loads : decoder) (dumps : encoder)
    (step : Z) (data : json) (self : McpClient) (w : world) :
  call_step remote json_loads dumps step data (self, w) =
    let payload := step_call step data (request_id self + 1) in
    let st' := (mkClient (request_id self + 1) (session_id self) (network_sim self),
                mkWorld (rand w) (drawn w) (log w ++ [Post "/message" payload])) in
    match remote "/message" payload with
    | Raised e => (Raised e, st')
    | Ok r =>
        (match output_of json_loads r with
         | Ok (Done output) => Ok (Done (output, String.length (dumps payload)))
         | Ok TypeError => Ok TypeError
         | Ok IndexError => Ok IndexError
         | Ok KeyError_0 => Ok KeyError_0
         | Raised e => Raised e
         end, st')
    end.
Proof.
  cbv zeta. unfold call_step, bind at 1, on_client, zoom, _get_next_id. cbn [fst snd].
  unfold bind at 1, on_world, zoom, post. cbn [fst snd rand drawn log request_id].
  destruct (remote "/message" _) as [r|e]; [|reflexivity].
  destruct (output_of json_loads r) as [[o| | |]|e]; reflexivity.
Qed.

Lemma rest_step_unfold (http : Rest.transport) (is_error : Z -> bool)
    (json_loads : decoder) (path : string) (data : json) (w : world) :
  rest_step http is_error json_loads path data w
  = (rest_output http is_error json_loads path data,
     mkWorld (rand w) (drawn w) (log w ++ [Post path (JObj [("input_data", data)])])).
Proof.
  unfold rest_step, rest_output, bind at 1, Rest.post.
  destruct (http path _) as [resp|e]; [|reflexivity].
  unfold bind at 1, Rest.raise_for_status.
  destruct (is_error (Rest.status_code resp)); [reflexivity|].
  cbn [ret]. unfold bind, loads.
  destruct (json_loads (Rest.content resp)); reflexivity.
Qed.

End Workflow.

(** X24.  [McpClient.chain_workflow].  It never consults the network
    simulator: whatever latency and loss rate are set, it draws nothing and
    sleeps for nothing.  A first post that raises ends the chain with that
    exception, one request id used and nothing else posted.  When the
    three answers each carry an output, the chain has posted exactly three
    [workflow_step] calls with the next three request ids, the output of
    each step being the input of the next; it returns the output of the
    third, three steps, and as bytes the sizes of the three payloads as they
    were posted. *)
Theorem mcp_chain_feeds_each_step_the_last_output (remote : endpoint)
    (json_loads : decoder) (dumps : McpMethods.encoder) (clock : McpMethods.timer)
    (input_data : json) (self : McpClient) (w : world) :
  let n := request_id self in
  let chain :=
    Workflow.mcp_chain_workflow remote json_loads dumps clock input_data (self, w) in
  (forall e,
     remote "/message" (Workflow.step_call 1 input_data (n + 1)) = Raised e ->
     chain = (Raised e,
              (mkClient (n + 1) (session_id self) (network_sim self),
               mkWorld (rand w) (drawn w)
                 (log w ++ [Post "/message" (Workflow.step_call 1 input_data (n + 1))]))))
  /\ (forall r1 r2 r3 o1 o2 o3,
        let p1 := Workflow.step_call 1 input_data (n + 1) in
        let p2 := Workflow.step_call 2 o1 (n + 2) in
        let p3 := Workflow.step_call 3 o2 (n + 3) in
        remote "/message" p1 = Ok r1 ->
        Workflow.output_of json_loads r1 = Ok (Workflow.Done o1) ->
        remote "/message" p2 = Ok r2 ->
        Workflow.output_of json_loads r2 = Ok (Workflow.Done o2) ->
        remote "/message" p3 = Ok r3 ->
        Workflow.output_of json_loads r3 = Ok (Workflow.Done o3) ->
        exists latency_ms,
          chain = (Ok (Workflow.Done
                         (Workflow.mkReport latency_ms o3
                            (String.length (dumps p1) + String.length (dumps p2)
                             + String.length (dumps p3)) 3)),
                   (mkClient (n + 3) (session_id self) (network_sim self),
                    mkWorld (rand w) (drawn w)
                      (log w ++ [Post "/message" p1; Post "/message" p2;
                                 Post "/message" p3])))).
Proof.
  cbv zeta. split.
  - intros e He.
    unfold Workflow.mcp_chain_workflow, bind at 1, McpMethods.perf_counter.
    unfold Workflow.and_then at 1, bind at 1.
    rewrite call_step_unfold. cbv zeta. now rewrite He.
  - intros r1 r2 r3 o1 o2 o3 H1 Ho1 H2 Ho2 H3 Ho3.
    unfold Workflow.mcp_chain_workflow, bind at 1, McpMethods.perf_counter.
    unfold Workflow.and_then at 1, bind at 1.
    rewrite call_step_unfold. cbv zeta. rewrite H1, Ho1. cbn [fst snd].
    unfold Workflow.and_then at 1, bind at 1.
    rewrite call_step_unfold. cbv zeta. cbn [request_id session_id network_sim].
    replace (request_id self + 1 + 1)%Z with (request_id self + 2)%Z by lia.
    rewrite H2, Ho2. cbn [fst snd rand drawn log].
    unfold Workflow.and_then at 1, bind at 1.
    rewrite call_step_unfold. cbv zeta. cbn [request_id session_id network_sim].
    replace (request_id self + 2 + 1)%Z with (request_id self + 3)%Z by lia.
    rewrite H3, Ho3. cbn [fst snd rand drawn log].
    unfold bind, McpMethods.perf_counter, ret. cbn [fst snd].
    rewrite <- !app_assoc. cbn [app].
    eexists. reflexivity.
Qed.

(** X25.  [RestClient.chain_workflow].  It never consults the network
    simulator either.  When the three answers each carry an output, it has
    posted the input to step 1, the output of step 1 to step 2 and the
    output of step 2 to step 3, in this order, and returns the output of
    step 3 and three steps.  The bytes it reports are not those of the
    payloads: they are the lengths of the three inputs plus 100 each, so the
    chain stops on a [TypeError], its three posts made, when the output of
    step 1 or step 2 is a number, a boolean or [None]. *)
Theorem rest_chain_counts_input_lengths (http : Rest.transport) (is_error : Z -> bool)
    (json_loads : decoder) (clock : McpMethods.timer) (input_data : string)
    (w : world) (o1 o2 o3 : json) :
  let chain :=
    Workflow.rest_chain_workflow http is_error json_loads clock input_data w in
  let posts := [Post "/workflow/step1" (JObj [("input_data", JStr input_data)]);
                Post "/workflow/step2" (JObj [("input_data", o1)]);
                Post "/workflow/step3" (JObj [("input_data", o2)])] in
  Workflow.rest_output http is_error json_loads "/workflow/step1" (JStr input_data)
  = Ok (Workflow.Done o1) ->
  Workflow.rest_output http is_error json_loads "/workflow/step2" o1
  = Ok (Workflow.Done o2) ->
  Workflow.rest_output http is_error json_loads "/workflow/step3" o2
  = Ok (Workflow.Done o3) ->
  rand (snd chain) = rand w
  /\ drawn (snd chain) = drawn w
  /\ (forall n1 n2,
        Workflow.len o1 = Some n1 -> Workflow.len o2 = Some n2 ->
        log (snd chain) = log w ++ posts
        /\ exists latency_ms,
             fst chain
             = Ok (Workflow.Done
                     (Workflow.mkReport latency_ms o3
                        (String.length input_data + n1 + n2 + 300) 3)))
  /\ (Workflow.len o1 = None \/ Workflow.len o2 = None ->
      fst chain = Ok Workflow.TypeError
      /\ remote_calls (log (snd chain)) = remote_calls (log w) ++ firstn
           (match Workflow.len o1 with Some _ => 3 | None => 2 end) posts).
Proof.
  intros chain posts H1 H2 H3.
  assert (Hchain : chain =
    let w1 := mkWorld (rand w) (drawn w)
                (log w ++ [Post "/workflow/step1" (JObj [("input_data", JStr input_data)])]) in
    let w2 := mkWorld (rand w) (drawn w)
                (log w1 ++ [Post "/workflow/step2" (JObj [("input_data", o1)])]) in
    let w3 := mkWorld (rand w) (drawn w)
                (log w2 ++ [Post "/workflow/step3" (JObj [("input_data", o2)])]) in
    match Workflow.len o1 with
    | None => (Ok Workflow.TypeError, w2)
    | Some n1 =>
        match Workflow.len o2 with
        | None => (Ok Workflow.TypeError, w3)
        | Some n2 =>
            (Ok (Workflow.Done
                   (Workflow.mkReport ((clock w3 - clock w) * 1000) o3
                      (0 + (String.length input_data + 100) + (n1 + 100) + (n2 + 100)) 3)),
             w3)
        end
    end).
  { unfold chain, Workflow.rest_chain_workflow, bind at 1, Rest.clock_now.
    unfold Workflow.and_then at 1, bind at 1.
    rewrite rest_step_unfold, H1.
    unfold Workflow.and_then at 1, bind at 1, Workflow.add_len at 1.
    cbn [Workflow.len ret].
    unfold Workflow.and_then at 1, bind at 1.
    rewrite rest_step_unfold, H2. cbn [rand drawn log].
    unfold Workflow.and_then at 1, bind at 1, Workflow.add_len at 1.
    destruct (Workflow.len o1) as [n1|]; cbn [ret]; [|reflexivity].
    unfold Workflow.and_then at 1, bind at 1.
    rewrite rest_step_unfold, H3. cbn [rand drawn log].
    unfold Workflow.and_then at 1, bind at 1, Workflow.add_len at 1.
    destruct (Workflow.len o2) as [n2|]; cbn [ret]; [|reflexivity].
    unfold bind, Rest.clock_now, ret. reflexivity. }
  rewrite Hchain. clear Hchain chain. cbv zeta.
  destruct (Workflow.len o1) as [n1|]; [destruct (Workflow.len o2) as [n2|]|];
    cbn [fst snd rand drawn log].
  - split; [reflexivity|]. split; [reflexivity|]. split.
    + intros m1 m2 E1 E2. inversion E1. inversion E2. subst m1 m2. split.
      * unfold posts. now rewrite <- !app_assoc.
      * eexists. do 3 f_equal. lia.
    + intros [H|H]; discriminate.
  - split; [reflexivity|]. split; [reflexivity|]. split; [discriminate|].
    intros _. split; [reflexivity|].
    rewrite !remote_calls_app. cbn. now rewrite <- !app_assoc.
  - split; [reflexivity|]. split; [reflexivity|]. split; [discriminate|].
    intros _. split; [reflexivity|].
    rewrite !remote_calls_app. cbn. now rewrite <- !app_assoc.
Qed.

Section ServedWorkflow.

Import McpMethods Workflow.

Lemma length_append (s1 s2 : string) :
  String.length (s1 ++ s2) = (String.length s1 + String.length s2)%nat.
Proof.
  induction s1 as [|c s1 IH]; [reflexivity|].
  change (S (String.length (s1 ++ s2)) = S (String.length s1 + String.length s2)).
  now rewrite IH.
Qed.

Lemma step1_returns (input : string) :
  returns (step1 input) (step_result ("Processed(" ++ input ++ ")") 1).
Proof. intro w. reflexivity. Qed.

Lemma step2_returns (input : string) :
  returns (step2 input) (step_result ("Analyzed(" ++ input ++ ")") 2).
Proof. intro w. reflexivity. Qed.

Lemma step3_returns (input : string) :
  returns (step3 input) (step_result ("Summary(" ++ input ++ ")") 3).
Proof. intro w. reflexivity. Qed.

(** What the client reads out of the answer to a step. *)
Lemma output_of_response (json_loads : decoder) (server_dumps : encoder)
    (id : json) (output : string) (step : Z) :
  json_loads (server_dumps (step_result output step)) = Some (step_result output step) ->
  output_of json_loads
    (response id
       (JObj [("content",
               JArr [JObj [("type", JStr "text");
                           ("text", JStr (server_dumps (step_result output step)))]])])
       JNull)
  = Ok (Done (JStr output)).
Proof.
  intro H. unfold output_of, response, getitem. cbn [Json.get String.eqb Ascii.eqb Bool.eqb].
  change (Json.get [("content",
                     JArr [JObj [("type", JStr "text");
                                 ("text", JStr (server_dumps (step_result output step)))]])]
                   "content")
    with (Some (JArr [JObj [("type", JStr "text");
                            ("text", JStr (server_dumps (step_result output step)))]])).
  cbv beta iota.
  change (Json.get [("type", JStr "text");
                    ("text", JStr (server_dumps (step_result output step)))] "text")
    with (Some (JStr (server_dumps (step_result output step)))).
  cbv beta iota. rewrite H. reflexivity.
Qed.

Lemma rest_output_served (http : Rest.transport) (is_error : Z -> bool)
    (json_loads : decoder) (server_dumps : encoder) (path : string)
    (handler : string -> M world json) (input output : string) (step : Z) :
  is_error 200%Z = false ->
  returns (handler input) (step_result output step) ->
  json_loads (server_dumps (step_result output step)) = Some (step_result output step) ->
  rest_serves http server_dumps path handler input ->
  rest_output http is_error json_loads path (JStr input) = Ok (Done (JStr output)).
Proof.
  intros Hok Hret Hcodec Hserves. unfold rest_output.
  rewrite (Hserves _ Hret). cbn [Rest.status_code Rest.content].
  rewrite Hok, Hcodec. reflexivity.
Qed.

End ServedWorkflow.

(** X26.  The tool-chaining scenario against the bundled servers.  When
    each of the two endpoints answers the three steps as the handlers of its
    server do, and the client decodes what the server encoded, the two
    chains return the same result for the same input,
    [Summary(Analyzed(Processed(input)))], in three steps each, and the REST
    client reports three times the length of the input plus 332 bytes. *)
Theorem chains_agree_on_the_bundled_servers (http : Rest.transport)
    (remote : endpoint) (is_error : Z -> bool) (json_loads : decoder)
    (server_dumps dumps : McpMethods.encoder) (clock : McpMethods.timer)
    (input : string) (self : McpClient) (w : world) :
  let d2 := ("Processed(" ++ input ++ ")")%string in
  let d3 := ("Analyzed(" ++ d2 ++ ")")%string in
  let out := ("Summary(" ++ d3 ++ ")")%string in
  let n := request_id self in
  is_error 200%Z = false ->
  json_loads (server_dumps (Workflow.step_result d2 1)) = Some (Workflow.step_result d2 1) ->
  json_loads (server_dumps (Workflow.step_result d3 2)) = Some (Workflow.step_result d3 2) ->
  json_loads (server_dumps (Workflow.step_result out 3)) = Some (Workflow.step_result out 3) ->
  Workflow.rest_serves http server_dumps "/workflow/step1" Workflow.step1 input ->
  Workflow.rest_serves http server_dumps "/workflow/step2" Workflow.step2 d2 ->
  Workflow.rest_serves http server_dumps "/workflow/step3" Workflow.step3 d3 ->
  Workflow.mcp_serves remote server_dumps 1 input (n + 1) ->
  Workflow.mcp_serves remote server_dumps 2 d2 (n + 2) ->
  Workflow.mcp_serves remote server_dumps 3 d3 (n + 3) ->
  exists rest mcp,
    fst (Workflow.rest_chain_workflow http is_error json_loads clock input w)
    = Ok (Workflow.Done rest)
    /\ fst (Workflow.mcp_chain_workflow remote json_loads dumps clock (JStr input) (self, w))
       = Ok (Workflow.Done mcp)
    /\ Workflow.result rest = JStr out
    /\ Workflow.result mcp = JStr out
    /\ Workflow.steps rest = 3%Z
    /\ Workflow.steps mcp = 3%Z
    /\ Workflow.bytes_sent rest = (3 * String.length input + 332)%nat.
Proof.
  intros d2 d3 out n Hok C1 C2 C3 R1 R2 R3 M1 M2 M3.
  pose proof (rest_output_served http is_error json_loads server_dumps _ _ input d2 1
                Hok (step1_returns input) C1 R1) as O1.
  pose proof (rest_output_served http is_error json_loads server_dumps _ _ d2 d3 2
                Hok (step2_returns d2) C2 R2) as O2.
  pose proof (rest_output_served http is_error json_loads server_dumps _ _ d3 out 3
                Hok (step3_returns d3) C3 R3) as O3.
  eexists. eexists.
  split.
  { unfold Workflow.rest_chain_workflow, bind at 1, Rest.clock_now.
    unfold Workflow.and_then at 1, bind at 1. rewrite rest_step_unfold, O1.
    unfold Workflow.and_then at 1, bind at 1, Workflow.add_len at 1.
    cbn [Workflow.len ret].
    unfold Workflow.and_then at 1, bind at 1. rewrite rest_step_unfold, O2.
    unfold Workflow.and_then at 1, bind at 1, Workflow.add_len at 1.
    cbn [Workflow.len ret].
    unfold Workflow.and_then at 1, bind at 1. rewrite rest_step_unfold, O3.
    unfold Workflow.and_then at 1, bind at 1, Workflow.add_len at 1.
    cbn [Workflow.len ret].
    unfold bind, Rest.clock_now, ret. cbn [fst]. reflexivity. }
  split.
  { unfold Workflow.mcp_chain_workflow, bind at 1, McpMethods.perf_counter.
    unfold Workflow.and_then at 1, bind at 1.
    rewrite call_step_unfold. cbv zeta. fold n.
    rewrite (M1 _ (fun w0 => eq_refl)).
    rewrite (output_of_response json_loads server_dumps _ d2 1 C1). cbn [fst snd].
    unfold Workflow.and_then at 1, bind at 1.
    rewrite call_step_unfold. cbv zeta. cbn [request_id session_id network_sim].
    replace (n + 1 + 1)%Z with (n + 2)%Z by lia.
    rewrite (M2 _ (fun w0 => eq_refl)).
    rewrite (output_of_response json_loads server_dumps _ d3 2 C2). cbn [fst snd].
    unfold Workflow.and_then at 1, bind at 1.
    rewrite call_step_unfold. cbv zeta. cbn [request_id session_id network_sim].
    replace (n + 2 + 1)%Z with (n + 3)%Z by lia.
    rewrite (M3 _ (fun w0 => eq_refl)).
    rewrite (output_of_response json_loads server_dumps _ out 3 C3). cbn [fst snd].
    unfold bind, McpMethods.perf_counter, ret. cbn [fst snd]. reflexivity. }
  cbn [Workflow.result Workflow.steps Workflow.bytes_sent].
  repeat (split; [reflexivity|]).
  unfold d3, d2. rewrite !length_append.
  change (String.length "Processed(") with 10%nat.
  change (String.length "Analyzed(") with 9%nat.
  change (String.length ")") with 1%nat.
  lia.
Qed.

(** X26, an instance: the input of the benchmark, [start], 5 characters
    and 347 bytes reported. *)
Lemma chains_agree_on_the_bundled_servers_witness :
  exists rest mcp,
    fst (Workflow.rest_chain_workflow WorkflowScript.rest_app WorkflowScript.is_error
           Json.loads (fun w => injected_delay (log w)) "start" (constant_world 0))
    = Ok (Workflow.Done rest)
    /\ fst (Workflow.mcp_chain_workflow WorkflowScript.mcp_app Json.loads (fun _ => "{}")
              (fun w => injected_delay (log w)) (JStr "start")
              (Mcp.init, constant_world 0))
       = Ok (Workflow.Done mcp)
    /\ Workflow.result rest = JStr "Summary(Analyzed(Processed(start)))"
    /\ Workflow.result mcp = JStr "Summary(Analyzed(Processed(start)))"
    /\ Workflow.steps rest = 3%Z
    /\ Workflow.steps mcp = 3%Z
    /\ Workflow.bytes_sent rest = 347%nat.
Proof.
  apply (chains_agree_on_the_bundled_servers
           WorkflowScript.rest_app WorkflowScript.mcp_app WorkflowScript.is_error
           Json.loads WorkflowScript.step_text (fun _ => "{}")
           (fun w => injected_delay (log w)) "start" Mcp.init (constant_world 0)).
  - reflexivity.
  - vm_compute. reflexivity.
  - vm_compute. reflexivity.
  - vm_compute. reflexivity.
  - intros body H. specialize (H (constant_world 0)). inversion H. reflexivity.
  - intros body H. specialize (H (constant_world 0)). inversion H. reflexivity.
  - intros body H. specialize (H (constant_world 0)). inversion H. reflexivity.
  - intros resp H. specialize (H (constant_world 0)). inversion H. reflexivity.
  - intros resp H. specialize (H (constant_world 0)). inversion H. reflexivity.
  - intros resp H. specialize (H (constant_world 0)). inversion H. reflexivity.
Defined.

(** X25, an instance: the REST server of the repository and the input of
    the benchmark. *)
Lemma rest_chain_counts_input_lengths_witness :
  exists latency_ms,
    fst (Workflow.rest_chain_workflow WorkflowScript.rest_app WorkflowScript.is_error
           Json.loads (fun w => injected_delay (log w)) "start" (constant_world 0))
    = Ok (Workflow.Done
            (Workflow.mkReport latency_ms (JStr "Summary(Analyzed(Processed(start)))")
               347 3)).
Proof.
  refine (proj2 (proj1 (proj2 (proj2
            (rest_chain_counts_input_lengths
               WorkflowScript.rest_app WorkflowScript.is_error Json.loads
               (fun w => injected_delay (log w)) "start" (constant_world 0)
               (JStr "Processed(start)") (JStr "Analyzed(Processed(start))")
               (JStr "Summary(Analyzed(Processed(start)))") _ _ _)))
            16%nat 26%nat eq_refl eq_refl)).
  - vm_compute. reflexivity.
  - vm_compute. reflexivity.
  - vm_compute. reflexivity.
Defined.
